(** * Hall-sensor logger firmware: command decoding, recording state and
      telemetry framing

    Shallow embedding of the three [loop()] bodies of the repository

    - [src/nrf52_hall/src/main.cpp]              (module [Simple]),
    - [src/unnamed/part_000]                     (module [Batched]),
    - [src/nrf52_with_hall/nrf52_with_hall.ino]  (module [Extended]),

    together with the small part of the C library and of the Arduino core
    that those bodies call ([String], [atol], [snprintf], [strlen],
    [memset]).  The target is a 32-bit ARM (nRF52): [int], [long],
    [size_t] and pointers are 32 bits wide, [unsigned long] arithmetic
    wraps modulo [2^32]. *)

From Stdlib Require Import ZArith String Ascii Bool Lia List.
Import ListNotations.
Open Scope list_scope.
Open Scope Z_scope.

(* ================================================================== *)
(** ** 32-bit machine arithmetic *)

Module Word32.

Definition modulus : Z := 2 ^ 32.
Definition INT_MAX : Z := 2 ^ 31 - 1.

(** Value of an expression of type [unsigned int] / [unsigned long] /
    [size_t]. *)
Definition wrap (z : Z) : Z := z mod modulus.

(** [a - b] on two unsigned 32-bit operands. *)
Definition sub (a b : Z) : Z := wrap (a - b).

(** The same 32 bits read as an [int] (what [%i] prints). *)
Definition signed (z : Z) : Z :=
  let u := wrap z in if u <=? INT_MAX then u else u - modulus.

End Word32.

(* ================================================================== *)
(** ** C character arrays *)

Module CArray.

Definition NUL : ascii := Ascii.zero.

(** [strlen]: index of the first NUL.  [None] when the array holds no NUL,
    i.e. when the scan would leave the array. *)
Fixpoint strlen (mem : list ascii) : option nat :=
  match mem with
  | [] => None
  | c :: rest =>
      if Ascii.eqb c NUL then Some O else option_map S (strlen rest)
  end.

(** The C string stored at the start of [mem] (what [write(const char * )]
    transmits). *)
Definition cstring (mem : list ascii) : option (list ascii) :=
  option_map (fun n => firstn n mem) (strlen mem).

(** Store of the bytes [bs] at offsets [off, off+1, ...] of the array.
    [None] when one of the stores falls outside the array. *)
Definition store_bytes (mem : list ascii) (off : Z) (bs : list ascii)
  : option (list ascii) :=
  if (0 <=? off) && (off + Z.of_nat (length bs) <=? Z.of_nat (length mem))
  then Some (firstn (Z.to_nat off) mem ++ bs
             ++ skipn (Z.to_nat off + length bs) mem)
  else None.

(** [mem[i] = c]. *)
Definition store (mem : list ascii) (i : Z) (c : ascii)
  : option (list ascii) :=
  store_bytes mem i [c].

(** [memset(mem, 0, n)] on an array of exactly [n] bytes. *)
Definition zeroed (n : nat) : list ascii := repeat NUL n.

Definition no_NUL (bs : list ascii) : Prop := Forall (fun c => c <> NUL) bs.

End CArray.

(* ================================================================== *)
(** ** The Arduino [String] operations used by the sketches

    [String] is the Arduino core's [WString]; its contents are modelled
    as [string].  Allocation failure inside [String] is not modelled. *)

Module WString.

(** The character of the decimal digit [d]. *)
Definition digit_char (d : Z) : ascii := ascii_of_nat (Z.to_nat (48 + d)).

(** The digits of [z], least significant first, pushed in front of [acc];
    [fuel] bounds the number of digits after the first. *)
Fixpoint decimal_digits (fuel : nat) (z : Z) (acc : string) : string :=
  let acc' := String (digit_char (z mod 10)) acc in
  match fuel with
  | O => acc'
  | S fuel' => if z <? 10 then acc' else decimal_digits fuel' (z / 10) acc'
  end.

(** Decimal text of an unsigned 32-bit value ([%lu], and [itoa(num, buf,
    10)] on a byte): at most ten digits, no leading zero. *)
Definition decimal (z : Z) : string := decimal_digits 9 z EmptyString.

(** [%i]: decimal text of an [int]. *)
Definition signed_decimal (z : Z) : string :=
  if z <? 0 then String "-" (decimal (- z)) else decimal z.

(** [s += ch] with [ch] of type [uint8_t]: overload resolution picks
    [String::concat(unsigned char num)], which appends the DECIMAL text of
    the byte, not the character.  A received ['0'] (byte 48) therefore
    shows up in the text as the two characters ["48"], which is what the
    sketches undo with [toInt() - 48]. *)
Definition concat_uchar (s : string) (num : Z) : string :=
  (s ++ decimal (num mod 256))%string.

(** [s.substring(left, right)]. *)
Definition substring (s : string) (left right : nat) : string :=
  let (left, right) :=
    if (right <? left)%nat then (right, left) else (left, right) in
  if (String.length s <=? left)%nat then EmptyString
  else String.substring left (Nat.min right (String.length s) - left) s.

(** [s.substring(left)] is [s.substring(left, s.length())]. *)
Definition substring_from (s : string) (left : nat) : string :=
  substring s left (String.length s).

Definition isspace (c : ascii) : bool :=
  let n := nat_of_ascii c in
  (n =? 32)%nat || ((9 <=? n)%nat && (n <=? 13)%nat).

Definition digit_of (c : ascii) : option Z :=
  let n := Z.of_nat (nat_of_ascii c) in
  if (48 <=? n) && (n <=? 57) then Some (n - 48) else None.

Fixpoint skip_spaces (s : string) : string :=
  match s with
  | String c rest => if isspace c then skip_spaces rest else s
  | EmptyString => s
  end.

Fixpoint atol_digits (acc : Z) (s : string) : Z :=
  match s with
  | String c rest =>
      match digit_of c with
      | Some d => atol_digits (10 * acc + d) rest
      | None => acc
      end
  | EmptyString => acc
  end.

(** [atol]: optional white space, optional sign, then the longest run of
    digits; [0] when there is none.  (Overflow of [long] cannot occur on
    the at most two characters the sketches pass.) *)
Definition atol (s : string) : Z :=
  match skip_spaces s with
  | String c rest =>
      if Ascii.eqb c "-" then - atol_digits 0 rest
      else if Ascii.eqb c "+" then atol_digits 0 rest
      else atol_digits 0 (String c rest)
  | EmptyString => 0
  end.

(** [s.toInt()]. *)
Definition toInt (s : string) : Z := atol s.

End WString.

(* ================================================================== *)
(** ** What a run of [loop()] can do to the outside world *)

(** Output of the sketch: text on the debug console ([Serial]) and
    messages handed to the BLE UART ([bleuart.write]). *)
Inductive event : Type :=
| SerialOut (text : string)
| BleOut (bytes : list ascii).

(** Memory accesses that leave the array they are addressed through: a
    store at an index outside it, or a scan for a NUL that is not there. *)
Inductive fault : Type :=
| OutOfBounds (index : Z)
| Unterminated.

(** A piece of [loop()] either runs to its end, calls [exit], or performs
    a memory access outside the object it addresses. *)
Inductive outcome (S : Type) : Type :=
| Running (out : list event) (st : S)
| Exited (out : list event) (status : Z) (st : S)
| Faulted (out : list event) (f : fault).

Arguments Running {S} out st.
Arguments Exited {S} out status st.
Arguments Faulted {S} out f.

Definition emit {S : Type} (pre : list event) (o : outcome S) : outcome S :=
  match o with
  | Running out st => Running (pre ++ out) st
  | Exited out status st => Exited (pre ++ out) status st
  | Faulted out f => Faulted (pre ++ out) f
  end.

Definition bind {S : Type} (o : outcome S) (k : S -> outcome S) : outcome S :=
  match o with
  | Running out st => emit out (k st)
  | _ => o
  end.

Notation "o >>= k" := (bind o k) (at level 50, left associativity).

(** The BLE messages among the events, in order. *)
Fixpoint ble_messages (out : list event) : list (list ascii) :=
  match out with
  | [] => []
  | BleOut bytes :: rest => bytes :: ble_messages rest
  | SerialOut _ :: rest => ble_messages rest
  end.

Definition events {S : Type} (o : outcome S) : list event :=
  match o with
  | Running out _ | Exited out _ _ | Faulted out _ => out
  end.

Definition CRLF : string := String "013" (String "010" EmptyString).

(** [Serial.println(text)]. *)
Definition println (text : string) : event := SerialOut (text ++ CRLF)%string.

(* ================================================================== *)
(** ** [printf]-family calls of the sketches *)

Module Stdio.

Import CArray.

(** ["%i:%lu:%lu"]: first field an [int], the other two [unsigned long]. *)
Definition format_i_lu_lu (code elapsed value : Z) : string :=
  (WString.signed_decimal code ++ ":" ++ WString.decimal elapsed
   ++ ":" ++ WString.decimal value)%string.

(** ["%i:%i:%i"]: all three fields printed as [int]. *)
Definition format_i_i_i (code elapsed value : Z) : string :=
  (WString.signed_decimal code ++ ":"
   ++ WString.signed_decimal (Word32.signed elapsed)
   ++ ":" ++ WString.signed_decimal (Word32.signed value))%string.

(** [snprintf(mem + off, n, ...)] where the complete formatted text is
    [text].  At most [n - 1] characters of [text] and a terminating NUL are
    stored; nothing is stored when [n = 0].  The result is the length of
    the COMPLETE text, also when it was truncated; newlib (and POSIX)
    refuse [n > INT_MAX] with [-1].  The first component is [None] when a
    store would fall outside the array. *)
Definition snprintf (mem : list ascii) (off n : Z) (text : string)
  : option (list ascii) * Z :=
  let len := Z.of_nat (String.length text) in
  if n >? Word32.INT_MAX then (Some mem, -1)
  else if n =? 0 then (Some mem, len)
  else
    let kept := firstn (Z.to_nat (Z.min len (n - 1)))
                       (list_ascii_of_string text) in
    (store_bytes mem off (kept ++ [NUL]), len).

(** [sprintf(mem, ...)]: the whole text and a NUL, unchecked. *)
Definition sprintf (mem : list ascii) (text : string) : option (list ascii) :=
  store_bytes mem 0 (list_ascii_of_string text ++ [NUL]).

End Stdio.

(* ================================================================== *)
(** ** The batched sketch ([src/unnamed/part_000]) *)

Module Batched.

Import CArray.

(** [enum recordingState]. *)
Inductive recordingState : Type := STOPPED | RECORDING.

(** [enum commandAction]; a variable of that type is modelled by the
    integer it was assigned, since the sketch assigns it by a cast. *)
Definition STOP_RECORDING : Z := 0.
Definition START_RECORDING : Z := 1.

Definition metricTypeCode : Z := 1.
Definition sizeof_outputBuffer : Z := 1024.
Definition metricsSendFrequencyMs : Z := 1000.
Definition recordingFrequencyMs : Z := 200.

(** The global variables of the sketch.  [endOfBuffer] is the pointer of
    that name, kept as its distance from [&outputBuffer[0]]. *)
Record state : Type := mkState {
  hallValue : Z;
  elapsedStartMillis : Z;
  inputString : string;
  currentCommand : Z;
  currentRecordingState : recordingState;
  outputBuffer : list ascii;
  endOfBuffer : Z;
  remainingSpace : Z;
  lastSendTimeMillis : Z
}.

Definition set_hallValue (v : Z) (st : state) : state :=
  mkState v (elapsedStartMillis st) (inputString st) (currentCommand st)
    (currentRecordingState st) (outputBuffer st) (endOfBuffer st)
    (remainingSpace st) (lastSendTimeMillis st).

Definition set_elapsedStartMillis (v : Z) (st : state) : state :=
  mkState (hallValue st) v (inputString st) (currentCommand st)
    (currentRecordingState st) (outputBuffer st) (endOfBuffer st)
    (remainingSpace st) (lastSendTimeMillis st).

Definition set_inputString (v : string) (st : state) : state :=
  mkState (hallValue st) (elapsedStartMillis st) v (currentCommand st)
    (currentRecordingState st) (outputBuffer st) (endOfBuffer st)
    (remainingSpace st) (lastSendTimeMillis st).

Definition set_currentCommand (v : Z) (st : state) : state :=
  mkState (hallValue st) (elapsedStartMillis st) (inputString st) v
    (currentRecordingState st) (outputBuffer st) (endOfBuffer st)
    (remainingSpace st) (lastSendTimeMillis st).

Definition set_currentRecordingState (v : recordingState) (st : state)
  : state :=
  mkState (hallValue st) (elapsedStartMillis st) (inputString st)
    (currentCommand st) v (outputBuffer st) (endOfBuffer st)
    (remainingSpace st) (lastSendTimeMillis st).

(** The three variables of the frame buffer change together. *)
Definition set_frame (mem : list ascii) (cursor space : Z) (st : state)
  : state :=
  mkState (hallValue st) (elapsedStartMillis st) (inputString st)
    (currentCommand st) (currentRecordingState st) mem cursor space
    (lastSendTimeMillis st).

Definition set_lastSendTimeMillis (v : Z) (st : state) : state :=
  mkState (hallValue st) (elapsedStartMillis st) (inputString st)
    (currentCommand st) (currentRecordingState st) (outputBuffer st)
    (endOfBuffer st) (remainingSpace st) v.

(** The globals as their initialisers (and zero-initialisation) leave them. *)
Definition power_on : state :=
  mkState 0 0 EmptyString 0 STOPPED
    (zeroed (Z.to_nat sizeof_outputBuffer)) 0 sizeof_outputBuffer 0.

(** [resetOutputBuffer()]. *)
Definition resetOutputBuffer (st : state) : state :=
  set_frame (zeroed (Z.to_nat sizeof_outputBuffer)) 0 sizeof_outputBuffer st.

(** [writeAll(str)]: the C string at [str] goes to the console and to the
    BLE UART. *)
Definition writeAll (str : list ascii) : list event :=
  [SerialOut (string_of_list_ascii str); BleOut str].

(** Lines 162-166: every byte the BLE UART holds is appended to
    [inputString]. *)
Definition loop_read (rx : list Z) (st : state) : state :=
  set_inputString (fold_left WString.concat_uchar rx (inputString st)) st.

(** Line 171: the value assigned to [currentCommand]. *)
Definition action_code (text : string) : Z :=
  WString.toInt (WString.substring text 0 2) - 48.

(** Lines 173-181: the [if]/[else if] on [currentCommand]. *)
Definition apply_command (now : Z) (st : state) : list event * state :=
  if currentCommand st =? STOP_RECORDING then
    ([println "received STOP_RECORDING command"],
     set_currentRecordingState STOPPED st)
  else if currentCommand st =? START_RECORDING then
    ([println "received START_RECORDING command"],
     set_elapsedStartMillis now (set_currentRecordingState RECORDING st))
  else ([], st).

(** Lines 167-183. *)
Definition loop_command (now : Z) (st : state) : list event * state :=
  if (0 <? String.length (inputString st))%nat then
    let st1 := set_currentCommand (action_code (inputString st)) st in
    let (out, st2) := apply_command now st1 in
    (println (inputString st) :: out, set_inputString EmptyString st2)
  else ([], st).

(** Line 198: [millis() - elapsedStartMillis]. *)
Definition elapsed_ms (now : Z) (st : state) : Z :=
  Word32.sub now (elapsedStartMillis st).

(** The text of one record, ["%i:%lu:%lu;"]. *)
Definition record_text (code elapsed value : Z) : string :=
  (Stdio.format_i_lu_lu code elapsed value ++ ";")%string.

(** Lines 193-208: one record is formatted at [endOfBuffer] with room
    [remainingSpace]; a positive result of [snprintf] advances the
    cursor, anything else prints the diagnostic and calls [exit(1)]. *)
Definition append (text : string) (st : state) : outcome state :=
  match Stdio.snprintf (outputBuffer st) (endOfBuffer st)
                       (remainingSpace st) text with
  | (None, _) => Faulted [] (OutOfBounds (endOfBuffer st))
  | (Some mem, writtenBytes) =>
      if writtenBytes >? 0 then
        Running [] (set_frame mem (endOfBuffer st + writtenBytes)
                      (Word32.wrap (remainingSpace st - writtenBytes)) st)
      else
        Exited [SerialOut "Something is wrong with the buffer"] 1
               (set_frame mem (endOfBuffer st) (remainingSpace st) st)
  end.

(** The record formatted on lines 193-200. *)
Definition sample_text (now : Z) (st : state) : string :=
  record_text metricTypeCode (elapsed_ms now st) (hallValue st).

(** Lines 188-209. *)
Definition loop_append (now sensor : Z) (st : state) : outcome state :=
  match currentRecordingState st with
  | STOPPED => Running [] st
  | RECORDING =>
      let st1 := set_hallValue (Word32.wrap sensor) st in
      append (sample_text now st1) st1
  end.

(** Lines 214-218, the body of the send branch: the last character of the
    C string in [outputBuffer] is overwritten with NUL at index
    [strlen(outputBuffer) - 1] (a [size_t]), the string is sent, the
    buffer and the timer are reset. *)
Definition flush (t_sent : Z) (st : state) : outcome state :=
  match strlen (outputBuffer st) with
  | None => Faulted [] Unterminated
  | Some n =>
      let index := Word32.wrap (Z.of_nat n - 1) in
      match store (outputBuffer st) index NUL with
      | None => Faulted [] (OutOfBounds index)
      | Some mem =>
          match cstring mem with
          | None => Faulted [] Unterminated
          | Some str =>
              Running (writeAll str)
                (set_lastSendTimeMillis t_sent (resetOutputBuffer st))
          end
      end
  end.

(** Line 212. *)
Definition should_flush (now : Z) (st : state) : bool :=
  Word32.sub now (lastSendTimeMillis st) >? metricsSendFrequencyMs.

(** Lines 211-219. *)
Definition loop_flush (t_check t_sent : Z) (st : state) : outcome state :=
  if should_flush t_check st then flush t_sent st else Running [] st.

(** The readings one run of [loop()] takes from its surroundings: the
    bytes waiting in the BLE UART, the sensor, and [millis()] at each of
    its four call sites. *)
Record tick : Type := mkTick {
  rx : list Z;
  sensor : Z;
  t_start : Z;     (* line 180 *)
  t_sample : Z;    (* line 198 *)
  t_check : Z;     (* line 212 *)
  t_sent : Z       (* line 218 *)
}.

(** [loop()]. *)
Definition loop (tk : tick) (st : state) : outcome state :=
  let (out, st1) := loop_command (t_start tk) (loop_read (rx tk) st) in
  emit out (loop_append (t_sample tk) (sensor tk) st1
            >>= loop_flush (t_check tk) (t_sent tk)).

(** Repeated [loop()]; a run that exited or faulted stays where it is. *)
Fixpoint run (tks : list tick) (st : state) : outcome state :=
  match tks with
  | [] => Running [] st
  | tk :: rest => loop tk st >>= run rest
  end.

(** A sequence of [append]s, as the claims about the frame buffer
    quantify over them. *)
Fixpoint appends (texts : list string) (st : state) : outcome state :=
  match texts with
  | [] => Running [] st
  | text :: rest => append text st >>= appends rest
  end.

(** What the frame buffer's three variables are meant to satisfy: the
    cursor stays inside the array and the counter is the room behind it. *)
Definition frame_ok (st : state) : Prop :=
  Z.of_nat (length (outputBuffer st)) = sizeof_outputBuffer
  /\ 0 <= endOfBuffer st
  /\ 0 <= remainingSpace st
  /\ endOfBuffer st + remainingSpace st = sizeof_outputBuffer.

(** The room counter has wrapped below zero: as an [unsigned int] it is
    now larger than [INT_MAX]. *)
Definition overflowed (st : state) : Prop :=
  Word32.INT_MAX < remainingSpace st.

(** The buffer holds the text [body] followed by zero bytes only, and the
    cursor and the room agree with it. *)
Definition frame_holds (body : list ascii) (st : state) : Prop :=
  outputBuffer st = body ++ zeroed (Z.to_nat (remainingSpace st))
  /\ endOfBuffer st = Z.of_nat (length body)
  /\ 0 <= remainingSpace st
  /\ Z.of_nat (length body) + remainingSpace st = sizeof_outputBuffer.

End Batched.

(* ================================================================== *)
(** ** The simple sketch ([src/nrf52_hall/src/main.cpp]) *)

Module Simple.

Import CArray.

Inductive recordingState : Type := STOPPED | RECORDING.

Definition STOP_RECORDING : Z := 0.
Definition START_RECORDING : Z := 1.

Definition category : Z := 1.
Definition sizeof_outputBuf : nat := 64.

Record state : Type := mkState {
  hallValue : Z;
  elapsedStartMillis : Z;
  inputString : string;
  currentCommand : Z;
  currentRecordingState : recordingState
}.

Definition set_hallValue (v : Z) (st : state) : state :=
  mkState v (elapsedStartMillis st) (inputString st) (currentCommand st)
    (currentRecordingState st).

Definition set_elapsedStartMillis (v : Z) (st : state) : state :=
  mkState (hallValue st) v (inputString st) (currentCommand st)
    (currentRecordingState st).

Definition set_inputString (v : string) (st : state) : state :=
  mkState (hallValue st) (elapsedStartMillis st) v (currentCommand st)
    (currentRecordingState st).

Definition set_currentCommand (v : Z) (st : state) : state :=
  mkState (hallValue st) (elapsedStartMillis st) (inputString st) v
    (currentRecordingState st).

Definition set_currentRecordingState (v : recordingState) (st : state)
  : state :=
  mkState (hallValue st) (elapsedStartMillis st) (inputString st)
    (currentCommand st) v.

Definition power_on : state := mkState 0 0 EmptyString 0 STOPPED.

(** [writeAll(str)]. *)
Definition writeAll (str : list ascii) : list event :=
  [SerialOut (string_of_list_ascii str); BleOut str].

(** Lines 142-146. *)
Definition loop_read (rx : list Z) (st : state) : state :=
  set_inputString (fold_left WString.concat_uchar rx (inputString st)) st.

(** Line 151. *)
Definition action_code (text : string) : Z :=
  WString.toInt (WString.substring text 0 2) - 48.

(** Lines 153-161. *)
Definition apply_command (now : Z) (st : state) : list event * state :=
  if currentCommand st =? STOP_RECORDING then
    ([println "received STOP_RECORDING command"],
     set_currentRecordingState STOPPED st)
  else if currentCommand st =? START_RECORDING then
    ([println "received START_RECORDING command"],
     set_elapsedStartMillis now (set_currentRecordingState RECORDING st))
  else ([], st).

(** Lines 147-163. *)
Definition loop_command (now : Z) (st : state) : list event * state :=
  if (0 <? String.length (inputString st))%nat then
    let st1 := set_currentCommand (action_code (inputString st)) st in
    let (out, st2) := apply_command now st1 in
    (println (inputString st) :: out, set_inputString EmptyString st2)
  else ([], st).

(** Line 174: [millis() - elapsedStartMillis]. *)
Definition elapsed_ms (now : Z) (st : state) : Z :=
  Word32.sub now (elapsedStartMillis st).

(** The text [sprintf] produces on line 174. *)
Definition sample_text (now : Z) (st : state) : string :=
  Stdio.format_i_lu_lu category (elapsed_ms now st) (hallValue st).

(** Lines 168-176.  [outputBuf] is the local array as the stack holds it
    when [loop()] is entered: it has no initialiser. *)
Definition loop_send (now sensor : Z) (outputBuf : list ascii) (st : state)
  : outcome state :=
  match currentRecordingState st with
  | STOPPED => Running [] st
  | RECORDING =>
      let st1 := set_hallValue (Word32.wrap sensor) st in
      match Stdio.sprintf outputBuf (sample_text now st1) with
      | None => Faulted [] (OutOfBounds (Z.of_nat (length outputBuf)))
      | Some mem =>
          match cstring mem with
          | None => Faulted [] Unterminated
          | Some str => Running (writeAll str) st1
          end
      end
  end.

Record tick : Type := mkTick {
  rx : list Z;
  sensor : Z;
  t_start : Z;               (* line 160 *)
  t_sample : Z;              (* line 174 *)
  outputBuf : list ascii     (* line 168 *)
}.

(** [loop()]. *)
Definition loop (tk : tick) (st : state) : outcome state :=
  let (out, st1) := loop_command (t_start tk) (loop_read (rx tk) st) in
  emit out (loop_send (t_sample tk) (sensor tk) (outputBuf tk) st1).

End Simple.

(* ================================================================== *)
(** ** The extended sketch ([src/nrf52_with_hall/nrf52_with_hall.ino]) *)

Module Extended.

Import CArray.

Inductive recordingState : Type := STOPPED | RECORDING.

Definition STOP_RECORDING : Z := 0.
Definition NAME_ACTIVITY : Z := 1.
Definition START_RECORDING : Z := 2.

Definition category : Z := 1.
Definition sizeof_buffer : nat := 32.

(** [hallValue] is an [int] here. *)
Record state : Type := mkState {
  hallValue : Z;
  elapsedStartMillis : Z;
  inputString : string;
  currentCommand : Z;
  currentRecordingState : recordingState;
  activity : string
}.

Definition set_hallValue (v : Z) (st : state) : state :=
  mkState v (elapsedStartMillis st) (inputString st) (currentCommand st)
    (currentRecordingState st) (activity st).

Definition set_elapsedStartMillis (v : Z) (st : state) : state :=
  mkState (hallValue st) v (inputString st) (currentCommand st)
    (currentRecordingState st) (activity st).

Definition set_inputString (v : string) (st : state) : state :=
  mkState (hallValue st) (elapsedStartMillis st) v (currentCommand st)
    (currentRecordingState st) (activity st).

Definition set_currentCommand (v : Z) (st : state) : state :=
  mkState (hallValue st) (elapsedStartMillis st) (inputString st) v
    (currentRecordingState st) (activity st).

Definition set_currentRecordingState (v : recordingState) (st : state)
  : state :=
  mkState (hallValue st) (elapsedStartMillis st) (inputString st)
    (currentCommand st) v (activity st).

Definition set_activity (v : string) (st : state) : state :=
  mkState (hallValue st) (elapsedStartMillis st) (inputString st)
    (currentCommand st) (currentRecordingState st) v.

Definition power_on : state :=
  mkState 0 0 EmptyString 0 STOPPED "unnamed".

(** Lines 124-128. *)
Definition loop_read (rx : list Z) (st : state) : state :=
  set_inputString (fold_left WString.concat_uchar rx (inputString st)) st.

(** Line 136. *)
Definition action_code (text : string) : Z :=
  WString.toInt (WString.substring text 0 2) - 48.

(** Lines 138-150. *)
Definition apply_command (now : Z) (st : state) : list event * state :=
  if currentCommand st =? STOP_RECORDING then
    ([println "received STOP_RECORDING command"],
     set_currentRecordingState STOPPED st)
  else if currentCommand st =? START_RECORDING then
    ([println "received START_RECORDING command"],
     set_elapsedStartMillis now (set_currentRecordingState RECORDING st))
  else if currentCommand st =? NAME_ACTIVITY then
    ([println "received NAME_ACTIVITY command"],
     set_activity (WString.substring_from (inputString st) 2) st)
  else ([], st).

(** Lines 129-153. *)
Definition loop_command (now : Z) (st : state) : list event * state :=
  if (0 <? String.length (inputString st))%nat then
    let foo := WString.toInt (WString.substring (inputString st) 0 2) in
    let st1 := set_currentCommand (action_code (inputString st)) st in
    let (out, st2) := apply_command now st1 in
    (println (inputString st) :: SerialOut "foo is "
       :: println (WString.signed_decimal foo) :: out,
     set_inputString EmptyString st2)
  else ([], st).

(** Line 161: [millis() - elapsedStartMillis]. *)
Definition elapsed_ms (now : Z) (st : state) : Z :=
  Word32.sub now (elapsedStartMillis st).

(** The text [sprintf] produces on line 161. *)
Definition sample_text (now : Z) (st : state) : string :=
  Stdio.format_i_i_i category (elapsed_ms now st) (hallValue st).

(** Lines 155-163.  [buffer] is the local array as the stack holds it when
    its block is entered (no initialiser); [bleuart.write(buffer,
    sizeof(buffer))] sends the whole array. *)
Definition loop_send (now sensor : Z) (buffer : list ascii) (st : state)
  : outcome state :=
  match currentRecordingState st with
  | STOPPED => Running [] st
  | RECORDING =>
      let st1 := set_hallValue (Word32.signed sensor) st in
      match Stdio.sprintf buffer (sample_text now st1) with
      | None => Faulted [] (OutOfBounds (Z.of_nat (length buffer)))
      | Some mem => Running [BleOut mem] st1
      end
  end.

Record tick : Type := mkTick {
  rx : list Z;
  sensor : Z;
  t_start : Z;            (* line 145 *)
  t_sample : Z;           (* line 161 *)
  buffer : list ascii     (* line 160 *)
}.

(** [loop()]. *)
Definition loop (tk : tick) (st : state) : outcome state :=
  let (out, st1) := loop_command (t_start tk) (loop_read (rx tk) st) in
  emit out (loop_send (t_sample tk) (sensor tk) (buffer tk) st1).

End Extended.

(* ================================================================== *)
(** ** Reading a frame back *)

Module Frame.

Definition is_digit (c : ascii) : bool :=
  match WString.digit_of c with Some _ => true | None => false end.

(** [complete_from k seen s]: [s] continues a record of which [k] fields
    are closed and whose current field has ([seen]) or has not yet a
    digit, and ends on a record boundary.  A record is three non-empty
    runs of digits separated by [':'] and closed by [';']. *)
Fixpoint complete_from (k : nat) (seen : bool) (s : list ascii) : bool :=
  match s with
  | [] => (k =? 0)%nat && negb seen
  | c :: rest =>
      if is_digit c then complete_from k true rest
      else if Ascii.eqb c ":" then
        seen && (k <? 2)%nat && complete_from (S k) false rest
      else if Ascii.eqb c ";" then
        seen && (k =? 2)%nat && complete_from O false rest
      else false
  end.

(** The text consists of complete [code:elapsed:value;] records only. *)
Definition complete_records (s : list ascii) : bool :=
  complete_from O false s.

(** The frame buffer read as the C string it holds. *)
Definition contents (mem : list ascii) : list ascii :=
  match CArray.cstring mem with Some str => str | None => mem end.

End Frame.

(* ================================================================== *)
(** ** Concrete situations of the batched sketch *)

Module Scenario.

Import Batched.

(** Recording since clock reading [0], nothing collected yet. *)
Definition recording : state :=
  set_currentCommand START_RECORDING
    (set_currentRecordingState RECORDING power_on).

(** [n] samples of value [100] taken while the clock still reads [0]:
    each record is the eight bytes ["1:0:100;"]. *)
Definition samples (n : nat) : list string :=
  repeat (record_text metricTypeCode 0 100) n.

(** The frame buffer after 127 such records: cursor 1016, 8 bytes left. *)
Definition nearly_full : state :=
  set_hallValue 100
    (set_frame
       (concat (repeat (list_ascii_of_string "1:0:100;") 127)
        ++ CArray.zeroed 8)
       1016 8 recording).

(** The run of [loop()] that starts recording on the byte ['1'], and a run
    without input; in both the sensor reads [100] and the clock [0]. *)
Definition start_tick : tick := mkTick [49] 100 0 0 0 0.
Definition quiet_tick : tick := mkTick [] 100 0 0 0 0.

(** The two records of the framing example. *)
Definition two_records : list string :=
  [record_text metricTypeCode 0 5; record_text metricTypeCode 200 7].

End Scenario.

(* ================================================================== *)
(** ** Runs of [loop()] in real time *)

(** The state a piece of [loop()] leaves behind, unless it faulted. *)
Definition final {S : Type} (o : outcome S) : option S :=
  match o with
  | Running _ st | Exited _ _ st => Some st
  | Faulted _ _ => None
  end.

Module Schedule.

Import Batched.

(** One run of [loop()] of the batched sketch, with the true times in
    milliseconds (not reduced modulo [2^32]) at which it reads the clock. *)
Record moment : Type := mkMoment {
  m_rx : list Z;
  m_sensor : Z;
  at_start : Z;
  at_sample : Z;
  at_check : Z;
  at_sent : Z
}.

(** What the sketch sees of it: [millis()] is a 32-bit counter. *)
Definition tick_of (m : moment) : tick :=
  mkTick (m_rx m) (m_sensor m) (Word32.wrap (at_start m))
    (Word32.wrap (at_sample m)) (Word32.wrap (at_check m))
    (Word32.wrap (at_sent m)).

(** Line 221: every run of [loop()] ends in [delay(recordingFrequencyMs)],
    so the next run starts at least that long after the check of line 212
    ([checked]) and not before the reading of line 218 ([sent]); within a
    run the clock does not go back, and a run does not take [2^31] ms. *)
Fixpoint on_schedule (checked sent : Z) (ms : list moment) : Prop :=
  match ms with
  | [] => True
  | m :: rest =>
      checked + recordingFrequencyMs <= at_start m
      /\ sent <= at_start m
      /\ at_start m <= at_sample m <= at_check m
      /\ at_check m <= at_sent m
      /\ at_check m - checked < 2 ^ 31
      /\ on_schedule (at_check m) (at_sent m) rest
  end.

(** A message that, given back the delimiter the send strips, consists of
    complete records. *)
Definition well_framed (msg : list ascii) : Prop :=
  Frame.complete_records (msg ++ [";"%char]) = true.

(** The frame buffer holds [k] records and nothing else: the text [body],
    at most 24 bytes per record, NUL-free, complete, closed by [';']
    unless empty, followed by zero bytes up to the end of the array. *)
Definition whole_records (k : nat) (body : list ascii) (st : state) : Prop :=
  frame_holds body st
  /\ (length body <= 24 * k)%nat
  /\ CArray.no_NUL body
  /\ Frame.complete_records body = true
  /\ (body = [] \/ exists pre, body = pre ++ [";"%char]).

(** The frame buffer and the send timer between two runs of [loop()] that
    keep the schedule: the timer was set at true time [sent_at], and of
    the [k] records collected since then there is at most one per
    [recordingFrequencyMs] elapsed. *)
Definition in_step (checked sent : Z) (st : state) : Prop :=
  exists (sent_at : Z) (k : nat) (body : list ascii),
    lastSendTimeMillis st = Word32.wrap sent_at
    /\ sent_at <= sent
    /\ checked - sent_at <= metricsSendFrequencyMs
    /\ (k = O \/ recordingFrequencyMs * Z.of_nat k
                 <= checked - sent_at + recordingFrequencyMs)
    /\ whole_records k body st.

(** The runs of [loop()] after power-on: the first starts at a true time
    of 0 ms or later, the others keep the schedule. *)
Definition from_power_on (ms : list moment) : Prop :=
  on_schedule (- recordingFrequencyMs) 0 ms.

(** Seven runs 200 ms apart, the first of which reads the byte ['1']; the
    sensor reads 5 throughout. *)
Definition seven_runs : list moment :=
  mkMoment [49] 5 0 0 0 0
  :: map (fun t => mkMoment [] 5 t t t t) [200; 400; 600; 800; 1000; 1200].

End Schedule.

(* ================================================================== *)
(** ** The batched sketch running on past the store of an empty send *)

Module Continued.

Import CArray Batched.

(** Lines 214-218 in a sketch that keeps running.  On an empty buffer the
    store of line 214 goes to the byte in front of the array
    ([Batched.flush] stops there).  Provided that byte is none of the
    variables of [state], the statements after it find the state as it
    was: the string in the buffer, which is empty, is handed to
    [writeAll], and buffer and timer are reset.  On a buffer with text
    this is [Batched.flush]. *)
Definition flush (t_sent : Z) (st : state) : outcome state :=
  match Batched.flush t_sent st with
  | Faulted out (OutOfBounds _) =>
      match cstring (outputBuffer st) with
      | Some str =>
          Running (out ++ writeAll str)
            (set_lastSendTimeMillis t_sent (resetOutputBuffer st))
      | None => Faulted out Unterminated
      end
  | o => o
  end.

(** Lines 211-219. *)
Definition loop_flush (t_check t_sent : Z) (st : state) : outcome state :=
  if should_flush t_check st then flush t_sent st else Running [] st.

(** [loop()]. *)
Definition loop (tk : tick) (st : state) : outcome state :=
  let (out, st1) := loop_command (t_start tk) (loop_read (rx tk) st) in
  emit out (loop_append (t_sample tk) (sensor tk) st1
            >>= loop_flush (t_check tk) (t_sent tk)).

Fixpoint run (tks : list tick) (st : state) : outcome state :=
  match tks with
  | [] => Running [] st
  | tk :: rest => loop tk st >>= run rest
  end.

(** The text of the records of the samples (elapsed time, sensor value),
    in order. *)
Definition sample_records (samples : list (Z * Z)) : list ascii :=
  concat
    (map list_ascii_of_string
       (map (fun ev => record_text metricTypeCode (fst ev) (snd ev))
            samples)).

(** The frame buffer and the send timer between two runs of [loop()] that
    keep the schedule: the timer was set at true time [sent_at], the
    buffer holds exactly the records of the samples taken since, and there
    is at most one of them per [recordingFrequencyMs] elapsed. *)
Definition paced (checked sent : Z) (st : state) : Prop :=
  exists (sent_at : Z) (samples : list (Z * Z)),
    lastSendTimeMillis st = Word32.wrap sent_at
    /\ sent_at <= sent
    /\ checked - sent_at <= metricsSendFrequencyMs
    /\ (samples = []
        \/ recordingFrequencyMs * Z.of_nat (length samples)
           <= checked - sent_at + recordingFrequencyMs)
    /\ frame_holds (sample_records samples) st.

(** The state in which run [m] of [loop()] reaches its append block, when
    it started in [st]. *)
Definition before_append (m : Schedule.moment) (st : state) : state :=
  snd (loop_command (Word32.wrap (Schedule.at_start m))
         (loop_read (Schedule.m_rx m) st)).

(** The outcome of the append block of run [m] started in [st]. *)
Definition append_of (m : Schedule.moment) (st : state) : outcome state :=
  loop_append (Word32.wrap (Schedule.at_sample m)) (Schedule.m_sensor m)
    (before_append m st).

(** Six runs 200 ms apart that record from the first on, and the run
    that follows them. *)
Definition six_runs : list Schedule.moment :=
  firstn 6 Schedule.seven_runs.
Definition seventh_run : Schedule.moment :=
  Schedule.mkMoment [] 5 1200 1200 1200 1200.

End Continued.

(* ================================================================== *)
(** * Properties *)

(** ** Machine arithmetic *)

Module Word32Facts.

Import Word32.

Lemma wrap_range z : 0 <= wrap z < modulus.
Proof. unfold wrap, modulus. apply Z.mod_pos_bound. lia. Qed.

Lemma wrap_small z : 0 <= z < modulus -> wrap z = z.
Proof. intros H. unfold wrap. apply Z.mod_small. exact H. Qed.

Lemma sub_range a b : 0 <= sub a b < modulus.
Proof. apply wrap_range. Qed.

(** Unsigned subtraction of two wrapped clock readings recovers the true
    distance as long as that distance is below [2^32]. *)
Lemma sub_wrap_exact (t0 t1 : Z) :
  t0 <= t1 -> t1 - t0 < modulus -> sub (wrap t1) (wrap t0) = t1 - t0.
Proof.
  intros Hle Hlt. unfold sub, wrap.
  rewrite <- Zminus_mod. apply Z.mod_small. lia.
Qed.

End Word32Facts.

(** ** Character arrays *)

Module CArrayFacts.

Import CArray.

Lemma strlen_app_NUL (bs rest : list ascii) :
  no_NUL bs -> strlen (bs ++ NUL :: rest) = Some (length bs).
Proof.
  induction 1 as [|c bs Hc _ IH]; simpl.
  - reflexivity.
  - destruct (Ascii.eqb c NUL) eqn:E.
    + apply Ascii.eqb_eq in E. contradiction.
    + rewrite IH. reflexivity.
Qed.

Lemma cstring_app_NUL (bs rest : list ascii) :
  no_NUL bs -> cstring (bs ++ NUL :: rest) = Some bs.
Proof.
  intros H. unfold cstring. rewrite (strlen_app_NUL _ _ H). simpl.
  f_equal. rewrite firstn_app, Nat.sub_diag, firstn_all. simpl.
  apply app_nil_r.
Qed.

Lemma strlen_bound (mem : list ascii) (n : nat) :
  strlen mem = Some n -> (n < length mem)%nat.
Proof.
  revert n. induction mem as [|c mem IH]; simpl; intros n H.
  - discriminate.
  - destruct (Ascii.eqb c NUL).
    + injection H as <-. lia.
    + destruct (strlen mem) as [k|]; simpl in H; [|discriminate].
      injection H as <-. specialize (IH k eq_refl). lia.
Qed.

Lemma store_bytes_length mem off bs mem' :
  store_bytes mem off bs = Some mem' -> length mem' = length mem.
Proof.
  unfold store_bytes.
  destruct ((0 <=? off) && _) eqn:E; [|discriminate].
  apply andb_true_iff in E. destruct E as [E1 E2].
  apply Z.leb_le in E1. apply Z.leb_le in E2.
  intros H. injection H as <-.
  rewrite !length_app, length_firstn, length_skipn. lia.
Qed.

Lemma skipn_zeroed (k n : nat) : skipn k (zeroed n) = zeroed (n - k).
Proof.
  unfold zeroed. revert n. induction k as [|k IH]; intros n.
  - now rewrite Nat.sub_0_r.
  - destruct n as [|n]; [reflexivity|]. cbn [repeat skipn]. apply IH.
Qed.

End CArrayFacts.

(** ** Strings *)

Module StringFacts.

Lemma length_list_ascii_of_string (s : string) :
  length (list_ascii_of_string s) = String.length s.
Proof. induction s as [|c s IH]; simpl; [reflexivity | now rewrite IH]. Qed.

Lemma substring_whole (s : string) :
  String.substring 0 (String.length s) s = s.
Proof. induction s as [|c s IH]; simpl; [reflexivity | now rewrite IH]. Qed.

Lemma length_append (a b : string) :
  String.length (a ++ b) = (String.length a + String.length b)%nat.
Proof. induction a as [|c a IH]; simpl; [reflexivity | now rewrite IH]. Qed.

Lemma list_ascii_of_string_app (a b : string) :
  list_ascii_of_string (a ++ b)
  = list_ascii_of_string a ++ list_ascii_of_string b.
Proof. induction a as [|c a IH]; simpl; [reflexivity | now rewrite IH]. Qed.

End StringFacts.

(** ** Decimal text and [atol] *)

Module WStringFacts.

Import WString.

Lemma digit_of_digit_char (d : Z) :
  0 <= d <= 9 -> digit_of (digit_char d) = Some d.
Proof.
  intros H.
  assert (Hd : d = 0 \/ d = 1 \/ d = 2 \/ d = 3 \/ d = 4 \/ d = 5
               \/ d = 6 \/ d = 7 \/ d = 8 \/ d = 9) by lia.
  repeat (destruct Hd as [-> | Hd]; [reflexivity|]). subst d. reflexivity.
Qed.

Lemma digit_char_not_NUL (d : Z) : 0 <= d <= 9 -> digit_char d <> CArray.NUL.
Proof.
  intros H E. pose proof (digit_of_digit_char d H) as Hd.
  rewrite E in Hd. discriminate Hd.
Qed.

Lemma mod10_digit (z : Z) : 0 <= z mod 10 <= 9.
Proof. pose proof (Z.mod_pos_bound z 10). lia. Qed.

Lemma decimal_digits_length (fuel : nat) (z : Z) (acc : string) :
  (S (String.length acc) <= String.length (decimal_digits fuel z acc)
   <= S fuel + String.length acc)%nat.
Proof.
  revert z acc. induction fuel as [|fuel IH]; intros z acc; simpl.
  - lia.
  - destruct (z <? 10); simpl; [lia|].
    specialize (IH (z / 10) (String (digit_char (z mod 10)) acc)).
    simpl in IH. lia.
Qed.

(** [%lu] prints between one and ten characters. *)
Lemma decimal_length (z : Z) :
  (1 <= String.length (decimal z) <= 10)%nat.
Proof.
  unfold decimal. pose proof (decimal_digits_length 9 z EmptyString) as H.
  cbn [String.length] in H. lia.
Qed.

(** [%i] prints between one and eleven characters. *)
Lemma signed_decimal_length (z : Z) :
  (1 <= String.length (signed_decimal z) <= 11)%nat.
Proof.
  unfold signed_decimal. destruct (z <? 0); simpl.
  - pose proof (decimal_length (- z)). lia.
  - pose proof (decimal_length z). lia.
Qed.

Lemma decimal_digits_all_digits (fuel : nat) (z : Z) (acc : string) :
  Forall (fun c => Frame.is_digit c = true) (list_ascii_of_string acc) ->
  Forall (fun c => Frame.is_digit c = true)
         (list_ascii_of_string (decimal_digits fuel z acc)).
Proof.
  assert (Hd : forall y, Frame.is_digit (digit_char (y mod 10)) = true).
  { intros y. unfold Frame.is_digit.
    rewrite (digit_of_digit_char _ (mod10_digit y)). reflexivity. }
  revert z acc. induction fuel as [|fuel IH]; intros z acc Hacc; simpl.
  - constructor; [apply Hd | exact Hacc].
  - destruct (z <? 10).
    + simpl. constructor; [apply Hd | exact Hacc].
    + apply IH. simpl. constructor; [apply Hd | exact Hacc].
Qed.

Lemma decimal_all_digits (z : Z) :
  Forall (fun c => Frame.is_digit c = true) (list_ascii_of_string (decimal z)).
Proof. apply decimal_digits_all_digits. constructor. Qed.

Lemma is_digit_not_NUL (c : ascii) :
  Frame.is_digit c = true -> c <> CArray.NUL.
Proof. intros H E. subst c. discriminate H. Qed.

(** [atol] on digits: the accumulator can only grow, by at most one
    decimal place per character. *)
Lemma atol_digits_bound (s : string) (acc : Z) :
  0 <= acc ->
  acc <= atol_digits acc s < (acc + 1) * 10 ^ Z.of_nat (String.length s).
Proof.
  revert acc. induction s as [|c s IH]; intros acc Hacc.
  - simpl. lia.
  - cbn [atol_digits String.length]. rewrite Nat2Z.inj_succ, Z.pow_succ_r by lia.
    assert (Hp : 0 < 10 ^ Z.of_nat (String.length s))
      by (apply Z.pow_pos_nonneg; lia).
    destruct (digit_of c) as [d|] eqn:E.
    + assert (Hd : 0 <= d <= 9).
      { unfold digit_of in E.
        destruct ((48 <=? Z.of_nat (nat_of_ascii c))
                  && (Z.of_nat (nat_of_ascii c) <=? 57)) eqn:B;
          [|discriminate].
        apply andb_true_iff in B. destruct B as [B1 B2].
        apply Z.leb_le in B1. apply Z.leb_le in B2.
        injection E as <-. lia. }
      specialize (IH (10 * acc + d) ltac:(lia)). nia.
    + nia.
Qed.

Lemma skip_spaces_length (s : string) :
  (String.length (skip_spaces s) <= String.length s)%nat.
Proof.
  induction s as [|c s IH]; simpl; [lia|].
  destruct (isspace c); simpl; lia.
Qed.

(** A text of [n] characters parses to fewer than [n] decimal places. *)
Lemma atol_bound (s : string) :
  - 10 ^ Z.of_nat (String.length s) < atol s
  < 10 ^ Z.of_nat (String.length s).
Proof.
  unfold atol. pose proof (skip_spaces_length s) as Hlen.
  assert (Hmono : forall n : nat, (n <= String.length s)%nat ->
                  10 ^ Z.of_nat n <= 10 ^ Z.of_nat (String.length s))
    by (intros n Hn; apply Z.pow_le_mono_r; lia).
  destruct (skip_spaces s) as [|c rest].
  - assert (0 < 10 ^ Z.of_nat (String.length s))
      by (apply Z.pow_pos_nonneg; lia). lia.
  - cbn [String.length] in Hlen.
    pose proof (atol_digits_bound rest 0 ltac:(lia)) as Hrest.
    pose proof (atol_digits_bound (String c rest) 0 ltac:(lia)) as Hall.
    pose proof (Hmono (String.length rest) ltac:(lia)) as H1.
    pose proof (Hmono (String.length (String c rest))
                  ltac:(cbn [String.length]; lia)) as H2.
    destruct (Ascii.eqb c "-"); [lia|].
    destruct (Ascii.eqb c "+"); lia.
Qed.

Lemma String_substring_length (n m : nat) (s : string) :
  (String.length (String.substring n m s) <= m)%nat.
Proof.
  revert n m. induction s as [|c s IH]; intros n m.
  - destruct n, m; simpl; lia.
  - destruct n as [|n]; destruct m as [|m]; simpl; try lia.
    + specialize (IH O m). lia.
    + apply (IH n O).
    + apply (IH n (S m)).
Qed.

Lemma substring_0_2_length (s : string) :
  (String.length (substring s 0 2) <= 2)%nat.
Proof.
  unfold substring. cbn [Nat.ltb Nat.leb].
  destruct (String.length s <=? 0)%nat; [simpl; lia|].
  apply Nat.le_trans with (Nat.min 2 (String.length s) - 0)%nat.
  - apply String_substring_length.
  - lia.
Qed.

(** The number the sketches assign to [currentCommand]. *)
Lemma action_code_range (text : string) :
  -147 <= toInt (substring text 0 2) - 48 <= 51.
Proof.
  unfold toInt. pose proof (atol_bound (substring text 0 2)) as H.
  pose proof (substring_0_2_length text) as Hlen.
  assert (10 ^ Z.of_nat (String.length (substring text 0 2)) <= 10 ^ 2)
    by (apply Z.pow_le_mono_r; lia).
  lia.
Qed.

(** Whatever width the compiler gives [enum commandAction] (8 bits under
    [-fshort-enums], 32 otherwise), storing the number in it does not
    change the outcome of the comparisons with the enumerators. *)
Lemma action_code_cast (text : string) (width k : Z) :
  8 <= width -> 0 <= k <= 2 ->
  ((toInt (substring text 0 2) - 48) mod 2 ^ width = k
   <-> toInt (substring text 0 2) - 48 = k).
Proof.
  intros Hw Hk. pose proof (action_code_range text) as Hr.
  assert (Hpow : 2 ^ 8 <= 2 ^ width) by (apply Z.pow_le_mono_r; lia).
  change (2 ^ 8) with 256 in Hpow.
  set (c := toInt (substring text 0 2) - 48) in *.
  split.
  - intros Hm. destruct (Z_lt_le_dec c 0) as [Hneg | Hpos].
    + assert (Hs : c mod 2 ^ width = c + 2 ^ width).
      { symmetry. apply Z.mod_unique_pos with (q := -1); lia. }
      lia.
    + rewrite Z.mod_small in Hm by lia. exact Hm.
  - intros ->. apply Z.mod_small. lia.
Qed.

(** [s.substring(2)] drops the first two characters. *)
Lemma substring_from_2 (c1 c2 : ascii) (rest : string) :
  substring_from (String c1 (String c2 rest)) 2 = rest.
Proof.
  destruct rest as [|c3 rest]; [reflexivity|].
  unfold substring_from, substring. cbn [String.length].
  replace (S (S (S (String.length rest))) <? 2)%nat with false
    by (symmetry; apply Nat.ltb_ge; lia).
  cbv beta iota.
  replace (S (S (S (String.length rest))) <=? 2)%nat with false
    by (symmetry; apply Nat.leb_gt; lia).
  rewrite Nat.min_id.
  replace (S (S (S (String.length rest))) - 2)%nat
    with (String.length (String c3 rest)) by (cbn [String.length]; lia).
  exact (StringFacts.substring_whole (String c3 rest)).
Qed.

Lemma decimal_no_NUL (z : Z) :
  CArray.no_NUL (list_ascii_of_string (decimal z)).
Proof.
  eapply Forall_impl; [|apply decimal_all_digits].
  intros c. apply is_digit_not_NUL.
Qed.

Lemma signed_decimal_no_NUL (z : Z) :
  CArray.no_NUL (list_ascii_of_string (signed_decimal z)).
Proof.
  unfold signed_decimal. destruct (z <? 0).
  - simpl. constructor; [discriminate | apply decimal_no_NUL].
  - apply decimal_no_NUL.
Qed.



End WStringFacts.

(** ** Formatted records *)

Module StdioFacts.

Import CArray Stdio.

Lemma format_i_lu_lu_length (code elapsed value : Z) :
  (5 <= String.length (format_i_lu_lu code elapsed value) <= 33)%nat.
Proof.
  unfold format_i_lu_lu. rewrite !StringFacts.length_append.
  pose proof (WStringFacts.signed_decimal_length code).
  pose proof (WStringFacts.decimal_length elapsed).
  pose proof (WStringFacts.decimal_length value).
  cbn [String.length]. lia.
Qed.

Lemma format_i_i_i_length (code elapsed value : Z) :
  (5 <= String.length (format_i_i_i code elapsed value) <= 35)%nat.
Proof.
  unfold format_i_i_i. rewrite !StringFacts.length_append.
  pose proof (WStringFacts.signed_decimal_length code).
  pose proof (WStringFacts.signed_decimal_length (Word32.signed elapsed)).
  pose proof (WStringFacts.signed_decimal_length (Word32.signed value)).
  cbn [String.length]. lia.
Qed.

Lemma format_i_lu_lu_no_NUL (code elapsed value : Z) :
  no_NUL (list_ascii_of_string (format_i_lu_lu code elapsed value)).
Proof.
  assert (Hsep : forall c : ascii, c <> NUL -> no_NUL [c])
    by (intros c Hc; constructor; [exact Hc | constructor]).
  unfold format_i_lu_lu.
  rewrite !StringFacts.list_ascii_of_string_app.
  apply Forall_app. split; [apply WStringFacts.signed_decimal_no_NUL|].
  apply Forall_app. split; [apply Hsep; discriminate|].
  apply Forall_app. split; [apply WStringFacts.decimal_no_NUL|].
  apply Forall_app. split; [apply Hsep; discriminate|].
  apply WStringFacts.decimal_no_NUL.
Qed.

Lemma format_i_i_i_no_NUL (code elapsed value : Z) :
  no_NUL (list_ascii_of_string (format_i_i_i code elapsed value)).
Proof.
  assert (Hsep : forall c : ascii, c <> NUL -> no_NUL [c])
    by (intros c Hc; constructor; [exact Hc | constructor]).
  unfold format_i_i_i.
  rewrite !StringFacts.list_ascii_of_string_app.
  apply Forall_app. split; [apply WStringFacts.signed_decimal_no_NUL|].
  apply Forall_app. split; [apply Hsep; discriminate|].
  apply Forall_app. split; [apply WStringFacts.signed_decimal_no_NUL|].
  apply Forall_app. split; [apply Hsep; discriminate|].
  apply WStringFacts.signed_decimal_no_NUL.
Qed.

(** [sprintf] into an array with room for the text and its NUL leaves a
    C string equal to the text, whatever the array held before. *)
Lemma sprintf_fits (mem : list ascii) (text : string) :
  (String.length text < length mem)%nat ->
  no_NUL (list_ascii_of_string text) ->
  exists mem',
    sprintf mem text = Some mem'
    /\ length mem' = length mem
    /\ cstring mem' = Some (list_ascii_of_string text).
Proof.
  intros Hfit Hnn. unfold sprintf, store_bytes.
  assert (Hin : (0 <=? 0)
                && (0 + Z.of_nat (length (list_ascii_of_string text
                                          ++ [NUL]))
                    <=? Z.of_nat (length mem)) = true).
  { apply andb_true_iff. split; [reflexivity|]. apply Z.leb_le.
    rewrite length_app, StringFacts.length_list_ascii_of_string.
    cbn [length]. lia. }
  rewrite Hin. eexists. split; [reflexivity|]. split.
  - repeat rewrite ?length_app, ?length_firstn, ?length_skipn,
      ?StringFacts.length_list_ascii_of_string.
    cbn [length Z.to_nat]. lia.
  - cbn [Z.to_nat firstn app]. rewrite <- app_assoc. cbn [app].
    apply CArrayFacts.cstring_app_NUL. exact Hnn.
Qed.

End StdioFacts.

(** ** Complete records *)

Module FrameFacts.

Import Frame.

(** Text that ends on a record boundary can be continued by any other
    text without changing whether the whole is complete. *)
Lemma complete_from_app (a b : list ascii) :
  forall k seen,
    complete_from k seen a = true ->
    complete_from k seen (a ++ b) = complete_from O false b.
Proof.
  induction a as [|c a IH]; intros k seen H; cbn [complete_from app] in *.
  - apply andb_true_iff in H. destruct H as [Hk Hs].
    apply Nat.eqb_eq in Hk. apply negb_true_iff in Hs. now subst.
  - destruct (is_digit c); [now apply IH|].
    destruct (Ascii.eqb c ":").
    + apply andb_true_iff in H. destruct H as [H Hrest].
      rewrite H. cbn [andb]. now apply IH.
    + destruct (Ascii.eqb c ";"); [|discriminate].
      apply andb_true_iff in H. destruct H as [H Hrest].
      rewrite H. cbn [andb]. now apply IH.
Qed.

Lemma complete_records_app (a b : list ascii) :
  complete_records a = true ->
  complete_records (a ++ b) = complete_records b.
Proof. apply complete_from_app. Qed.

(** A run of digits is one field. *)
Lemma complete_from_digits (ds rest : list ascii) :
  Forall (fun c => is_digit c = true) ds ->
  forall k seen,
    complete_from k seen (ds ++ rest)
    = complete_from k (seen || negb (Nat.eqb (length ds) O)) rest.
Proof.
  induction 1 as [|c ds Hc _ IH]; intros k seen; cbn [app length].
  - cbn [Nat.eqb negb]. now rewrite orb_false_r.
  - cbn [complete_from]. rewrite Hc, IH. cbn [orb Nat.eqb negb].
    now rewrite orb_true_r.
Qed.

(** Three non-empty runs of digits with [':'] between them and [';']
    behind them are a complete record. *)
Lemma complete_record (a b c : list ascii) :
  Forall (fun x => is_digit x = true) a -> a <> [] ->
  Forall (fun x => is_digit x = true) b -> b <> [] ->
  Forall (fun x => is_digit x = true) c -> c <> [] ->
  complete_records (a ++ ":"%char :: b ++ ":"%char :: c ++ [";"%char])
  = true.
Proof.
  intros Ha Na Hb Nb Hc Nc. unfold complete_records.
  assert (Hlen : forall l : list ascii, l <> [] ->
                 negb (Nat.eqb (length l) O) = true)
    by (intros [|x l] Hl; [contradiction | reflexivity]).
  rewrite (complete_from_digits a _ Ha), (Hlen a Na).
  cbn [orb complete_from]. change (is_digit ":") with false.
  cbn [Ascii.eqb Bool.eqb andb Nat.ltb Nat.leb].
  rewrite (complete_from_digits b _ Hb), (Hlen b Nb).
  cbn [orb complete_from]. change (is_digit ":") with false.
  cbn [Ascii.eqb Bool.eqb andb Nat.ltb Nat.leb].
  rewrite (complete_from_digits c _ Hc), (Hlen c Nc).
  reflexivity.
Qed.

End FrameFacts.

(** ** The frame buffer of the batched sketch *)

Module BatchedFacts.

Import CArray Batched.

(** The nearly full buffer is what the sketch itself builds when 127
    samples are taken within one send interval. *)
Lemma nearly_full_reached :
  exists out,
    run (Scenario.start_tick :: repeat Scenario.quiet_tick 126) power_on
    = Running out Scenario.nearly_full.
Proof. eexists. vm_compute. reflexivity. Qed.

(** A record that is strictly shorter than the room left is stored whole,
    NUL included, and both counters move by its length. *)
Lemma append_fits (text : string) (st : state) :
  frame_ok st ->
  0 < Z.of_nat (String.length text) < remainingSpace st ->
  append text st
  = Running []
      (set_frame
         (firstn (Z.to_nat (endOfBuffer st)) (outputBuffer st)
          ++ (list_ascii_of_string text ++ [NUL])
          ++ skipn (Z.to_nat (endOfBuffer st)
                    + length (list_ascii_of_string text ++ [NUL]))
                   (outputBuffer st))
         (endOfBuffer st + Z.of_nat (String.length text))
         (remainingSpace st - Z.of_nat (String.length text)) st).
Proof.
  intros (Hlen & Hc & Hr & Hsum) [Hpos Hfit].
  unfold sizeof_outputBuffer in *.
  unfold append, Stdio.snprintf.
  assert (Hmax : (remainingSpace st >? Word32.INT_MAX) = false).
  { rewrite Z.gtb_ltb. apply Z.ltb_ge. unfold Word32.INT_MAX. lia. }
  rewrite Hmax.
  assert (Hnz : (remainingSpace st =? 0) = false) by (apply Z.eqb_neq; lia).
  rewrite Hnz.
  rewrite Z.min_l by lia. rewrite Nat2Z.id.
  rewrite firstn_all2
    by (rewrite StringFacts.length_list_ascii_of_string; lia).
  unfold store_bytes.
  assert (Hin : (0 <=? endOfBuffer st)
                && (endOfBuffer st
                    + Z.of_nat (length (list_ascii_of_string text ++ [NUL]))
                    <=? Z.of_nat (length (outputBuffer st))) = true).
  { apply andb_true_iff. split; [apply Z.leb_le; lia|].
    apply Z.leb_le. rewrite length_app,
      StringFacts.length_list_ascii_of_string. simpl. lia. }
  rewrite Hin.
  assert (Hgt : (Z.of_nat (String.length text) >? 0) = true)
    by (rewrite Z.gtb_ltb; apply Z.ltb_lt; lia).
  rewrite Hgt.
  rewrite Word32Facts.wrap_small by (unfold Word32.modulus; lia).
  reflexivity.
Qed.

(** Such an append keeps cursor + room = 1024. *)
Lemma append_fits_frame_ok (text : string) (st : state) :
  frame_ok st ->
  0 < Z.of_nat (String.length text) < remainingSpace st ->
  exists st', append text st = Running [] st' /\ frame_ok st'
    /\ endOfBuffer st' = endOfBuffer st + Z.of_nat (String.length text).
Proof.
  intros Hok Hfit. eexists. split; [apply append_fits; assumption|].
  destruct Hok as (Hlen & Hc & Hr & Hsum).
  unfold frame_ok, sizeof_outputBuffer in *. simpl.
  repeat split; try lia.
  repeat rewrite ?length_app, ?length_firstn, ?length_skipn,
    ?StringFacts.length_list_ascii_of_string.
  simpl. lia.
Qed.

Lemma resetOutputBuffer_frame_ok (st : state) :
  frame_ok (resetOutputBuffer st).
Proof.
  unfold frame_ok, resetOutputBuffer, set_frame.
  cbn [outputBuffer endOfBuffer remainingSpace]. unfold zeroed.
  rewrite repeat_length. unfold sizeof_outputBuffer. repeat split; lia.
Qed.

Lemma power_on_frame_ok : frame_ok power_on.
Proof.
  unfold frame_ok, power_on.
  cbn [outputBuffer endOfBuffer remainingSpace]. unfold zeroed.
  rewrite repeat_length. unfold sizeof_outputBuffer. repeat split; lia.
Qed.

(** Every record the sketch formats is NUL-free, complete, and between 6
    and 24 characters long. *)
Lemma record_text_no_NUL (elapsed value : Z) :
  no_NUL (list_ascii_of_string (record_text metricTypeCode elapsed value)).
Proof.
  unfold record_text. rewrite StringFacts.list_ascii_of_string_app.
  apply Forall_app. split; [apply StdioFacts.format_i_lu_lu_no_NUL|].
  constructor; [discriminate | constructor].
Qed.

Lemma record_text_length (elapsed value : Z) :
  (6 <= String.length (record_text metricTypeCode elapsed value) <= 24)%nat.
Proof.
  unfold record_text, Stdio.format_i_lu_lu.
  rewrite !StringFacts.length_append.
  pose proof (WStringFacts.decimal_length elapsed).
  pose proof (WStringFacts.decimal_length value).
  change (String.length (WString.signed_decimal metricTypeCode)) with 1%nat.
  cbn [String.length]. lia.
Qed.

Lemma record_text_complete (elapsed value : Z) :
  Frame.complete_records
    (list_ascii_of_string (record_text metricTypeCode elapsed value))
  = true.
Proof.
  assert (Hne : forall z, list_ascii_of_string (WString.decimal z) <> []).
  { intros z E. pose proof (WStringFacts.decimal_length z) as H.
    rewrite <- StringFacts.length_list_ascii_of_string, E in H.
    cbn [length] in H. lia. }
  unfold record_text, Stdio.format_i_lu_lu.
  rewrite !StringFacts.list_ascii_of_string_app.
  change (list_ascii_of_string (WString.signed_decimal metricTypeCode))
    with (list_ascii_of_string (WString.decimal 1)).
  change (list_ascii_of_string ":") with [":"%char].
  change (list_ascii_of_string ";") with [";"%char].
  rewrite <- !app_assoc. cbn [app].
  apply FrameFacts.complete_record;
    try apply WStringFacts.decimal_all_digits; apply Hne.
Qed.

Section Fitting.

Variables (text : string) (body : list ascii) (st : state).
Hypothesis Hholds : frame_holds body st.
Hypothesis Hfit : 0 < Z.of_nat (String.length text) < remainingSpace st.

Lemma frame_holds_frame_ok : frame_ok st.
Proof.
  destruct Hholds as (Hbuf & Hcur & Hroom & Hsum).
  unfold frame_ok. rewrite Hbuf, Hcur, length_app. unfold zeroed.
  rewrite repeat_length. repeat split; try lia.
Qed.

(** A fitting append extends the text by the record and keeps the rest
    of the array zero. *)
Lemma append_fits_holds :
  exists st',
    append text st = Running [] st'
    /\ frame_holds (body ++ list_ascii_of_string text) st'.
Proof.
  pose proof frame_holds_frame_ok as Hok.
  destruct Hholds as (Hbuf & Hcur & Hroom & Hsum).
  eexists. split; [apply append_fits; assumption|].
  unfold frame_holds, set_frame.
  cbn [outputBuffer endOfBuffer remainingSpace].
  unfold sizeof_outputBuffer in *.
  assert (Hl : length (body ++ list_ascii_of_string text)
               = (length body + String.length text)%nat)
    by (rewrite length_app, StringFacts.length_list_ascii_of_string;
        reflexivity).
  rewrite Hl. repeat split; try lia.
  rewrite Hcur, Nat2Z.id, Hbuf.
  rewrite firstn_app, Nat.sub_diag, firstn_all. cbn [firstn].
  rewrite app_nil_r, <- !app_assoc. f_equal. f_equal.
  rewrite length_app, StringFacts.length_list_ascii_of_string.
  cbn [length]. rewrite skipn_app, skipn_all2 by lia.
  rewrite CArrayFacts.skipn_zeroed. unfold zeroed. cbn [app].
  replace (Z.to_nat (remainingSpace st - Z.of_nat (String.length text)))
    with (S (Z.to_nat (remainingSpace st)
             - (length body + (String.length text + 1) - length body)))
    by lia.
  reflexivity.
Qed.

End Fitting.

(** A sequence of records whose total length is below the room left is
    stored whole. *)
Lemma appends_fit (texts : list string) :
  forall (body : list ascii) (st : state),
    frame_holds body st ->
    Forall (fun t => (0 < String.length t)%nat) texts ->
    Z.of_nat (length (concat (map list_ascii_of_string texts)))
      < remainingSpace st ->
    exists st',
      appends texts st = Running [] st'
      /\ frame_holds (body ++ concat (map list_ascii_of_string texts)) st'.
Proof.
  induction texts as [|t texts IH]; intros body st Hh Hpos Hroom.
  - exists st. cbn [appends map concat]. rewrite app_nil_r. now split.
  - cbn [map concat] in *. rewrite length_app,
      StringFacts.length_list_ascii_of_string in Hroom.
    inversion Hpos as [|? ? Ht Hrest]; subst.
    destruct (append_fits_holds t body st Hh ltac:(lia))
      as (st1 & Hrun1 & Hh1).
    destruct (IH _ st1 Hh1 Hrest) as (st2 & Hrun2 & Hh2).
    { destruct Hh as (_ & _ & _ & Hs). destruct Hh1 as (_ & _ & _ & Hs1).
      rewrite length_app, StringFacts.length_list_ascii_of_string in Hs1.
      lia. }
    exists st2. cbn [appends]. rewrite Hrun1. cbn [bind emit app].
    rewrite Hrun2. cbn [emit app]. rewrite <- app_assoc in Hh2.
    now split.
Qed.

(** Whatever its length, a record appended to a buffer in order is either
    stored (whole or truncated) inside the array, or, once the room has
    wrapped, refused by [snprintf]; no store leaves the array. *)
Lemma append_stays_inside (text : string) (st : state) :
  frame_ok st \/ overflowed st ->
  0 < Z.of_nat (String.length text) < 2 ^ 31 ->
  match append text st with
  | Running _ st' => frame_ok st' \/ overflowed st'
  | Exited _ _ _ => True
  | Faulted _ _ => False
  end.
Proof.
  intros Hst Hlen. unfold append, Stdio.snprintf.
  destruct (remainingSpace st >? Word32.INT_MAX) eqn:Emax.
  { cbn [Z.gtb Z.compare]. exact I. }
  rewrite Z.gtb_ltb in Emax. apply Z.ltb_ge in Emax.
  destruct Hst as [(Hl & Hc & Hr & Hsum) | Hov];
    [|unfold overflowed in Hov; lia].
  unfold sizeof_outputBuffer, Word32.INT_MAX in *.
  assert (Hpos : (Z.of_nat (String.length text) >? 0) = true)
    by (rewrite Z.gtb_ltb; apply Z.ltb_lt; lia).
  destruct (remainingSpace st =? 0) eqn:Ezero.
  - apply Z.eqb_eq in Ezero. rewrite Hpos. right.
    unfold overflowed, set_frame, Word32.INT_MAX.
    cbn [remainingSpace]. rewrite Ezero. unfold Word32.wrap.
    rewrite <- (Z.mod_add _ 1) by (unfold Word32.modulus; lia).
    rewrite Z.mod_small; unfold Word32.modulus; lia.
  - apply Z.eqb_neq in Ezero.
    set (kept := firstn
                   (Z.to_nat (Z.min (Z.of_nat (String.length text))
                                    (remainingSpace st - 1)))
                   (list_ascii_of_string text)).
    assert (Hkept : Z.of_nat (length (kept ++ [NUL]))
                    <= remainingSpace st).
    { unfold kept. rewrite length_app, length_firstn,
        StringFacts.length_list_ascii_of_string. cbn [length]. lia. }
    destruct (store_bytes (outputBuffer st) (endOfBuffer st)
                          (kept ++ [NUL])) as [mem|] eqn:Estore.
    + rewrite Hpos. apply CArrayFacts.store_bytes_length in Estore.
      unfold frame_ok, overflowed, set_frame, sizeof_outputBuffer,
        Word32.INT_MAX.
      cbn [outputBuffer endOfBuffer remainingSpace]. rewrite Estore.
      destruct (Z_le_gt_dec (Z.of_nat (String.length text))
                            (remainingSpace st)) as [Hfits | Hover].
      * left. rewrite Word32Facts.wrap_small
          by (unfold Word32.modulus; lia). repeat split; lia.
      * right. unfold Word32.wrap.
        rewrite <- (Z.mod_add _ 1) by (unfold Word32.modulus; lia).
        rewrite Z.mod_small; unfold Word32.modulus; lia.
    + unfold store_bytes in Estore.
      assert (Hin : (0 <=? endOfBuffer st)
                    && (endOfBuffer st + Z.of_nat (length (kept ++ [NUL]))
                        <=? Z.of_nat (length (outputBuffer st))) = true).
      { apply andb_true_iff. split; apply Z.leb_le; lia. }
      rewrite Hin in Estore. discriminate Estore.
Qed.

(** In 32-bit arithmetic the cursor and the room always add up to the
    same value: what one gains the other loses, also across a wrap. *)
Lemma append_sum_mod (text : string) (st st' : state) (out : list event) :
  append text st = Running out st' ->
  (endOfBuffer st' + remainingSpace st') mod Word32.modulus
  = (endOfBuffer st + remainingSpace st) mod Word32.modulus.
Proof.
  unfold append.
  destruct (Stdio.snprintf _ _ _ _) as [[mem|] written]; [|discriminate].
  destruct (written >? 0); [|discriminate].
  intros H. injection H as _ <-. unfold set_frame, Word32.wrap.
  cbn [endOfBuffer remainingSpace].
  rewrite Z.add_mod_idemp_r by (unfold Word32.modulus; lia).
  f_equal. lia.
Qed.

Lemma appends_stay_inside (texts : list string) :
  forall st,
    frame_ok st \/ overflowed st ->
    Forall (fun t => 0 < Z.of_nat (String.length t) < 2 ^ 31) texts ->
    forall out f, appends texts st <> Faulted out f.
Proof.
  induction texts as [|t texts IH]; intros st Hst Hall out f.
  - discriminate.
  - inversion Hall as [|? ? Ht Hrest]; subst. cbn [appends].
    pose proof (append_stays_inside t st Hst Ht) as Hone.
    destruct (append t st) as [o st1 | o code st1 | o g];
      [|discriminate|contradiction].
    cbn [bind]. specialize (IH st1 Hone Hrest).
    destruct (appends texts st1) as [o2 st2 | o2 code st2 | o2 g] eqn:E;
      cbn [emit]; try discriminate.
    exfalso. apply (IH o2 g). reflexivity.
Qed.

Lemma reset_frame_holds (st : state) :
  frame_holds [] (resetOutputBuffer st).
Proof.
  unfold frame_holds, resetOutputBuffer, set_frame.
  cbn [outputBuffer endOfBuffer remainingSpace app length].
  unfold sizeof_outputBuffer. repeat split; lia.
Qed.

(** While the samples taken since the last reset stay below 1024 bytes in
    total, the buffer text is exactly their records, all complete, and
    cursor + room = 1024. *)
Lemma samples_below_capacity (samples : list (Z * Z)) (st : state) :
  let texts :=
    map (fun ev => record_text metricTypeCode (fst ev) (snd ev)) samples in
  Z.of_nat (length (concat (map list_ascii_of_string texts)))
    < sizeof_outputBuffer ->
  exists st',
    appends texts (resetOutputBuffer st) = Running [] st'
    /\ Frame.contents (outputBuffer st')
       = concat (map list_ascii_of_string texts)
    /\ Frame.complete_records (Frame.contents (outputBuffer st')) = true
    /\ endOfBuffer st' + remainingSpace st' = sizeof_outputBuffer.
Proof.
  intros texts Hroom.
  assert (Hpos : Forall (fun t => (0 < String.length t)%nat) texts).
  { apply Forall_forall. intros t Hin. apply in_map_iff in Hin.
    destruct Hin as ((e, v) & <- & _).
    pose proof (record_text_length e v). cbn [fst snd]. lia. }
  assert (Hnn : no_NUL (concat (map list_ascii_of_string texts))).
  { apply Forall_concat. apply Forall_map. apply Forall_map.
    apply Forall_forall. intros (e, v) _. apply record_text_no_NUL. }
  assert (Hcomplete : Frame.complete_records
                        (concat (map list_ascii_of_string texts)) = true).
  { unfold texts. clear. induction samples as [|(e, v) samples IH].
    - reflexivity.
    - cbn [map concat fst snd].
      rewrite FrameFacts.complete_records_app
        by apply record_text_complete.
      exact IH. }
  destruct (appends_fit texts [] (resetOutputBuffer st)
              (reset_frame_holds st) Hpos Hroom)
    as (st' & Hrun & Hbuf & Hcur & Hr & Hsum).
  cbn [app] in *. exists st'. split; [exact Hrun|].
  assert (Hcontents : Frame.contents (outputBuffer st')
                      = concat (map list_ascii_of_string texts)).
  { unfold Frame.contents. rewrite Hbuf. unfold sizeof_outputBuffer in *.
    replace (Z.to_nat (remainingSpace st'))
      with (S (Z.to_nat (remainingSpace st') - 1)) by lia.
    unfold zeroed. cbn [repeat].
    now rewrite (CArrayFacts.cstring_app_NUL _ _ Hnn). }
  rewrite Hcontents. repeat split; [exact Hcomplete | lia].
Qed.

End BatchedFacts.

(** ** Appending to and sending the batch *)

Module TelemetryBatcher.

Import CArray Batched.

(** When the C string in the buffer ends in a character [c], the send
    branch overwrites exactly that character and transmits the rest. *)
Lemma flush_strips_last (t : Z) (st : state)
      (body : list ascii) (c : ascii) (rest : list ascii) :
  outputBuffer st = body ++ c :: NUL :: rest ->
  no_NUL body -> c <> NUL ->
  Z.of_nat (length (outputBuffer st)) = sizeof_outputBuffer ->
  flush t st
  = Running (writeAll body)
      (set_lastSendTimeMillis t (resetOutputBuffer st)).
Proof.
  intros Hbuf Hbody Hc Hlen. unfold flush.
  assert (Hsplit : outputBuffer st = (body ++ [c]) ++ NUL :: rest)
    by (rewrite Hbuf, <- app_assoc; reflexivity).
  assert (Hnn : no_NUL (body ++ [c])).
  { apply Forall_app. split; [assumption | constructor; [assumption | constructor]]. }
  rewrite Hsplit at 1. rewrite (CArrayFacts.strlen_app_NUL _ _ Hnn).
  rewrite length_app. cbn [length].
  assert (Hb : Z.of_nat (length body) + 2 <= sizeof_outputBuffer).
  { rewrite <- Hlen, Hbuf, length_app. cbn [length]. lia. }
  unfold sizeof_outputBuffer in *.
  replace (Z.of_nat (length body + 1) - 1) with (Z.of_nat (length body))
    by lia.
  rewrite Word32Facts.wrap_small by (unfold Word32.modulus; lia).
  unfold store, store_bytes.
  assert (Hin : (0 <=? Z.of_nat (length body))
                && (Z.of_nat (length body) + Z.of_nat (length [NUL])
                    <=? Z.of_nat (length (outputBuffer st))) = true).
  { apply andb_true_iff. split; apply Z.leb_le; cbn [length]; lia. }
  rewrite Hin. rewrite Nat2Z.id. rewrite Hbuf.
  rewrite firstn_app, Nat.sub_diag, firstn_all. cbn [firstn].
  rewrite app_nil_r.
  rewrite skipn_app.
  replace (length body + length [NUL] - length body)%nat with 1%nat
    by (cbn [length]; lia).
  rewrite skipn_all2 by (cbn [length]; lia).
  cbn [skipn app].
  rewrite (CArrayFacts.cstring_app_NUL _ _ Hbody).
  reflexivity.
Qed.

(** C5.  In the batched sketch a due send on a buffer whose text ends in
    the delimiter [';'] transmits that text without its last character,
    once on the console and once on the BLE UART, then zeroes the 1024
    bytes, puts the cursor back to 0 and the room to 1024, and restarts
    the send timer.  (The records "1:0:5;" and "1:200:7;" go out as
    "1:0:5;1:200:7".) *)
Theorem flush_strips_final_delimiter
        (t_check t_sent : Z) (st : state) (body rest : list ascii) :
  should_flush t_check st = true ->
  outputBuffer st = body ++ ";"%char :: NUL :: rest ->
  no_NUL body ->
  Z.of_nat (length (outputBuffer st)) = sizeof_outputBuffer ->
  exists st',
    loop_flush t_check t_sent st
    = Running [SerialOut (string_of_list_ascii body); BleOut body] st'
    /\ outputBuffer st' = zeroed 1024
    /\ endOfBuffer st' = 0
    /\ remainingSpace st' = sizeof_outputBuffer
    /\ lastSendTimeMillis st' = t_sent.
Proof.
  intros Hdue Hbuf Hbody Hlen.
  exists (set_lastSendTimeMillis t_sent (resetOutputBuffer st)).
  split.
  - unfold loop_flush. rewrite Hdue.
    apply (flush_strips_last t_sent st body ";"%char rest);
      try assumption.
    discriminate.
  - repeat split.
Qed.

Lemma flush_two_records :
  exists st st',
    appends Scenario.two_records power_on = Running [] st
    /\ loop_flush 1001 1001 st
       = Running [SerialOut "1:0:5;1:200:7";
                  BleOut (list_ascii_of_string "1:0:5;1:200:7")] st'
    /\ outputBuffer st' = zeroed 1024
    /\ endOfBuffer st' = 0
    /\ remainingSpace st' = sizeof_outputBuffer
    /\ lastSendTimeMillis st' = 1001.
Proof.
  pose (st := set_frame
                (list_ascii_of_string "1:0:5;1:200:7;" ++ zeroed 1010)
                14 1010 power_on).
  assert (Hdue : should_flush 1001 st = true) by (vm_compute; reflexivity).
  assert (Hbuf : outputBuffer st
                 = list_ascii_of_string "1:0:5;1:200:7"
                   ++ ";"%char :: NUL :: zeroed 1009)
    by (vm_compute; reflexivity).
  assert (Hbody : no_NUL (list_ascii_of_string "1:0:5;1:200:7"))
    by (repeat constructor; discriminate).
  assert (Hlen : Z.of_nat (length (outputBuffer st)) = sizeof_outputBuffer)
    by (vm_compute; reflexivity).
  destruct (flush_strips_final_delimiter 1001 1001 st _ _
              Hdue Hbuf Hbody Hlen) as (st' & Hrun & Hrest).
  exists st, st'. split; [vm_compute; reflexivity|].
  split; [exact Hrun | exact Hrest].
Defined.

(** C4.  In the batched sketch a due send on an empty buffer computes the
    index [strlen(outputBuffer) - 1] as the [size_t] value [2^32 - 1] and
    stores a NUL there, which is not a byte of the 1024-byte array: the
    send does not stay inside the frame buffer.  (Nothing has been
    transmitted and the timer has not been touched at that point.) *)
Theorem flush_of_empty_buffer_stores_outside
        (t_check t_sent : Z) (st : state) :
  should_flush t_check st = true ->
  strlen (outputBuffer st) = Some O ->
  Z.of_nat (length (outputBuffer st)) = sizeof_outputBuffer ->
  loop_flush t_check t_sent st = Faulted [] (OutOfBounds (2 ^ 32 - 1)).
Proof.
  intros Hdue Hempty Hlen. unfold loop_flush, flush.
  rewrite Hdue, Hempty.
  change (Word32.wrap (Z.of_nat 0 - 1)) with (2 ^ 32 - 1).
  unfold store, store_bytes.
  assert (Hout : (0 <=? 2 ^ 32 - 1)
                 && (2 ^ 32 - 1 + Z.of_nat (length [NUL])
                     <=? Z.of_nat (length (outputBuffer st))) = false).
  { apply andb_false_iff. right. apply Z.leb_gt. rewrite Hlen.
    unfold sizeof_outputBuffer. cbn [length]. lia. }
  rewrite Hout. reflexivity.
Qed.

Lemma first_idle_send_stores_outside :
  loop_flush 1001 1001 power_on = Faulted [] (OutOfBounds (2 ^ 32 - 1))
  /\ loop (mkTick [] 0 0 0 1001 1001) power_on
     = Faulted [] (OutOfBounds (2 ^ 32 - 1)).
Proof.
  assert (H : loop_flush 1001 1001 power_on
              = Faulted [] (OutOfBounds (2 ^ 32 - 1))).
  { apply flush_of_empty_buffer_stores_outside; vm_compute; reflexivity. }
  split; [exact H|].
  change (loop (mkTick [] 0 0 0 1001 1001) power_on)
    with (emit [] (emit [] (loop_flush 1001 1001 power_on))).
  rewrite H. reflexivity.
Defined.

(** The append block taken by itself, on a buffer with 8 bytes of room
    left (127 records: more than the runs of [loop()] collect between two
    sends on their own timing).  Appending the 9-byte record "1:0:1000;"
    is not refused there: [snprintf] stores the first seven characters
    and a NUL, its result 9 is positive, so the block prints nothing, does
    not call [exit], moves the cursor to 1025 (past the array) and lets
    the unsigned room wrap from 8 to [2^32 - 1]. *)
Remark overflowing_append_is_truncated_not_refused :
  exists st',
    Z.of_nat (String.length (record_text metricTypeCode 0 1000))
      > remainingSpace Scenario.nearly_full
    /\ loop_append 0 1000 Scenario.nearly_full = Running [] st'
    /\ skipn 1016 (outputBuffer st')
       = list_ascii_of_string "1:0:100" ++ [NUL]
    /\ outputBuffer st' <> outputBuffer Scenario.nearly_full
    /\ endOfBuffer st' = 1025
    /\ remainingSpace st' = 4294967295.
Proof.
  eexists. split; [vm_compute; reflexivity|].
  split; [vm_compute; reflexivity|].
  split; [vm_compute; reflexivity|].
  split; [|split; vm_compute; reflexivity].
  intros H. apply (f_equal (skipn 1016)) in H.
  vm_compute in H. discriminate H.
Qed.

(** With the [snprintf] of newlib such an overflow is noticed one append
    later: the wrapped room exceeds [INT_MAX], [snprintf] answers [-1],
    and only then the diagnostic is printed and [exit(1)] called. *)
Remark overflow_is_reported_one_append_late :
  exists st',
    loop_append 0 1000 Scenario.nearly_full >>= loop_append 0 1000
    = Exited [SerialOut "Something is wrong with the buffer"] 1 st'.
Proof. eexists. vm_compute. reflexivity. Qed.

(** The append block taken by itself, 128 times in a row without a send
    in between: 128 appends of the 8-byte record "1:0:100;" into the
    empty buffer all take the success branch, and the cursor ends at
    1024; but the last record lost its [';'] to the NUL of [snprintf], so
    that buffer does not hold complete records only. *)
Remark full_buffer_ends_in_truncated_record :
  exists st',
    appends (Scenario.samples 128) Scenario.recording = Running [] st'
    /\ endOfBuffer st' = 1024
    /\ remainingSpace st' = 0
    /\ skipn 1008 (Frame.contents (outputBuffer st'))
       = list_ascii_of_string "1:0:100;1:0:100"
    /\ Frame.complete_records (Frame.contents (outputBuffer st')) = false.
Proof.
  eexists. split; [vm_compute; reflexivity|].
  repeat split; vm_compute; reflexivity.
Qed.

(** Sent in that condition, the frame loses the last digit of its last
    record instead of a delimiter. *)
Remark full_buffer_is_sent_without_last_digit :
  skipn 1008
    (concat
       (ble_messages
          (events (appends (Scenario.samples 128) Scenario.recording
                   >>= flush 0))))
  = list_ascii_of_string "1:0:100;1:0:10".
Proof. vm_compute. reflexivity. Qed.

(** The append block taken by itself, 129 times in a row without a send
    in between: 129 appends of the 8-byte record "1:0:100;" into the
    empty buffer leave the cursor at 1032 and the room at [2^32 - 8];
    their sum is not 1024. *)
Remark cursor_plus_room_after_overflow :
  exists st',
    appends (Scenario.samples 129) Scenario.recording = Running [] st'
    /\ endOfBuffer st' = 1032
    /\ remainingSpace st' = 4294967288
    /\ endOfBuffer st' + remainingSpace st' <> sizeof_outputBuffer.
Proof.
  eexists. split; [vm_compute; reflexivity|].
  repeat split; try (vm_compute; reflexivity).
  vm_compute. discriminate.
Qed.

End TelemetryBatcher.

(** ** Decoding and applying commands *)

Module CommandFacts.

(** With text in [inputString], the command block assigns the action
    code, runs the [if] chain on it and clears the text. *)
Lemma simple_loop_command (now : Z) (st : Simple.state) :
  Simple.inputString st <> EmptyString ->
  snd (Simple.loop_command now st)
  = Simple.set_inputString EmptyString
      (snd (Simple.apply_command now
              (Simple.set_currentCommand
                 (Simple.action_code (Simple.inputString st)) st))).
Proof.
  intros Hne. unfold Simple.loop_command.
  destruct (Simple.inputString st) as [|c rest] eqn:E; [contradiction|].
  cbn [String.length Nat.ltb Nat.leb].
  destruct (Simple.apply_command now _) as [out st2]. reflexivity.
Qed.

Lemma batched_loop_command (now : Z) (st : Batched.state) :
  Batched.inputString st <> EmptyString ->
  snd (Batched.loop_command now st)
  = Batched.set_inputString EmptyString
      (snd (Batched.apply_command now
              (Batched.set_currentCommand
                 (Batched.action_code (Batched.inputString st)) st))).
Proof.
  intros Hne. unfold Batched.loop_command.
  destruct (Batched.inputString st) as [|c rest] eqn:E; [contradiction|].
  cbn [String.length Nat.ltb Nat.leb].
  destruct (Batched.apply_command now _) as [out st2]. reflexivity.
Qed.

Lemma extended_loop_command (now : Z) (st : Extended.state) :
  Extended.inputString st <> EmptyString ->
  snd (Extended.loop_command now st)
  = Extended.set_inputString EmptyString
      (snd (Extended.apply_command now
              (Extended.set_currentCommand
                 (Extended.action_code (Extended.inputString st)) st))).
Proof.
  intros Hne. unfold Extended.loop_command.
  destruct (Extended.inputString st) as [|c rest] eqn:E; [contradiction|].
  cbn [String.length Nat.ltb Nat.leb].
  destruct (Extended.apply_command now _) as [out st2]. reflexivity.
Qed.

(** The [if] chain, case by case. *)
Lemma simple_apply_cases (now : Z) (st : Simple.state) :
  snd (Simple.apply_command now st)
  = if Simple.currentCommand st =? Simple.STOP_RECORDING then
      Simple.set_currentRecordingState Simple.STOPPED st
    else if Simple.currentCommand st =? Simple.START_RECORDING then
      Simple.set_elapsedStartMillis now
        (Simple.set_currentRecordingState Simple.RECORDING st)
    else st.
Proof.
  unfold Simple.apply_command.
  destruct (_ =? Simple.STOP_RECORDING); [reflexivity|].
  destruct (_ =? Simple.START_RECORDING); reflexivity.
Qed.

Lemma batched_apply_cases (now : Z) (st : Batched.state) :
  snd (Batched.apply_command now st)
  = if Batched.currentCommand st =? Batched.STOP_RECORDING then
      Batched.set_currentRecordingState Batched.STOPPED st
    else if Batched.currentCommand st =? Batched.START_RECORDING then
      Batched.set_elapsedStartMillis now
        (Batched.set_currentRecordingState Batched.RECORDING st)
    else st.
Proof.
  unfold Batched.apply_command.
  destruct (_ =? Batched.STOP_RECORDING); [reflexivity|].
  destruct (_ =? Batched.START_RECORDING); reflexivity.
Qed.

Lemma extended_apply_cases (now : Z) (st : Extended.state) :
  snd (Extended.apply_command now st)
  = if Extended.currentCommand st =? Extended.STOP_RECORDING then
      Extended.set_currentRecordingState Extended.STOPPED st
    else if Extended.currentCommand st =? Extended.START_RECORDING then
      Extended.set_elapsedStartMillis now
        (Extended.set_currentRecordingState Extended.RECORDING st)
    else if Extended.currentCommand st =? Extended.NAME_ACTIVITY then
      Extended.set_activity
        (WString.substring_from (Extended.inputString st) 2) st
    else st.
Proof.
  unfold Extended.apply_command.
  destruct (_ =? Extended.STOP_RECORDING); [reflexivity|].
  destruct (_ =? Extended.START_RECORDING); [reflexivity|].
  destruct (_ =? Extended.NAME_ACTIVITY); reflexivity.
Qed.

(** What [inputString] holds after the read loop: the old text followed
    by the decimal renderings of the bytes. *)
Lemma read_appends (rx : list Z) :
  forall text,
    fold_left WString.concat_uchar rx text
    = (text ++ fold_left WString.concat_uchar rx EmptyString)%string.
Proof.
  assert (Hassoc : forall a b c : string,
             ((a ++ b) ++ c = a ++ (b ++ c))%string).
  { intros a b c. induction a as [|x a IH]; simpl; [reflexivity|].
    now rewrite IH. }
  assert (Hnil : forall a : string, (a ++ EmptyString)%string = a).
  { intros a. induction a as [|x a IH]; simpl; [reflexivity|].
    now rewrite IH. }
  induction rx as [|ch rx IH]; intros text; cbn [fold_left].
  - now rewrite Hnil.
  - rewrite IH. rewrite (IH (WString.concat_uchar EmptyString ch)).
    unfold WString.concat_uchar. cbn [String.append].
    now rewrite Hassoc.
Qed.

(** A first byte between 10 and 99 is rendered as two decimal digits, so
    the first two characters of the text read back as that byte: the
    action code is the byte minus 48, the digit a controller sent as an
    ASCII character. *)
Lemma first_byte_selects_command (ch : Z) (rx : list Z) :
  10 <= ch <= 99 ->
  WString.toInt
    (WString.substring
       (fold_left WString.concat_uchar (ch :: rx) EmptyString) 0 2) - 48
  = ch - 48.
Proof.
  intros Hch.
  assert (Hall : forallb
                   (fun n : nat =>
                      match WString.decimal (Z.of_nat n mod 256) with
                      | String c1 (String c2 EmptyString) =>
                          WString.toInt (String c1 (String c2 EmptyString))
                          =? Z.of_nat n
                      | _ => false
                      end) (seq 10 90) = true)
    by (vm_compute; reflexivity).
  rewrite forallb_forall in Hall.
  specialize (Hall (Z.to_nat ch)).
  rewrite Z2Nat.id in Hall by lia.
  assert (Hin : In (Z.to_nat ch) (seq 10 90)) by (apply in_seq; lia).
  specialize (Hall Hin).
  cbn [fold_left]. rewrite read_appends.
  unfold WString.concat_uchar at 1. cbn [String.append].
  destruct (WString.decimal (ch mod 256)) as [|c1 [|c2 [|c3 more]]];
    try discriminate Hall.
  apply Z.eqb_eq in Hall. cbn [String.append].
  unfold WString.substring.
  cbn [Nat.ltb Nat.leb String.length Nat.min Nat.sub String.substring].
  destruct (fold_left WString.concat_uchar rx EmptyString);
    cbn [String.substring]; rewrite Hall; reflexivity.
Qed.

(** The two characters line 171 (151, 136) passes to [toInt()]. *)
Lemma leading_pair (c1 c2 : ascii) (rest : string) :
  WString.substring (String c1 (String c2 rest)) 0 2
  = String c1 (String c2 EmptyString).
Proof.
  unfold WString.substring.
  cbn [Nat.ltb Nat.leb String.length Nat.min Nat.sub String.substring].
  destruct rest; reflexivity.
Qed.

Lemma single_char (c : ascii) :
  WString.substring (String c EmptyString) 0 2 = String c EmptyString.
Proof. reflexivity. Qed.

(** A single character never reads as an action code. *)
Lemma single_code (c : ascii) :
  WString.toInt (String c EmptyString) - 48 < 0.
Proof.
  pose proof (WStringFacts.atol_bound (String c EmptyString)) as H.
  cbn [String.length] in H. change (10 ^ Z.of_nat 1) with 10 in H.
  unfold WString.toInt. lia.
Qed.

(** The pairs of characters that read as the numbers 48, 49 and 50. *)
Lemma pair_codes (c1 c2 : ascii) :
  (WString.toInt (String c1 (String c2 EmptyString)) - 48 = 0
   <-> String c1 (String c2 EmptyString) = "48"%string)
  /\ (WString.toInt (String c1 (String c2 EmptyString)) - 48 = 1
      <-> String c1 (String c2 EmptyString) = "49"%string)
  /\ (WString.toInt (String c1 (String c2 EmptyString)) - 48 = 2
      <-> String c1 (String c2 EmptyString) = "50"%string).
Proof.
  assert (Hall : forallb
                   (fun n1 : nat =>
                      forallb
                        (fun n2 : nat =>
                           let v := WString.toInt
                                      (String (ascii_of_nat n1)
                                         (String (ascii_of_nat n2)
                                            EmptyString)) in
                           implb (v =? 48)
                                 ((n1 =? 52)%nat && (n2 =? 56)%nat)
                           && implb (v =? 49)
                                    ((n1 =? 52)%nat && (n2 =? 57)%nat)
                           && implb (v =? 50)
                                    ((n1 =? 53)%nat && (n2 =? 48)%nat))
                        (seq 0 256))
                   (seq 0 256) = true)
    by (vm_compute; reflexivity).
  rewrite forallb_forall in Hall.
  specialize (Hall (nat_of_ascii c1)).
  rewrite forallb_forall in Hall.
  pose proof (nat_ascii_bounded c1) as B1.
  pose proof (nat_ascii_bounded c2) as B2.
  specialize (Hall ltac:(apply in_seq; lia) (nat_of_ascii c2)
                   ltac:(apply in_seq; lia)).
  cbv zeta in Hall. rewrite !ascii_nat_embedding in Hall.
  apply andb_true_iff in Hall. destruct Hall as (Hall & H50).
  apply andb_true_iff in Hall. destruct Hall as (H48 & H49).
  assert (Hchar : forall (c : ascii) (n : nat),
             (nat_of_ascii c =? n)%nat = true -> c = ascii_of_nat n).
  { intros c n H. apply Nat.eqb_eq in H. rewrite <- H.
    symmetry. apply ascii_nat_embedding. }
  assert (Hpair : forall v k n1 n2,
             implb (v =? k)
                   ((nat_of_ascii c1 =? n1)%nat
                    && (nat_of_ascii c2 =? n2)%nat) = true ->
             v - 48 = k - 48 ->
             String c1 (String c2 EmptyString)
             = String (ascii_of_nat n1)
                 (String (ascii_of_nat n2) EmptyString)).
  { intros v k n1 n2 H E.
    replace (v =? k) with true in H by (symmetry; apply Z.eqb_eq; lia).
    cbn [implb] in H. apply andb_true_iff in H. destruct H as (Ha & Hb).
    now rewrite (Hchar _ _ Ha), (Hchar _ _ Hb). }
  split; [|split]; split.
  - exact (Hpair _ 48 _ _ H48).
  - intros E. rewrite E. reflexivity.
  - exact (Hpair _ 49 _ _ H49).
  - intros E. rewrite E. reflexivity.
  - exact (Hpair _ 50 _ _ H50).
  - intros E. rewrite E. reflexivity.
Qed.

End CommandFacts.

Module CommandChannel.

Import CommandFacts.

(** C3.  In all three sketches the command block, entered with a text
    that is not empty, reads the action code from the first two
    characters of the text and from nothing else, and always leaves
    [inputString] empty.  The pairs that parse to an action code are
    ["48"] (code 0, Stop), ["49"] (code 1: Start in the simple and the
    batched sketch, Name in the extended one) and ["50"] (code 2: Start
    in the extended sketch).  On ["48"] the state is STOPPED afterwards;
    on the pair of Start it is RECORDING with the origin at the clock; on
    the pair of Name the activity is the text behind the pair.  On every
    other pair, and on a text of a single character, the recording state,
    the origin and the activity are what they were.  The command block
    never touches the sensor value, nor the frame buffer and the send
    timer of the batched sketch. *)
Theorem leading_pair_selects_command
        (now : Z) (c1 c2 : ascii) (rest : string)
        (s : Simple.state) (b : Batched.state) (e : Extended.state) :
  let pair := String c1 (String c2 EmptyString) in
  let text := String c1 (String c2 rest) in
  let code := WString.toInt pair - 48 in
  ((code = 0 <-> pair = "48"%string)
   /\ (code = 1 <-> pair = "49"%string)
   /\ (code = 2 <-> pair = "50"%string))
  /\ (let s' := snd (Simple.loop_command now
                       (Simple.set_inputString text s)) in
      Simple.inputString s' = EmptyString
      /\ Simple.currentCommand s' = code
      /\ Simple.hallValue s' = Simple.hallValue s
      /\ (pair = "48"%string ->
          Simple.currentRecordingState s' = Simple.STOPPED
          /\ Simple.elapsedStartMillis s' = Simple.elapsedStartMillis s)
      /\ (pair = "49"%string ->
          Simple.currentRecordingState s' = Simple.RECORDING
          /\ Simple.elapsedStartMillis s' = now)
      /\ (pair <> "48"%string -> pair <> "49"%string ->
          Simple.currentRecordingState s' = Simple.currentRecordingState s
          /\ Simple.elapsedStartMillis s' = Simple.elapsedStartMillis s))
  /\ (let b' := snd (Batched.loop_command now
                       (Batched.set_inputString text b)) in
      Batched.inputString b' = EmptyString
      /\ Batched.currentCommand b' = code
      /\ Batched.hallValue b' = Batched.hallValue b
      /\ (Batched.outputBuffer b' = Batched.outputBuffer b
          /\ Batched.endOfBuffer b' = Batched.endOfBuffer b
          /\ Batched.remainingSpace b' = Batched.remainingSpace b
          /\ Batched.lastSendTimeMillis b' = Batched.lastSendTimeMillis b)
      /\ (pair = "48"%string ->
          Batched.currentRecordingState b' = Batched.STOPPED
          /\ Batched.elapsedStartMillis b' = Batched.elapsedStartMillis b)
      /\ (pair = "49"%string ->
          Batched.currentRecordingState b' = Batched.RECORDING
          /\ Batched.elapsedStartMillis b' = now)
      /\ (pair <> "48"%string -> pair <> "49"%string ->
          Batched.currentRecordingState b'
          = Batched.currentRecordingState b
          /\ Batched.elapsedStartMillis b' = Batched.elapsedStartMillis b))
  /\ (let e' := snd (Extended.loop_command now
                       (Extended.set_inputString text e)) in
      Extended.inputString e' = EmptyString
      /\ Extended.currentCommand e' = code
      /\ Extended.hallValue e' = Extended.hallValue e
      /\ (pair = "48"%string ->
          Extended.currentRecordingState e' = Extended.STOPPED
          /\ Extended.elapsedStartMillis e' = Extended.elapsedStartMillis e
          /\ Extended.activity e' = Extended.activity e)
      /\ (pair = "50"%string ->
          Extended.currentRecordingState e' = Extended.RECORDING
          /\ Extended.elapsedStartMillis e' = now
          /\ Extended.activity e' = Extended.activity e)
      /\ (pair = "49"%string ->
          Extended.activity e' = rest
          /\ Extended.currentRecordingState e'
             = Extended.currentRecordingState e
          /\ Extended.elapsedStartMillis e'
             = Extended.elapsedStartMillis e)
      /\ (pair <> "48"%string -> pair <> "49"%string ->
          pair <> "50"%string ->
          Extended.currentRecordingState e'
          = Extended.currentRecordingState e
          /\ Extended.elapsedStartMillis e' = Extended.elapsedStartMillis e
          /\ Extended.activity e' = Extended.activity e))
  /\ (let one := String c1 EmptyString in
      let s' := snd (Simple.loop_command now
                       (Simple.set_inputString one s)) in
      let b' := snd (Batched.loop_command now
                       (Batched.set_inputString one b)) in
      let e' := snd (Extended.loop_command now
                       (Extended.set_inputString one e)) in
      (Simple.inputString s' = EmptyString
       /\ Simple.currentRecordingState s' = Simple.currentRecordingState s
       /\ Simple.elapsedStartMillis s' = Simple.elapsedStartMillis s)
      /\ (Batched.inputString b' = EmptyString
          /\ Batched.currentRecordingState b'
             = Batched.currentRecordingState b
          /\ Batched.elapsedStartMillis b' = Batched.elapsedStartMillis b)
      /\ (Extended.inputString e' = EmptyString
          /\ Extended.currentRecordingState e'
             = Extended.currentRecordingState e
          /\ Extended.elapsedStartMillis e' = Extended.elapsedStartMillis e
          /\ Extended.activity e' = Extended.activity e)).
Proof.
  cbv zeta.
  destruct (pair_codes c1 c2) as (H48 & H49 & H50).
  pose proof (single_code c1) as Hone.
  rewrite !simple_loop_command, !simple_apply_cases
    by (cbn [Simple.inputString Simple.set_inputString]; discriminate).
  rewrite !batched_loop_command, !batched_apply_cases
    by (cbn [Batched.inputString Batched.set_inputString]; discriminate).
  rewrite !extended_loop_command, !extended_apply_cases
    by (cbn [Extended.inputString Extended.set_inputString]; discriminate).
  unfold Simple.action_code, Batched.action_code, Extended.action_code.
  cbn [Simple.inputString Simple.set_inputString Simple.currentCommand
       Simple.set_currentCommand
       Batched.inputString Batched.set_inputString Batched.currentCommand
       Batched.set_currentCommand
       Extended.inputString Extended.set_inputString
       Extended.currentCommand Extended.set_currentCommand].
  rewrite !leading_pair, !single_char, WStringFacts.substring_from_2.
  unfold Simple.STOP_RECORDING, Simple.START_RECORDING,
    Batched.STOP_RECORDING, Batched.START_RECORDING,
    Extended.STOP_RECORDING, Extended.START_RECORDING,
    Extended.NAME_ACTIVITY.
  set (code := WString.toInt (String c1 (String c2 EmptyString)) - 48)
    in *.
  set (lone := WString.toInt (String c1 EmptyString) - 48) in *.
  replace (lone =? 0) with false by (symmetry; apply Z.eqb_neq; lia).
  replace (lone =? 1) with false by (symmetry; apply Z.eqb_neq; lia).
  replace (lone =? 2) with false by (symmetry; apply Z.eqb_neq; lia).
  split; [tauto|].
  destruct (Z.eqb_spec code 0) as [E0 | N0],
           (Z.eqb_spec code 1) as [E1 | N1],
           (Z.eqb_spec code 2) as [E2 | N2];
    try (exfalso; lia);
    cbn [Simple.inputString Simple.currentCommand Simple.hallValue
         Simple.currentRecordingState Simple.elapsedStartMillis
         Simple.set_inputString Simple.set_currentCommand
         Simple.set_currentRecordingState Simple.set_elapsedStartMillis
         Batched.inputString Batched.currentCommand Batched.hallValue
         Batched.currentRecordingState Batched.elapsedStartMillis
         Batched.outputBuffer Batched.endOfBuffer Batched.remainingSpace
         Batched.lastSendTimeMillis
         Batched.set_inputString Batched.set_currentCommand
         Batched.set_currentRecordingState Batched.set_elapsedStartMillis
         Extended.inputString Extended.currentCommand Extended.hallValue
         Extended.currentRecordingState Extended.elapsedStartMillis
         Extended.activity
         Extended.set_inputString Extended.set_currentCommand
         Extended.set_currentRecordingState
         Extended.set_elapsedStartMillis Extended.set_activity];
    repeat match goal with
           | |- _ /\ _ => split
           | |- _ -> _ => intro
           end;
    try reflexivity;
    try (exfalso; tauto);
    try (exfalso;
         repeat match goal with
                | H : _ <-> _ |- _ => destruct H
                end;
         match goal with
         | P : _ = _ -> code = _, Q : String _ _ = _ |- _ =>
             specialize (P Q); lia
         end).
Qed.

(** The text ["4849"] (a ['0'] followed by a ['1']) stops a recording
    sketch: only its first two characters count; ["49"] starts a stopped
    one; in the extended sketch ["50"] starts and ["495550"] names. *)
Lemma stop_and_start_texts :
  Simple.currentRecordingState
    (snd (Simple.loop_command 1000
            (Simple.set_inputString "4849"
               (Simple.mkState 7 100 EmptyString 1 Simple.RECORDING))))
  = Simple.STOPPED
  /\ snd (Simple.loop_command 1000
            (Simple.loop_read [49] Simple.power_on))
     = Simple.mkState 0 1000 EmptyString 1 Simple.RECORDING
  /\ Batched.currentRecordingState
       (snd (Batched.loop_command 1000
               (Batched.set_inputString "4849" Scenario.recording)))
     = Batched.STOPPED
  /\ snd (Batched.loop_command 1000
            (Batched.loop_read [49] Batched.power_on))
     = Batched.set_elapsedStartMillis 1000 Scenario.recording
  /\ snd (Extended.loop_command 1000
            (Extended.loop_read [50] Extended.power_on))
     = Extended.mkState 0 1000 EmptyString 2 Extended.RECORDING "unnamed"
  /\ Extended.activity
       (snd (Extended.loop_command 1000
               (Extended.loop_read [49; 55; 50] Extended.power_on)))
     = "5550"%string.
Proof.
  destruct (leading_pair_selects_command 1000 "4" "8" "49"
              (Simple.mkState 7 100 EmptyString 1 Simple.RECORDING)
              Scenario.recording Extended.power_on)
    as (_ & (_ & _ & _ & Hs & _) & (_ & _ & _ & _ & Hb & _) & _).
  destruct (leading_pair_selects_command 1000 "4" "9" "5550"
              Simple.power_on Batched.power_on Extended.power_on)
    as (_ & _ & _ & (_ & _ & _ & _ & _ & He & _) & _).
  split; [exact (proj1 (Hs eq_refl))|].
  split; [reflexivity|].
  split; [exact (proj1 (Hb eq_refl))|].
  split; [reflexivity|]. split; [reflexivity|].
  exact (proj1 (He eq_refl)).
Defined.

End CommandChannel.

(** ** The recording state machine *)

Module RecordingController.

Import CommandFacts.

(** In the extended sketch, when the text in [inputString] carries the
    action code of Name, the command block makes the text from offset 2 to
    the end the activity name, whatever the name was before; the
    recording state and the origin stay as they were and [inputString] is
    cleared. *)
Lemma name_command_sets_activity
        (now : Z) (e : Extended.state) (c1 c2 : ascii) (name : string) :
  Extended.inputString e = String c1 (String c2 name) ->
  Extended.action_code (Extended.inputString e) = Extended.NAME_ACTIVITY ->
  Extended.activity (snd (Extended.loop_command now e)) = name
  /\ Extended.inputString (snd (Extended.loop_command now e)) = EmptyString
  /\ Extended.currentRecordingState (snd (Extended.loop_command now e))
     = Extended.currentRecordingState e
  /\ Extended.elapsedStartMillis (snd (Extended.loop_command now e))
     = Extended.elapsedStartMillis e.
Proof.
  intros Htext Hcode.
  assert (Hne : Extended.inputString e <> EmptyString)
    by (rewrite Htext; discriminate).
  rewrite (extended_loop_command now e Hne), extended_apply_cases.
  cbn [Extended.currentCommand Extended.set_currentCommand
       Extended.inputString].
  rewrite Hcode. cbn [Z.eqb Extended.NAME_ACTIVITY Extended.STOP_RECORDING
                      Extended.START_RECORDING Pos.eqb].
  rewrite Htext, WStringFacts.substring_from_2.
  repeat split.
Qed.

(** C6.  In the extended sketch the name a controller sends does not
    become the activity.  The read loop of lines 124-128 appends every
    received byte with [inputString += ch], [ch] a [uint8_t], which
    appends the decimal number of the byte; line 149 then takes the text
    from offset 2.  After power-on the nine bytes ['1'] (Name in the
    enumeration of line 103) and ["corner x"] leave the activity at
    ["9911111411010111432120"], the numbers 99 111 114 110 101 114 32 120
    run together, and not at ["corner x"].  The nine bytes ["2corner x"],
    the command the comment of line 99 gives for naming, start a
    recording and leave the activity ["unnamed"]. *)
Theorem sent_name_is_not_the_activity :
  let name := [99; 111; 114; 110; 101; 114; 32; 120] in
  let named := Extended.loop (Extended.mkTick (49 :: name) 0 0 0
                                (CArray.zeroed 32)) Extended.power_on in
  let documented := Extended.loop (Extended.mkTick (50 :: name) 0 0 0
                                     (CArray.zeroed 32))
                      Extended.power_on in
  map (fun ch => ascii_of_nat (Z.to_nat ch)) name
  = list_ascii_of_string "corner x"
  /\ Extended.inputString (Extended.loop_read (49 :: name) Extended.power_on)
     = "499911111411010111432120"%string
  /\ option_map Extended.activity (final named)
     = Some "9911111411010111432120"%string
  /\ option_map Extended.activity (final named) <> Some "corner x"%string
  /\ option_map Extended.currentRecordingState (final named)
     = Some Extended.STOPPED
  /\ option_map Extended.activity (final documented)
     = Some "unnamed"%string
  /\ option_map Extended.currentRecordingState (final documented)
     = Some Extended.RECORDING.
Proof.
  cbv zeta. split; [reflexivity|]. split; [vm_compute; reflexivity|].
  assert (H : option_map Extended.activity
                (final (Extended.loop
                          (Extended.mkTick
                             [49; 99; 111; 114; 110; 101; 114; 32; 120]
                             0 0 0 (CArray.zeroed 32)) Extended.power_on))
              = Some "9911111411010111432120"%string)
    by (vm_compute; reflexivity).
  split; [exact H|]. split; [rewrite H; discriminate|].
  repeat split; vm_compute; reflexivity.
Qed.

(** C7.  In all three sketches and from every prior state: the Start
    branch of the [if] chain, and the command block on a text that begins
    with the pair of Start, leave the state RECORDING and the origin at
    the clock, every other variable as it was (the text is cleared, the
    command register holds Start); applied to a state that is already
    RECORDING with another origin, the origin is changed.  On a state that
    is STOPPED, the Stop branch and the command block on a text that
    begins with ["48"] leave the recording state, the origin, the sensor
    value, the activity, the frame buffer and the send timer as they
    were: of all variables only the command register, which then holds
    Stop, and the cleared text can differ, and where these held Stop and
    no text before, the state is the very same. *)
Theorem start_and_stop_from_every_state
        (now : Z) (rest : string)
        (s : Simple.state) (b : Batched.state) (e : Extended.state) :
  (snd (Simple.apply_command now
          (Simple.set_currentCommand Simple.START_RECORDING s))
   = Simple.mkState (Simple.hallValue s) now (Simple.inputString s) 1
       Simple.RECORDING
   /\ snd (Simple.loop_command now
             (Simple.set_inputString (String "4" (String "9" rest)) s))
      = Simple.mkState (Simple.hallValue s) now EmptyString 1
          Simple.RECORDING
   /\ (Simple.currentRecordingState s = Simple.RECORDING ->
       Simple.elapsedStartMillis s <> now ->
       Simple.elapsedStartMillis
         (snd (Simple.loop_command now
                 (Simple.set_inputString (String "4" (String "9" rest)) s)))
       <> Simple.elapsedStartMillis s)
   /\ (Simple.currentRecordingState s = Simple.STOPPED ->
       snd (Simple.apply_command now
              (Simple.set_currentCommand Simple.STOP_RECORDING s))
       = Simple.mkState (Simple.hallValue s) (Simple.elapsedStartMillis s)
           (Simple.inputString s) 0 Simple.STOPPED
       /\ snd (Simple.loop_command now
                 (Simple.set_inputString (String "4" (String "8" rest)) s))
          = Simple.mkState (Simple.hallValue s)
              (Simple.elapsedStartMillis s) EmptyString 0 Simple.STOPPED
       /\ (Simple.currentCommand s = 0 ->
           Simple.inputString s = EmptyString ->
           snd (Simple.loop_command now
                  (Simple.set_inputString (String "4" (String "8" rest))
                     s))
           = s)))
  /\ (snd (Batched.apply_command now
             (Batched.set_currentCommand Batched.START_RECORDING b))
      = Batched.mkState (Batched.hallValue b) now (Batched.inputString b) 1
          Batched.RECORDING (Batched.outputBuffer b)
          (Batched.endOfBuffer b) (Batched.remainingSpace b)
          (Batched.lastSendTimeMillis b)
      /\ snd (Batched.loop_command now
                (Batched.set_inputString (String "4" (String "9" rest)) b))
         = Batched.mkState (Batched.hallValue b) now EmptyString 1
             Batched.RECORDING (Batched.outputBuffer b)
             (Batched.endOfBuffer b) (Batched.remainingSpace b)
             (Batched.lastSendTimeMillis b)
      /\ (Batched.currentRecordingState b = Batched.RECORDING ->
          Batched.elapsedStartMillis b <> now ->
          Batched.elapsedStartMillis
            (snd (Batched.loop_command now
                    (Batched.set_inputString
                       (String "4" (String "9" rest)) b)))
          <> Batched.elapsedStartMillis b)
      /\ (Batched.currentRecordingState b = Batched.STOPPED ->
          snd (Batched.apply_command now
                 (Batched.set_currentCommand Batched.STOP_RECORDING b))
          = Batched.mkState (Batched.hallValue b)
              (Batched.elapsedStartMillis b) (Batched.inputString b) 0
              Batched.STOPPED (Batched.outputBuffer b)
              (Batched.endOfBuffer b) (Batched.remainingSpace b)
              (Batched.lastSendTimeMillis b)
          /\ snd (Batched.loop_command now
                    (Batched.set_inputString
                       (String "4" (String "8" rest)) b))
             = Batched.mkState (Batched.hallValue b)
                 (Batched.elapsedStartMillis b) EmptyString 0
                 Batched.STOPPED (Batched.outputBuffer b)
                 (Batched.endOfBuffer b) (Batched.remainingSpace b)
                 (Batched.lastSendTimeMillis b)
          /\ (Batched.currentCommand b = 0 ->
              Batched.inputString b = EmptyString ->
              snd (Batched.loop_command now
                     (Batched.set_inputString
                        (String "4" (String "8" rest)) b))
              = b)))
  /\ (snd (Extended.apply_command now
             (Extended.set_currentCommand Extended.START_RECORDING e))
      = Extended.mkState (Extended.hallValue e) now
          (Extended.inputString e) 2 Extended.RECORDING
          (Extended.activity e)
      /\ snd (Extended.loop_command now
                (Extended.set_inputString (String "5" (String "0" rest))
                   e))
         = Extended.mkState (Extended.hallValue e) now EmptyString 2
             Extended.RECORDING (Extended.activity e)
      /\ (Extended.currentRecordingState e = Extended.RECORDING ->
          Extended.elapsedStartMillis e <> now ->
          Extended.elapsedStartMillis
            (snd (Extended.loop_command now
                    (Extended.set_inputString
                       (String "5" (String "0" rest)) e)))
          <> Extended.elapsedStartMillis e)
      /\ (Extended.currentRecordingState e = Extended.STOPPED ->
          snd (Extended.apply_command now
                 (Extended.set_currentCommand Extended.STOP_RECORDING e))
          = Extended.mkState (Extended.hallValue e)
              (Extended.elapsedStartMillis e) (Extended.inputString e) 0
              Extended.STOPPED (Extended.activity e)
          /\ snd (Extended.loop_command now
                    (Extended.set_inputString
                       (String "4" (String "8" rest)) e))
             = Extended.mkState (Extended.hallValue e)
                 (Extended.elapsedStartMillis e) EmptyString 0
                 Extended.STOPPED (Extended.activity e)
          /\ (Extended.currentCommand e = 0 ->
              Extended.inputString e = EmptyString ->
              snd (Extended.loop_command now
                     (Extended.set_inputString
                        (String "4" (String "8" rest)) e))
              = e))).
Proof.
  rewrite !simple_loop_command, !simple_apply_cases
    by (cbn [Simple.inputString Simple.set_inputString]; discriminate).
  rewrite !batched_loop_command, !batched_apply_cases
    by (cbn [Batched.inputString Batched.set_inputString]; discriminate).
  rewrite !extended_loop_command, !extended_apply_cases
    by (cbn [Extended.inputString Extended.set_inputString]; discriminate).
  unfold Simple.action_code, Batched.action_code, Extended.action_code.
  cbn [Simple.inputString Simple.set_inputString Simple.currentCommand
       Simple.set_currentCommand
       Batched.inputString Batched.set_inputString Batched.currentCommand
       Batched.set_currentCommand
       Extended.inputString Extended.set_inputString
       Extended.currentCommand Extended.set_currentCommand].
  rewrite !leading_pair.
  change (WString.toInt "48" - 48) with 0.
  change (WString.toInt "49" - 48) with 1.
  change (WString.toInt "50" - 48) with 2.
  destruct s as [hv origin text cmd rs].
  destruct b as [bhv borigin btext bcmd brs buf cur room last].
  destruct e as [ehv eorigin etext ecmd ers name].
  cbn. repeat split; try reflexivity; try congruence.
  all: intros; subst; try reflexivity; try congruence.
Qed.

Lemma start_from_stopped_and_stop_when_idle :
  snd (Simple.loop_command 5000
         (Simple.set_inputString "49" Simple.power_on))
  = Simple.mkState 0 5000 EmptyString 1 Simple.RECORDING
  /\ Simple.elapsedStartMillis
       (snd (Simple.loop_command 5000
               (Simple.set_inputString "49"
                  (Simple.mkState 7 100 EmptyString 1 Simple.RECORDING))))
     <> 100
  /\ snd (Simple.loop_command 5000
            (Simple.set_inputString "48"
               (Simple.mkState 7 100 EmptyString 5 Simple.STOPPED)))
     = Simple.mkState 7 100 EmptyString 0 Simple.STOPPED
  /\ Batched.currentRecordingState
       (snd (Batched.loop_command 5000
               (Batched.set_inputString "49" Batched.power_on)))
     = Batched.RECORDING
  /\ snd (Batched.loop_command 5000
            (Batched.set_inputString "48" Batched.power_on))
     = Batched.power_on
  /\ snd (Extended.loop_command 5000
            (Extended.set_inputString "50" Extended.power_on))
     = Extended.mkState 0 5000 EmptyString 2 Extended.RECORDING "unnamed"
  /\ snd (Extended.loop_command 5000
            (Extended.set_inputString "48" Extended.power_on))
     = Extended.power_on.
Proof.
  destruct (start_and_stop_from_every_state 5000 EmptyString
              Simple.power_on Batched.power_on Extended.power_on)
    as ((_ & Hs & _ & Hs0) & (_ & Hb & _ & Hb0) & (_ & He & _ & He0)).
  destruct (start_and_stop_from_every_state 5000 EmptyString
              (Simple.mkState 7 100 EmptyString 1 Simple.RECORDING)
              Batched.power_on Extended.power_on)
    as ((_ & _ & Hrearm & _) & _).
  destruct (start_and_stop_from_every_state 5000 EmptyString
              (Simple.mkState 7 100 EmptyString 5 Simple.STOPPED)
              Batched.power_on Extended.power_on)
    as ((_ & _ & _ & Hidle) & _).
  split; [exact Hs|].
  split; [apply Hrearm; [reflexivity | cbn; lia]|].
  split; [exact (proj1 (proj2 (Hidle eq_refl)))|].
  split; [rewrite Hb; reflexivity|].
  split; [apply (proj2 (proj2 (Hb0 eq_refl))); reflexivity|].
  split; [exact He|].
  apply (proj2 (proj2 (He0 eq_refl))); reflexivity.
Defined.

End RecordingController.

(** ** Elapsed time and per-sample messages *)

Module Samples.

Import CArray.



(** In the simple sketch each run of [loop()] in state RECORDING hands
    the BLE UART one message, the formatted text and nothing else,
    whatever the local array held on entry. *)
Lemma simple_sends_exact_text
      (now sensor : Z) (outputBuf : list ascii) (st : Simple.state) :
  length outputBuf = Simple.sizeof_outputBuf ->
  Simple.currentRecordingState st = Simple.RECORDING ->
  Simple.loop_send now sensor outputBuf st
  = Running
      (Simple.writeAll
         (list_ascii_of_string
            (Simple.sample_text now
               (Simple.set_hallValue (Word32.wrap sensor) st))))
      (Simple.set_hallValue (Word32.wrap sensor) st).
Proof.
  intros Hlen Hrec. unfold Simple.loop_send. rewrite Hrec.
  set (st1 := Simple.set_hallValue (Word32.wrap sensor) st).
  destruct (StdioFacts.sprintf_fits outputBuf (Simple.sample_text now st1))
    as (mem & Hmem & _ & Hstr).
  - rewrite Hlen. unfold Simple.sizeof_outputBuf, Simple.sample_text.
    pose proof (StdioFacts.format_i_lu_lu_length Simple.category
                  (Simple.elapsed_ms now st1) (Simple.hallValue st1)).
    lia.
  - apply StdioFacts.format_i_lu_lu_no_NUL.
  - rewrite Hmem, Hstr. reflexivity.
Qed.

(** C8.  In the extended sketch a run of [loop()] in state RECORDING with
    the clock at the origin and the sensor at 5 formats the five
    characters "1:0:5" but hands the BLE UART all 32 bytes of the local
    array: the text, its NUL, and the 26 bytes the stack held there. *)
Theorem extended_sends_whole_array (buffer : list ascii) :
  length buffer = Extended.sizeof_buffer ->
  Extended.sample_text 0
    (Extended.set_hallValue 5
       (Extended.set_currentRecordingState Extended.RECORDING
          Extended.power_on))
  = "1:0:5"%string
  /\ Extended.loop_send 0 5 buffer
       (Extended.set_currentRecordingState Extended.RECORDING
          Extended.power_on)
     = Running
         [BleOut (list_ascii_of_string "1:0:5"
                  ++ NUL :: skipn 6 buffer)]
         (Extended.set_hallValue 5
            (Extended.set_currentRecordingState Extended.RECORDING
               Extended.power_on))
  /\ length (list_ascii_of_string "1:0:5" ++ NUL :: skipn 6 buffer)
     = 32%nat.
Proof.
  intros Hlen. unfold Extended.sizeof_buffer in Hlen.
  split; [reflexivity|]. split.
  - unfold Extended.loop_send.
    cbn [Extended.currentRecordingState
           Extended.set_currentRecordingState].
    change (Word32.signed 5) with 5.
    change (Extended.sample_text 0
              (Extended.set_hallValue 5
                 (Extended.mkState
                    (Extended.hallValue Extended.power_on)
                    (Extended.elapsedStartMillis Extended.power_on)
                    (Extended.inputString Extended.power_on)
                    (Extended.currentCommand Extended.power_on)
                    Extended.RECORDING
                    (Extended.activity Extended.power_on))))
      with "1:0:5"%string.
    unfold Stdio.sprintf, store_bytes. rewrite Hlen. reflexivity.
  - cbn [list_ascii_of_string app length]. rewrite length_skipn. lia.
Qed.

(** In the extended sketch every message is the whole 32-byte array; the
    formatted text, at most 25 characters, is only its C-string prefix. *)
Lemma extended_message_has_32_bytes
      (now sensor : Z) (buffer : list ascii) (st : Extended.state) :
  length buffer = Extended.sizeof_buffer ->
  Extended.currentRecordingState st = Extended.RECORDING ->
  exists mem,
    Extended.loop_send now sensor buffer st
    = Running [BleOut mem]
        (Extended.set_hallValue (Word32.signed sensor) st)
    /\ length mem = 32%nat
    /\ cstring mem
       = Some (list_ascii_of_string
                 (Extended.sample_text now
                    (Extended.set_hallValue (Word32.signed sensor) st)))
    /\ (String.length
          (Extended.sample_text now
             (Extended.set_hallValue (Word32.signed sensor) st))
        <= 25)%nat.
Proof.
  intros Hlen Hrec. unfold Extended.loop_send. rewrite Hrec.
  set (st1 := Extended.set_hallValue (Word32.signed sensor) st).
  assert (Hshort : (String.length (Extended.sample_text now st1) <= 25)%nat).
  { unfold Extended.sample_text, Stdio.format_i_i_i.
    rewrite !StringFacts.length_append.
    pose proof (WStringFacts.signed_decimal_length
                  (Word32.signed (Extended.elapsed_ms now st1))).
    pose proof (WStringFacts.signed_decimal_length
                  (Word32.signed (Extended.hallValue st1))).
    change (String.length (WString.signed_decimal Extended.category))
      with 1%nat.
    cbn [String.length]. lia. }
  destruct (StdioFacts.sprintf_fits buffer (Extended.sample_text now st1))
    as (mem & Hmem & Hl & Hstr).
  - rewrite Hlen. unfold Extended.sizeof_buffer. lia.
  - apply StdioFacts.format_i_i_i_no_NUL.
  - exists mem. rewrite Hmem. repeat split; try assumption.
    rewrite Hl, Hlen. reflexivity.
Qed.

(** The extended sketch prints the elapsed time with [%i]: from [2^31]
    milliseconds on it is reported as a negative number. *)
Remark extended_elapsed_printed_signed :
  Extended.sample_text (2 ^ 31)
    (Extended.set_hallValue 5
       (Extended.set_currentRecordingState Extended.RECORDING
          Extended.power_on))
  = "1:-2147483648:5"%string.
Proof. vm_compute. reflexivity. Qed.

Lemma extended_message_over_stale_stack :
  length (repeat "x"%char 32) = Extended.sizeof_buffer
  /\ ble_messages
       (events
          (Extended.loop_send 0 5 (repeat "x"%char 32)
             (Extended.set_currentRecordingState Extended.RECORDING
                Extended.power_on)))
     = [list_ascii_of_string "1:0:5" ++ NUL :: repeat "x"%char 26].
Proof.
  split; [reflexivity|].
  destruct (extended_sends_whole_array (repeat "x"%char 32) eq_refl)
    as (_ & Hrun & _).
  rewrite Hrun. reflexivity.
Defined.

End Samples.

(** ** From the received bytes to the command *)

Module InputFacts.

Import CommandFacts.

Lemma read_first_byte (ch : Z) (rx : list Z) :
  fold_left WString.concat_uchar (ch :: rx) EmptyString
  = (WString.decimal (ch mod 256)
     ++ fold_left WString.concat_uchar rx EmptyString)%string.
Proof. cbn [fold_left]. rewrite read_appends. reflexivity. Qed.

Lemma read_first_byte_nonempty (ch : Z) (rx : list Z) :
  fold_left WString.concat_uchar (ch :: rx) EmptyString <> EmptyString.
Proof.
  rewrite read_first_byte. intros E.
  pose proof (WStringFacts.decimal_length (ch mod 256)) as H.
  apply (f_equal String.length) in E.
  rewrite StringFacts.length_append in E. cbn [String.length] in E. lia.
Qed.

(** Whatever the bytes, the text the read loop builds from nothing is made
    of decimal digits. *)
Lemma read_all_digits (rx : list Z) :
  Forall (fun c => Frame.is_digit c = true)
    (list_ascii_of_string (fold_left WString.concat_uchar rx EmptyString)).
Proof.
  induction rx as [|ch rx IH].
  - constructor.
  - rewrite read_first_byte, StringFacts.list_ascii_of_string_app.
    apply Forall_app. split; [apply WStringFacts.decimal_all_digits | exact IH].
Qed.

Lemma simple_first_byte (now ch : Z) (rx : list Z) (st : Simple.state) :
  10 <= ch <= 99 -> Simple.inputString st = EmptyString ->
  snd (Simple.loop_command now (Simple.loop_read (ch :: rx) st))
  = Simple.set_inputString EmptyString
      (snd (Simple.apply_command now
              (Simple.set_currentCommand (ch - 48)
                 (Simple.loop_read (ch :: rx) st)))).
Proof.
  intros Hch Hempty. rewrite simple_loop_command.
  - unfold Simple.action_code, Simple.loop_read.
    cbn [Simple.inputString Simple.set_inputString]. rewrite Hempty.
    rewrite (first_byte_selects_command ch rx Hch). reflexivity.
  - unfold Simple.loop_read. cbn [Simple.inputString Simple.set_inputString].
    rewrite Hempty. apply read_first_byte_nonempty.
Qed.

Lemma batched_first_byte (now ch : Z) (rx : list Z) (st : Batched.state) :
  10 <= ch <= 99 -> Batched.inputString st = EmptyString ->
  snd (Batched.loop_command now (Batched.loop_read (ch :: rx) st))
  = Batched.set_inputString EmptyString
      (snd (Batched.apply_command now
              (Batched.set_currentCommand (ch - 48)
                 (Batched.loop_read (ch :: rx) st)))).
Proof.
  intros Hch Hempty. rewrite batched_loop_command.
  - unfold Batched.action_code, Batched.loop_read.
    cbn [Batched.inputString Batched.set_inputString]. rewrite Hempty.
    rewrite (first_byte_selects_command ch rx Hch). reflexivity.
  - unfold Batched.loop_read.
    cbn [Batched.inputString Batched.set_inputString].
    rewrite Hempty. apply read_first_byte_nonempty.
Qed.

Lemma extended_first_byte (now ch : Z) (rx : list Z) (st : Extended.state) :
  10 <= ch <= 99 -> Extended.inputString st = EmptyString ->
  snd (Extended.loop_command now (Extended.loop_read (ch :: rx) st))
  = Extended.set_inputString EmptyString
      (snd (Extended.apply_command now
              (Extended.set_currentCommand (ch - 48)
                 (Extended.loop_read (ch :: rx) st)))).
Proof.
  intros Hch Hempty. rewrite extended_loop_command.
  - unfold Extended.action_code, Extended.loop_read.
    cbn [Extended.inputString Extended.set_inputString]. rewrite Hempty.
    rewrite (first_byte_selects_command ch rx Hch). reflexivity.
  - unfold Extended.loop_read.
    cbn [Extended.inputString Extended.set_inputString].
    rewrite Hempty. apply read_first_byte_nonempty.
Qed.

(** The command block leaves no text behind, whether it found some or
    not. *)
Lemma simple_text_consumed (now : Z) (rx : list Z) (st : Simple.state) :
  Simple.inputString
    (snd (Simple.loop_command now (Simple.loop_read rx st)))
  = EmptyString.
Proof.
  destruct (string_dec (Simple.inputString (Simple.loop_read rx st))
                       EmptyString) as [E | N].
  - unfold Simple.loop_command. rewrite E. exact E.
  - rewrite (simple_loop_command _ _ N). reflexivity.
Qed.

Lemma batched_text_consumed (now : Z) (rx : list Z) (st : Batched.state) :
  Batched.inputString
    (snd (Batched.loop_command now (Batched.loop_read rx st)))
  = EmptyString.
Proof.
  destruct (string_dec (Batched.inputString (Batched.loop_read rx st))
                       EmptyString) as [E | N].
  - unfold Batched.loop_command. rewrite E. exact E.
  - rewrite (batched_loop_command _ _ N). reflexivity.
Qed.

Lemma extended_text_consumed (now : Z) (rx : list Z) (st : Extended.state) :
  Extended.inputString
    (snd (Extended.loop_command now (Extended.loop_read rx st)))
  = EmptyString.
Proof.
  destruct (string_dec (Extended.inputString (Extended.loop_read rx st))
                       EmptyString) as [E | N].
  - unfold Extended.loop_command. rewrite E. exact E.
  - rewrite (extended_loop_command _ _ N). reflexivity.
Qed.

End InputFacts.

Module Inbound.

Import CommandFacts InputFacts.

(** Splits on whether a command number is the enumerator [k]. *)
Ltac enumerator k :=
  match goal with
  | |- context [?c =? k] =>
      destruct (Z.eqb_spec c k)
  end.

(** X1.  In all three sketches, when a run of [loop()] starts with no text
    pending and the first byte it reads is between 10 and 99, the command
    it assigns is that byte minus 48, whatever bytes follow in the same
    run: the byte ['0'] stops; the byte ['1'] starts in the simple and the
    batched sketch; the byte ['2'] starts in the extended sketch; a start
    sets the origin to the clock; every other first byte leaves the
    recording state and the origin as they were. *)
Theorem first_byte_is_the_command
        (now ch : Z) (rx : list Z) (s : Simple.state) (b : Batched.state)
        (e : Extended.state) :
  10 <= ch <= 99 ->
  Simple.inputString s = EmptyString ->
  Batched.inputString b = EmptyString ->
  Extended.inputString e = EmptyString ->
  (Simple.currentCommand
     (snd (Simple.loop_command now (Simple.loop_read (ch :: rx) s)))
   = ch - 48
   /\ (ch = 48 ->
       Simple.currentRecordingState
         (snd (Simple.loop_command now (Simple.loop_read (ch :: rx) s)))
       = Simple.STOPPED)
   /\ (ch = 49 ->
       Simple.currentRecordingState
         (snd (Simple.loop_command now (Simple.loop_read (ch :: rx) s)))
       = Simple.RECORDING
       /\ Simple.elapsedStartMillis
            (snd (Simple.loop_command now (Simple.loop_read (ch :: rx) s)))
          = now)
   /\ (ch <> 48 -> ch <> 49 ->
       Simple.currentRecordingState
         (snd (Simple.loop_command now (Simple.loop_read (ch :: rx) s)))
       = Simple.currentRecordingState s
       /\ Simple.elapsedStartMillis
            (snd (Simple.loop_command now (Simple.loop_read (ch :: rx) s)))
          = Simple.elapsedStartMillis s))
  /\ (Batched.currentCommand
        (snd (Batched.loop_command now (Batched.loop_read (ch :: rx) b)))
      = ch - 48
      /\ (ch = 48 ->
          Batched.currentRecordingState
            (snd (Batched.loop_command now
                    (Batched.loop_read (ch :: rx) b)))
          = Batched.STOPPED)
      /\ (ch = 49 ->
          Batched.currentRecordingState
            (snd (Batched.loop_command now
                    (Batched.loop_read (ch :: rx) b)))
          = Batched.RECORDING
          /\ Batched.elapsedStartMillis
               (snd (Batched.loop_command now
                       (Batched.loop_read (ch :: rx) b)))
             = now)
      /\ (ch <> 48 -> ch <> 49 ->
          Batched.currentRecordingState
            (snd (Batched.loop_command now
                    (Batched.loop_read (ch :: rx) b)))
          = Batched.currentRecordingState b
          /\ Batched.elapsedStartMillis
               (snd (Batched.loop_command now
                       (Batched.loop_read (ch :: rx) b)))
             = Batched.elapsedStartMillis b))
  /\ (Extended.currentCommand
        (snd (Extended.loop_command now (Extended.loop_read (ch :: rx) e)))
      = ch - 48
      /\ (ch = 48 ->
          Extended.currentRecordingState
            (snd (Extended.loop_command now
                    (Extended.loop_read (ch :: rx) e)))
          = Extended.STOPPED)
      /\ (ch = 50 ->
          Extended.currentRecordingState
            (snd (Extended.loop_command now
                    (Extended.loop_read (ch :: rx) e)))
          = Extended.RECORDING
          /\ Extended.elapsedStartMillis
               (snd (Extended.loop_command now
                       (Extended.loop_read (ch :: rx) e)))
             = now)
      /\ (ch <> 48 -> ch <> 50 ->
          Extended.currentRecordingState
            (snd (Extended.loop_command now
                    (Extended.loop_read (ch :: rx) e)))
          = Extended.currentRecordingState e
          /\ Extended.elapsedStartMillis
               (snd (Extended.loop_command now
                       (Extended.loop_read (ch :: rx) e)))
             = Extended.elapsedStartMillis e)).
Proof.
  intros Hch Hs Hb He.
  rewrite (simple_first_byte now ch rx s Hch Hs), simple_apply_cases.
  rewrite (batched_first_byte now ch rx b Hch Hb), batched_apply_cases.
  rewrite (extended_first_byte now ch rx e Hch He), extended_apply_cases.
  cbn [Simple.currentCommand Simple.set_currentCommand
       Batched.currentCommand Batched.set_currentCommand
       Extended.currentCommand Extended.set_currentCommand].
  unfold Simple.STOP_RECORDING, Simple.START_RECORDING,
    Batched.STOP_RECORDING, Batched.START_RECORDING,
    Extended.STOP_RECORDING, Extended.START_RECORDING,
    Extended.NAME_ACTIVITY.
  split; [|split].
  - enumerator 0; [|enumerator 1];
      (split; [reflexivity|]); repeat split; intros; try lia; reflexivity.
  - enumerator 0; [|enumerator 1];
      (split; [reflexivity|]); repeat split; intros; try lia; reflexivity.
  - enumerator 0; [|enumerator 2; [|enumerator 1]];
      (split; [reflexivity|]); repeat split; intros; try lia; reflexivity.
Qed.

Lemma start_byte_followed_by_line_end :
  (10 <= 49 <= 99
   /\ Simple.inputString Simple.power_on = EmptyString
   /\ Batched.inputString Batched.power_on = EmptyString
   /\ Extended.inputString Extended.power_on = EmptyString)
  /\ Simple.currentRecordingState
       (snd (Simple.loop_command 700
               (Simple.loop_read [49; 13; 10] Simple.power_on)))
     = Simple.RECORDING
  /\ Batched.elapsedStartMillis
       (snd (Batched.loop_command 700
               (Batched.loop_read [49; 13; 10] Batched.power_on)))
     = 700
  /\ Extended.currentRecordingState
       (snd (Extended.loop_command 700
               (Extended.loop_read [49; 13; 10] Extended.power_on)))
     = Extended.STOPPED.
Proof.
  assert (Hch : 10 <= 49 <= 99) by lia.
  destruct (first_byte_is_the_command 700 49 [13; 10] Simple.power_on
              Batched.power_on Extended.power_on Hch eq_refl eq_refl
              eq_refl)
    as ((_ & _ & Hs & _) & (_ & _ & Hb & _) & (_ & _ & _ & He)).
  split; [repeat split; lia|].
  split; [exact (proj1 (Hs eq_refl))|].
  split; [exact (proj2 (Hb eq_refl))|].
  apply He; discriminate.
Defined.

(** Final states of the pieces of the batched [loop()] keep the text
    register of the state they started from. *)
Ltac keeps_text :=
  repeat match goal with
         | |- context [match ?x with _ => _ end] => destruct x
         | |- context [if ?x then _ else _] => destruct x
         end;
  cbn; intros; try discriminate;
  repeat match goal with
         | H : Some _ = Some _ |- _ => injection H as <-
         end;
  try assumption; try reflexivity.

(** X2.  In all three sketches, the state a run of [loop()] ends in has an
    empty [inputString], whatever was pending and whatever bytes the run
    read: the bytes of one run are looked at once, in that run, and are
    never joined with the bytes of a later run. *)
Theorem no_text_is_carried_over
        (ts : Simple.tick) (tb : Batched.tick) (te : Extended.tick)
        (s s' : Simple.state) (b b' : Batched.state)
        (e e' : Extended.state) :
  final (Simple.loop ts s) = Some s' ->
  final (Batched.loop tb b) = Some b' ->
  final (Extended.loop te e) = Some e' ->
  Simple.inputString s' = EmptyString
  /\ Batched.inputString b' = EmptyString
  /\ Extended.inputString e' = EmptyString.
Proof.
  intros Hs Hb He. split; [|split].
  - pose proof (simple_text_consumed (Simple.t_start ts) (Simple.rx ts) s)
      as Htext.
    revert Hs. unfold Simple.loop.
    destruct (Simple.loop_command _ _) as [out st1]. cbn [snd] in Htext.
    unfold Simple.loop_send. keeps_text.
  - pose proof (batched_text_consumed (Batched.t_start tb) (Batched.rx tb)
                  b) as Htext.
    revert Hb. unfold Batched.loop.
    destruct (Batched.loop_command _ _) as [out st1]. cbn [snd] in Htext.
    unfold Batched.loop_append, Batched.append.
    destruct (Batched.currentRecordingState st1).
    + cbn [bind emit]. unfold Batched.loop_flush, Batched.flush.
      keeps_text.
    + destruct (Stdio.snprintf _ _ _ _) as [[mem|] written];
        [|cbn; discriminate].
      destruct (written >? 0).
      * cbn [bind emit]. unfold Batched.loop_flush, Batched.flush.
        keeps_text.
      * cbn. intros H. injection H as <-. exact Htext.
  - pose proof (extended_text_consumed (Extended.t_start te)
                  (Extended.rx te) e) as Htext.
    revert He. unfold Extended.loop.
    destruct (Extended.loop_command _ _) as [out st1]. cbn [snd] in Htext.
    unfold Extended.loop_send. keeps_text.
Qed.

Lemma half_a_command_is_dropped :
  (final (Simple.loop (Simple.mkTick [4] 0 0 0 (repeat "000"%char 64))
            Simple.power_on)
   = Some (Simple.set_currentCommand (-44) Simple.power_on)
   /\ final (Batched.loop (Batched.mkTick [4] 0 0 0 0 0) Batched.power_on)
      = Some (Batched.set_currentCommand (-44) Batched.power_on)
   /\ final (Extended.loop
               (Extended.mkTick [4] 0 0 0 (repeat "000"%char 32))
               Extended.power_on)
      = Some (Extended.set_currentCommand (-44) Extended.power_on))
  /\ Simple.inputString (Simple.set_currentCommand (-44) Simple.power_on)
     = EmptyString
  /\ Batched.inputString
       (Batched.set_currentCommand (-44) Batched.power_on)
     = EmptyString
  /\ Extended.inputString
       (Extended.set_currentCommand (-44) Extended.power_on)
     = EmptyString.
Proof.
  assert (Hs : final (Simple.loop
                        (Simple.mkTick [4] 0 0 0 (repeat "000"%char 64))
                        Simple.power_on)
               = Some (Simple.set_currentCommand (-44) Simple.power_on))
    by (vm_compute; reflexivity).
  assert (Hb : final (Batched.loop (Batched.mkTick [4] 0 0 0 0 0)
                        Batched.power_on)
               = Some (Batched.set_currentCommand (-44) Batched.power_on))
    by (vm_compute; reflexivity).
  assert (He : final (Extended.loop
                        (Extended.mkTick [4] 0 0 0 (repeat "000"%char 32))
                        Extended.power_on)
               = Some (Extended.set_currentCommand (-44)
                         Extended.power_on))
    by (vm_compute; reflexivity).
  split; [|exact (no_text_is_carried_over _ _ _ _ _ _ _ _ _ Hs Hb He)].
  split; [|split]; assumption.
Defined.

(** X3.  In the extended sketch, when a run of [loop()] starts with no
    text pending and reads the byte ['1'] followed by the bytes [rx], the
    activity name becomes the decimal renderings of the bytes of [rx] one
    after the other (["co"] gives ["99111"]): the name consists of decimal
    digits only, never of the characters that were sent. *)
Theorem name_is_rendered_in_decimal
        (now : Z) (rx : list Z) (e : Extended.state) :
  Extended.inputString e = EmptyString ->
  Extended.activity
    (snd (Extended.loop_command now (Extended.loop_read (49 :: rx) e)))
  = fold_left WString.concat_uchar rx EmptyString
  /\ Forall (fun c => Frame.is_digit c = true)
       (list_ascii_of_string
          (Extended.activity
             (snd (Extended.loop_command now
                     (Extended.loop_read (49 :: rx) e))))).
Proof.
  intros He.
  assert (Hname : Extended.activity
                    (snd (Extended.loop_command now
                            (Extended.loop_read (49 :: rx) e)))
                  = fold_left WString.concat_uchar rx EmptyString).
  { rewrite (extended_first_byte now 49 rx e ltac:(lia) He),
      extended_apply_cases.
    cbn [Extended.currentCommand Extended.set_currentCommand
         Extended.inputString Extended.loop_read Extended.set_inputString].
    change (49 - 48 =? Extended.STOP_RECORDING) with false.
    change (49 - 48 =? Extended.START_RECORDING) with false.
    change (49 - 48 =? Extended.NAME_ACTIVITY) with true.
    cbv iota. cbn [Extended.activity Extended.set_activity
                   Extended.set_inputString].
    rewrite He, read_first_byte.
    change (WString.decimal (49 mod 256)) with "49"%string.
    cbn [String.append]. apply WStringFacts.substring_from_2. }
  split; [exact Hname|]. rewrite Hname. apply read_all_digits.
Qed.

Lemma name_co_becomes_99111 :
  Extended.inputString Extended.power_on = EmptyString
  /\ Extended.activity
       (snd (Extended.loop_command 0
               (Extended.loop_read [49; 99; 111] Extended.power_on)))
     = "99111"%string.
Proof.
  split; [reflexivity|].
  rewrite (proj1 (name_is_rendered_in_decimal 0 [99; 111]
                    Extended.power_on eq_refl)).
  reflexivity.
Defined.

(** X4.  In all three sketches the number cast to [enum commandAction]
    lies between -147 and 51 whatever the text is, so that storing it in
    an enumeration of 8 bits or more (the width is the compiler's choice)
    gives one of the enumerators 0, 1, 2 exactly when the number itself is
    that enumerator: no text is taken for a command through truncation. *)
Theorem command_number_survives_the_cast (text : string) (width k : Z) :
  8 <= width -> 0 <= k <= 2 ->
  (-147 <= Simple.action_code text <= 51
   /\ (Simple.action_code text mod 2 ^ width = k
       <-> Simple.action_code text = k))
  /\ (-147 <= Batched.action_code text <= 51
      /\ (Batched.action_code text mod 2 ^ width = k
          <-> Batched.action_code text = k))
  /\ (-147 <= Extended.action_code text <= 51
      /\ (Extended.action_code text mod 2 ^ width = k
          <-> Extended.action_code text = k)).
Proof.
  intros Hw Hk.
  pose proof (WStringFacts.action_code_range text) as Hr.
  pose proof (WStringFacts.action_code_cast text width k Hw Hk) as Hc.
  unfold Simple.action_code, Batched.action_code, Extended.action_code.
  repeat split; try apply Hr; apply Hc.
Qed.

Lemma byte_sized_command_number :
  (8 <= 8 /\ 0 <= 1 <= 2)
  /\ Batched.action_code "-9" = -57
  /\ (Batched.action_code "-9" mod 2 ^ 8 = 1
      <-> Batched.action_code "-9" = 1)
  /\ Batched.action_code "-9" mod 2 ^ 8 = 199.
Proof.
  split; [lia|]. split; [reflexivity|]. split; [|reflexivity].
  apply (command_number_survives_the_cast "-9" 8 1); lia.
Defined.

End Inbound.

(** ** More on the frame buffer and the send timer *)

Module TimerFacts.

Import CArray Batched.

(** The comparison of line 212 is exact as long as less than [2^32] ms
    have passed since the timer was set. *)
Lemma should_flush_exact (sent_at now : Z) (st : state) :
  lastSendTimeMillis st = Word32.wrap sent_at ->
  sent_at <= now -> now - sent_at < 2 ^ 32 ->
  should_flush (Word32.wrap now) st
  = (metricsSendFrequencyMs <? now - sent_at).
Proof.
  intros Hlast Hle Hlt. unfold should_flush. rewrite Hlast.
  rewrite Word32Facts.sub_wrap_exact by (unfold Word32.modulus; lia).
  apply Z.gtb_ltb.
Qed.

(** With the counters in order the append block always takes its first
    branch. *)
Lemma append_in_order_runs (text : string) (st : state) :
  frame_ok st -> (0 < String.length text)%nat ->
  exists st', append text st = Running [] st'.
Proof.
  intros (Hl & Hc & Hr & Hsum) Hlen. unfold append, Stdio.snprintf.
  unfold sizeof_outputBuffer in *.
  assert (Emax : (remainingSpace st >? Word32.INT_MAX) = false).
  { rewrite Z.gtb_ltb. apply Z.ltb_ge. unfold Word32.INT_MAX. lia. }
  rewrite Emax.
  assert (Hpos : (Z.of_nat (String.length text) >? 0) = true)
    by (rewrite Z.gtb_ltb; apply Z.ltb_lt; lia).
  destruct (remainingSpace st =? 0) eqn:Ezero.
  - rewrite Hpos. eexists. reflexivity.
  - apply Z.eqb_neq in Ezero. unfold store_bytes.
    set (kept := firstn _ _).
    assert (Hin : (0 <=? endOfBuffer st)
                  && (endOfBuffer st + Z.of_nat (length (kept ++ [NUL]))
                      <=? Z.of_nat (length (outputBuffer st))) = true).
    { apply andb_true_iff. split; apply Z.leb_le; [lia|].
      unfold kept. rewrite length_app, length_firstn,
        StringFacts.length_list_ascii_of_string. cbn [length]. lia. }
    rewrite Hin, Hpos. eexists. reflexivity.
Qed.

Lemma concat_records_length (samples : list (Z * Z)) :
  (length
     (concat
        (map list_ascii_of_string
           (map (fun ev => record_text metricTypeCode (fst ev) (snd ev))
                samples)))
   <= 24 * length samples)%nat.
Proof.
  induction samples as [|(e, v) samples IH]; cbn [map concat length].
  - lia.
  - rewrite length_app, StringFacts.length_list_ascii_of_string.
    pose proof (BatchedFacts.record_text_length e v). cbn [fst snd]. lia.
Qed.

End TimerFacts.

Module Batching.

Import CArray Batched.

(** X6.  In the batched sketch, after [resetOutputBuffer()] any 42 samples
    are stored whole, whatever their elapsed times and sensor values: each
    record takes between 6 and 24 bytes, the buffer text is exactly the
    records in order, all complete, and cursor + room stays 1024. *)
Theorem forty_two_samples_always_fit (samples : list (Z * Z)) (st : state) :
  (length samples <= 42)%nat ->
  exists st',
    appends
      (map (fun ev => record_text metricTypeCode (fst ev) (snd ev)) samples)
      (resetOutputBuffer st)
    = Running [] st'
    /\ Frame.contents (outputBuffer st')
       = concat
           (map list_ascii_of_string
              (map (fun ev => record_text metricTypeCode (fst ev) (snd ev))
                   samples))
    /\ Frame.complete_records (Frame.contents (outputBuffer st')) = true
    /\ endOfBuffer st' + remainingSpace st' = sizeof_outputBuffer
    /\ Forall
         (fun ev =>
            (6 <= String.length
                    (record_text metricTypeCode (fst ev) (snd ev))
             <= 24)%nat) samples.
Proof.
  intros Hlen.
  destruct (BatchedFacts.samples_below_capacity samples st)
    as (st' & Hrun & Hc & Hcomplete & Hsum).
  - pose proof (TimerFacts.concat_records_length samples).
    unfold sizeof_outputBuffer. lia.
  - exists st'. repeat split; try assumption.
    apply Forall_forall. intros (e, v) _.
    apply BatchedFacts.record_text_length.
Qed.

Lemma forty_two_largest_samples_fit :
  (length (repeat (4294967295%Z, 4294967295%Z) 42) <= 42)%nat
  /\ exists st',
      appends
        (map (fun ev => record_text metricTypeCode (fst ev) (snd ev))
             (repeat (4294967295, 4294967295) 42))
        (resetOutputBuffer power_on)
      = Running [] st'
      /\ endOfBuffer st' + remainingSpace st' = sizeof_outputBuffer.
Proof.
  assert (Hlen : (length (repeat (4294967295%Z, 4294967295%Z) 42)
                  <= 42)%nat)
    by (rewrite repeat_length; lia).
  split; [exact Hlen|].
  destruct (forty_two_samples_always_fit
              (repeat (4294967295, 4294967295) 42) power_on Hlen)
    as (st' & Hrun & _ & _ & Hsum & _).
  exists st'. split; assumption.
Defined.

(** X7.  In the batched sketch, as long as the cursor and the room are in
    order (inside the array, adding up to 1024), the append block never
    prints its diagnostic and never calls [exit], whatever the clock and
    the sensor read: a sample that does not fit any more is cut short,
    not refused. *)
Theorem diagnostic_is_dead_while_in_order (now sensor : Z) (st : state) :
  frame_ok st ->
  exists st', loop_append now sensor st = Running [] st'.
Proof.
  intros Hok. unfold loop_append.
  destruct (currentRecordingState st); [exists st; reflexivity|].
  apply TimerFacts.append_in_order_runs.
  - exact Hok.
  - unfold sample_text.
    pose proof (BatchedFacts.record_text_length
                  (elapsed_ms now (set_hallValue (Word32.wrap sensor) st))
                  (hallValue (set_hallValue (Word32.wrap sensor) st))).
    lia.
Qed.

Lemma nearly_full_buffer_takes_a_long_sample :
  frame_ok Scenario.nearly_full
  /\ (Z.of_nat (String.length
                  (sample_text 0 (set_hallValue 1000 Scenario.nearly_full)))
      > remainingSpace Scenario.nearly_full)
  /\ exists st', loop_append 0 1000 Scenario.nearly_full = Running [] st'.
Proof.
  assert (Hok : frame_ok Scenario.nearly_full)
    by (unfold frame_ok; vm_compute; repeat split; discriminate).
  split; [exact Hok|]. split; [vm_compute; reflexivity|].
  exact (diagnostic_is_dead_while_in_order 0 1000 _ Hok).
Defined.

End Batching.

(** ** Whole runs of the simple and the extended sketch *)

Module SendFacts.

Import CArray.

Lemma ble_messages_app (a b : list event) :
  ble_messages (a ++ b) = ble_messages a ++ ble_messages b.
Proof.
  induction a as [|[text | bytes] a IH]; cbn [app ble_messages].
  - reflexivity.
  - exact IH.
  - now rewrite IH.
Qed.

Lemma events_emit {S : Type} (pre : list event) (o : outcome S) :
  events (emit pre o) = pre ++ events o.
Proof. destruct o; reflexivity. Qed.

(** The command block only writes to the console. *)
Lemma simple_command_is_silent (now : Z) (st : Simple.state) :
  ble_messages (fst (Simple.loop_command now st)) = [].
Proof.
  unfold Simple.loop_command, Simple.apply_command.
  destruct (0 <? _)%nat; [|reflexivity].
  cbn [Simple.currentCommand Simple.set_currentCommand].
  destruct (_ =? Simple.STOP_RECORDING); [reflexivity|].
  destruct (_ =? Simple.START_RECORDING); reflexivity.
Qed.

Lemma batched_command_is_silent (now : Z) (st : Batched.state) :
  ble_messages (fst (Batched.loop_command now st)) = [].
Proof.
  unfold Batched.loop_command, Batched.apply_command.
  destruct (0 <? _)%nat; [|reflexivity].
  cbn [Batched.currentCommand Batched.set_currentCommand].
  destruct (_ =? Batched.STOP_RECORDING); [reflexivity|].
  destruct (_ =? Batched.START_RECORDING); reflexivity.
Qed.

Lemma extended_command_is_silent (now : Z) (st : Extended.state) :
  ble_messages (fst (Extended.loop_command now st)) = [].
Proof.
  unfold Extended.loop_command, Extended.apply_command.
  destruct (0 <? _)%nat; [|reflexivity].
  cbn [Extended.currentCommand Extended.set_currentCommand].
  destruct (_ =? Extended.STOP_RECORDING); [reflexivity|].
  destruct (_ =? Extended.START_RECORDING); [reflexivity|].
  destruct (_ =? Extended.NAME_ACTIVITY); reflexivity.
Qed.

(** The longest text of the simple sketch: "1", two colons and two
    ten-digit numbers. *)
Lemma simple_sample_text_length (now : Z) (st : Simple.state) :
  (5 <= String.length (Simple.sample_text now st) <= 23)%nat.
Proof.
  unfold Simple.sample_text, Stdio.format_i_lu_lu.
  rewrite !StringFacts.length_append.
  pose proof (WStringFacts.decimal_length (Simple.elapsed_ms now st)).
  pose proof (WStringFacts.decimal_length (Simple.hallValue st)).
  change (String.length (WString.signed_decimal Simple.category))
    with 1%nat.
  cbn [String.length]. lia.
Qed.

End SendFacts.

Module Sending.

Import CArray SendFacts.

(** X8.  In the simple sketch a run of [loop()] never stores outside the
    64-byte local array and never exits: the text it formats is at most 23
    characters long, and the run hands the BLE UART exactly that text,
    once, when the state after the command block is RECORDING, and
    nothing at all when it is STOPPED, whatever the array held before. *)
Theorem simple_run_sends_one_text_or_nothing
        (tk : Simple.tick) (st : Simple.state) :
  length (Simple.outputBuf tk) = Simple.sizeof_outputBuf ->
  exists out st',
    Simple.loop tk st = Running out st'
    /\ ble_messages out
       = match Simple.currentRecordingState st' with
         | Simple.RECORDING =>
             [list_ascii_of_string
                (Simple.sample_text (Simple.t_sample tk) st')]
         | Simple.STOPPED => []
         end
    /\ (String.length (Simple.sample_text (Simple.t_sample tk) st')
        <= 23)%nat.
Proof.
  intros Hlen. unfold Simple.loop.
  pose proof (simple_command_is_silent (Simple.t_start tk)
                (Simple.loop_read (Simple.rx tk) st)) as Hsilent.
  destruct (Simple.loop_command _ _) as [out st1]. cbn [fst] in Hsilent.
  destruct (Simple.currentRecordingState st1) eqn:Hrec.
  - exists (out ++ []), st1. unfold Simple.loop_send. rewrite Hrec.
    cbn [emit]. rewrite ble_messages_app, Hsilent.
    repeat split. apply simple_sample_text_length.
  - rewrite (Samples.simple_sends_exact_text _ _ _ _ Hlen Hrec).
    cbn [emit]. eexists. eexists. split; [reflexivity|].
    cbn [Simple.currentRecordingState Simple.set_hallValue].
    rewrite Hrec, ble_messages_app, Hsilent. split; [reflexivity|].
    apply simple_sample_text_length.
Qed.

Lemma simple_run_over_stale_stack :
  length (Simple.outputBuf
            (Simple.mkTick [49] 4294967295 0 4294967295
               (repeat "x"%char 64)))
  = Simple.sizeof_outputBuf
  /\ ble_messages
       (events
          (Simple.loop
             (Simple.mkTick [49] 4294967295 0 4294967295
                (repeat "x"%char 64))
             Simple.power_on))
     = [list_ascii_of_string "1:4294967295:4294967295"].
Proof.
  split; [reflexivity|].
  destruct (simple_run_sends_one_text_or_nothing
              (Simple.mkTick [49] 4294967295 0 4294967295
                 (repeat "x"%char 64))
              Simple.power_on eq_refl)
    as (out & st' & Hrun & Hble & _).
  rewrite Hrun. cbn [events]. rewrite Hble.
  assert (Hst : Simple.loop
                  (Simple.mkTick [49] 4294967295 0 4294967295
                     (repeat "x"%char 64))
                  Simple.power_on
                = Running
                    [println "49"; println "received START_RECORDING command";
                     SerialOut "1:4294967295:4294967295";
                     BleOut (list_ascii_of_string
                               "1:4294967295:4294967295")]
                    (Simple.mkState 4294967295 0 EmptyString 1
                       Simple.RECORDING))
    by (vm_compute; reflexivity).
  rewrite Hst in Hrun. injection Hrun as _ <-. reflexivity.
Defined.

(** X9.  In the extended sketch a run of [loop()] never stores outside the
    32-byte local array and never exits: the text it formats is at most 25
    characters long, so text and NUL fit; when the state after the command
    block is RECORDING the run hands the BLE UART one message of 32 bytes
    whose C string is the text, and nothing when it is STOPPED. *)
Theorem extended_run_stays_inside_its_array
        (tk : Extended.tick) (st : Extended.state) :
  length (Extended.buffer tk) = Extended.sizeof_buffer ->
  exists out st',
    Extended.loop tk st = Running out st'
    /\ (String.length (Extended.sample_text (Extended.t_sample tk) st')
        <= 25)%nat
    /\ match Extended.currentRecordingState st' with
       | Extended.RECORDING =>
           exists mem,
             ble_messages out = [mem]
             /\ length mem = 32%nat
             /\ cstring mem
                = Some (list_ascii_of_string
                          (Extended.sample_text (Extended.t_sample tk)
                             st'))
       | Extended.STOPPED => ble_messages out = []
       end.
Proof.
  intros Hlen. unfold Extended.loop.
  pose proof (extended_command_is_silent (Extended.t_start tk)
                (Extended.loop_read (Extended.rx tk) st)) as Hsilent.
  destruct (Extended.loop_command _ _) as [out st1]. cbn [fst] in Hsilent.
  destruct (Extended.currentRecordingState st1) eqn:Hrec.
  - exists (out ++ []), st1. unfold Extended.loop_send. rewrite Hrec.
    cbn [emit]. rewrite ble_messages_app, Hsilent.
    split; [reflexivity|]. split; [|reflexivity].
    unfold Extended.sample_text, Stdio.format_i_i_i.
    rewrite !StringFacts.length_append.
    pose proof (WStringFacts.signed_decimal_length
                  (Word32.signed
                     (Extended.elapsed_ms (Extended.t_sample tk) st1))).
    pose proof (WStringFacts.signed_decimal_length
                  (Word32.signed (Extended.hallValue st1))).
    change (String.length (WString.signed_decimal Extended.category))
      with 1%nat.
    cbn [String.length]. lia.
  - destruct (Samples.extended_message_has_32_bytes
                (Extended.t_sample tk) (Extended.sensor tk)
                (Extended.buffer tk) st1 Hlen Hrec)
      as (mem & Hrun & Hl & Hstr & Hshort).
    rewrite Hrun. cbn [emit]. eexists. eexists. split; [reflexivity|].
    cbn [Extended.currentRecordingState Extended.set_hallValue].
    rewrite Hrec. split; [exact Hshort|].
    exists mem. rewrite ble_messages_app, Hsilent.
    repeat split; assumption.
Qed.

Lemma extended_run_with_longest_text :
  length (Extended.buffer
            (Extended.mkTick [50] 2147483648 0 2147483648
               (repeat "x"%char 32)))
  = Extended.sizeof_buffer
  /\ ble_messages
       (events
          (Extended.loop
             (Extended.mkTick [50] 2147483648 0 2147483648
                (repeat "x"%char 32))
             Extended.power_on))
     = [list_ascii_of_string "1:-2147483648:-2147483648"
        ++ NUL :: repeat "x"%char 6].
Proof.
  split; [reflexivity|].
  destruct (extended_run_stays_inside_its_array
              (Extended.mkTick [50] 2147483648 0 2147483648
                 (repeat "x"%char 32))
              Extended.power_on eq_refl)
    as (out & st' & Hrun & _).
  assert (Hst : ble_messages
                  (events
                     (Extended.loop
                        (Extended.mkTick [50] 2147483648 0 2147483648
                           (repeat "x"%char 32))
                        Extended.power_on))
                = [list_ascii_of_string "1:-2147483648:-2147483648"
                   ++ NUL :: repeat "x"%char 6])
    by (vm_compute; reflexivity).
  rewrite Hrun in Hst. rewrite Hrun. exact Hst.
Defined.

(** X10.  In the simple sketch a command acts in the very run of [loop()]
    that reads it.  A run that starts with no text pending and reads the
    byte ['1'] first sends a sample at once, whose elapsed field is the
    true time between the two clock readings of that run (start and
    sample); a run that reads the byte ['0'] first sends nothing, even if
    the sketch was recording before. *)
Theorem command_acts_in_the_run_that_reads_it
        (rx : list Z) (sensor t0 t1 : Z) (buf : list ascii)
        (st : Simple.state) :
  Simple.inputString st = EmptyString ->
  length buf = Simple.sizeof_outputBuf ->
  t0 <= t1 -> t1 - t0 < 2 ^ 32 ->
  ble_messages
    (events
       (Simple.loop
          (Simple.mkTick (49 :: rx) sensor (Word32.wrap t0)
             (Word32.wrap t1) buf) st))
  = [list_ascii_of_string
       (Stdio.format_i_lu_lu Simple.category (t1 - t0)
          (Word32.wrap sensor))]
  /\ ble_messages
       (events
          (Simple.loop
             (Simple.mkTick (48 :: rx) sensor (Word32.wrap t0)
                (Word32.wrap t1) buf) st))
     = [].
Proof.
  intros Hempty Hlen Hle Hlt. split.
  - unfold Simple.loop.
    cbn [Simple.rx Simple.sensor Simple.t_start Simple.t_sample
         Simple.outputBuf].
    pose proof (InputFacts.simple_first_byte (Word32.wrap t0) 49 rx st
                  ltac:(lia) Hempty) as Hst.
    pose proof (simple_command_is_silent (Word32.wrap t0)
                  (Simple.loop_read (49 :: rx) st)) as Hsilent.
    destruct (Simple.loop_command _ _) as [out st1].
    cbn [fst snd] in *. rewrite CommandFacts.simple_apply_cases in Hst.
    cbn [Simple.currentCommand Simple.set_currentCommand] in Hst.
    change (49 - 48 =? Simple.STOP_RECORDING) with false in Hst.
    change (49 - 48 =? Simple.START_RECORDING) with true in Hst.
    cbv iota in Hst.
    rewrite (Samples.simple_sends_exact_text _ _ _ _ Hlen)
      by (rewrite Hst; reflexivity).
    cbn [emit events]. rewrite ble_messages_app, Hsilent.
    cbn [app Simple.writeAll ble_messages]. do 2 f_equal.
    unfold Simple.sample_text, Simple.elapsed_ms. rewrite Hst.
    cbn [Simple.elapsedStartMillis Simple.hallValue Simple.set_hallValue
         Simple.set_inputString Simple.set_elapsedStartMillis].
    rewrite Word32Facts.sub_wrap_exact
      by (unfold Word32.modulus; lia).
    reflexivity.
  - unfold Simple.loop.
    cbn [Simple.rx Simple.sensor Simple.t_start Simple.t_sample
         Simple.outputBuf].
    pose proof (InputFacts.simple_first_byte (Word32.wrap t0) 48 rx st
                  ltac:(lia) Hempty) as Hst.
    pose proof (simple_command_is_silent (Word32.wrap t0)
                  (Simple.loop_read (48 :: rx) st)) as Hsilent.
    destruct (Simple.loop_command _ _) as [out st1].
    cbn [fst snd] in *. rewrite CommandFacts.simple_apply_cases in Hst.
    cbn [Simple.currentCommand Simple.set_currentCommand] in Hst.
    change (48 - 48 =? Simple.STOP_RECORDING) with true in Hst.
    cbv iota in Hst.
    unfold Simple.loop_send. rewrite Hst.
    cbn [Simple.currentRecordingState Simple.set_inputString
         Simple.set_currentRecordingState emit events].
    rewrite ble_messages_app, Hsilent. reflexivity.
Qed.

Lemma start_then_sample_250_ms_later :
  (Simple.inputString
     (Simple.mkState 9 77 EmptyString 0 Simple.RECORDING)
   = EmptyString
   /\ length (repeat "x"%char 64) = Simple.sizeof_outputBuf
   /\ 4294967200 <= 4294967450 /\ 4294967450 - 4294967200 < 2 ^ 32)
  /\ ble_messages
       (events
          (Simple.loop
             (Simple.mkTick [49] 42 4294967200 154 (repeat "x"%char 64))
             (Simple.mkState 9 77 EmptyString 0 Simple.RECORDING)))
     = [list_ascii_of_string "1:250:42"]
  /\ ble_messages
       (events
          (Simple.loop
             (Simple.mkTick [48] 42 4294967200 154 (repeat "x"%char 64))
             (Simple.mkState 9 77 EmptyString 0 Simple.RECORDING)))
     = [].
Proof.
  assert (H1 : Simple.inputString
                 (Simple.mkState 9 77 EmptyString 0 Simple.RECORDING)
               = EmptyString) by reflexivity.
  assert (H2 : length (repeat "x"%char 64) = Simple.sizeof_outputBuf)
    by reflexivity.
  assert (H3 : 4294967200 <= 4294967450) by lia.
  assert (H4 : 4294967450 - 4294967200 < 2 ^ 32) by lia.
  split; [repeat split; assumption|].
  split.
  - exact (proj1 (command_acts_in_the_run_that_reads_it [] 42 4294967200
                    4294967450 _ _ H1 H2 H3 H4)).
  - exact (proj2 (command_acts_in_the_run_that_reads_it [] 42 4294967200
                    4294967450 _ _ H1 H2 H3 H4)).
Defined.

End Sending.

(** ** The batched sketch on its schedule *)

Module ScheduleFacts.

Import CArray Batched Schedule.

(** The command block touches neither the frame buffer nor the timer. *)
Lemma command_keeps_frame (now : Z) (rx : list Z) (st : state) :
  outputBuffer (snd (loop_command now (loop_read rx st))) = outputBuffer st
  /\ endOfBuffer (snd (loop_command now (loop_read rx st))) = endOfBuffer st
  /\ remainingSpace (snd (loop_command now (loop_read rx st)))
     = remainingSpace st
  /\ lastSendTimeMillis (snd (loop_command now (loop_read rx st)))
     = lastSendTimeMillis st.
Proof.
  unfold loop_command, apply_command, loop_read.
  cbn [inputString set_inputString].
  destruct (0 <? _)%nat; [|repeat split].
  cbn [currentCommand set_currentCommand].
  destruct (_ =? STOP_RECORDING); [repeat split|].
  destruct (_ =? START_RECORDING); repeat split.
Qed.

(** [whole_records] only looks at the three variables of the buffer. *)
Lemma whole_records_same_frame (k : nat) (body : list ascii)
      (st st' : state) :
  outputBuffer st' = outputBuffer st ->
  endOfBuffer st' = endOfBuffer st ->
  remainingSpace st' = remainingSpace st ->
  whole_records k body st -> whole_records k body st'.
Proof.
  intros Hb Hc Hr ((H1 & H2 & H3 & H4) & Hrest).
  split; [|exact Hrest]. unfold frame_holds. rewrite Hb, Hc, Hr.
  repeat split; assumption.
Qed.

Lemma append_keeps_timer (text : string) (st st' : state)
      (out : list event) :
  append text st = Running out st' ->
  lastSendTimeMillis st' = lastSendTimeMillis st /\ out = [].
Proof.
  unfold append.
  destruct (Stdio.snprintf _ _ _ _) as [[mem|] written]; [|discriminate].
  destruct (written >? 0); [|discriminate].
  intros H. injection H as <- <-. split; reflexivity.
Qed.

(** What the append block does to a buffer of at most six whole records:
    nothing when STOPPED, one more whole record when RECORDING. *)
Lemma append_whole (now sensor : Z) (k : nat) (body : list ascii)
      (st : state) :
  whole_records k body st -> (k <= 6)%nat ->
  exists st' k' body',
    loop_append now sensor st = Running [] st'
    /\ lastSendTimeMillis st' = lastSendTimeMillis st
    /\ whole_records k' body' st'
    /\ (k' = k \/ (k' = S k /\ body' <> [])).
Proof.
  intros (Hh & Hlen & Hnn & Hcomplete & Hend) Hk. unfold loop_append.
  destruct (currentRecordingState st).
  - exists st, k, body. split; [reflexivity|]. split; [reflexivity|].
    split; [|now left]. unfold whole_records. tauto.
  - set (st1 := set_hallValue (Word32.wrap sensor) st).
    set (text := sample_text now st1).
    assert (Hh1 : frame_holds body st1) by exact Hh.
    pose proof (BatchedFacts.record_text_length (elapsed_ms now st1)
                  (hallValue st1)) as Htl.
    fold (sample_text now st1) in Htl. fold text in Htl.
    assert (Hfit : 0 < Z.of_nat (String.length text) < remainingSpace st1).
    { destruct Hh1 as (_ & _ & _ & Hsum).
      unfold sizeof_outputBuffer in Hsum. lia. }
    destruct (BatchedFacts.append_fits_holds text body st1 Hh1 Hfit)
      as (st2 & Hrun & Hh2).
    destruct (append_keeps_timer _ _ _ _ Hrun) as (Htimer & _).
    exists st2, (S k), (body ++ list_ascii_of_string text).
    split; [exact Hrun|]. split; [exact Htimer|].
    assert (Htext : list_ascii_of_string text
                    = list_ascii_of_string
                        (Stdio.format_i_lu_lu metricTypeCode
                           (elapsed_ms now st1) (hallValue st1))
                      ++ [";"%char]).
    { unfold text, sample_text, record_text.
      now rewrite StringFacts.list_ascii_of_string_app. }
    split; [|right; split; [reflexivity|]].
    + split; [exact Hh2|]. split.
      { rewrite length_app, StringFacts.length_list_ascii_of_string. lia. }
      split.
      { apply Forall_app. split; [exact Hnn|].
        apply BatchedFacts.record_text_no_NUL. }
      split.
      { rewrite FrameFacts.complete_records_app by exact Hcomplete.
        apply BatchedFacts.record_text_complete. }
      right. rewrite Htext, app_assoc. eexists. reflexivity.
    + rewrite Htext, app_assoc. intros E.
      apply (f_equal (@length ascii)) in E.
      rewrite length_app in E. cbn [length] in E. lia.
Qed.

(** The send on an empty buffer: the store of line 214 leaves the array. *)
Lemma flush_empty_faults (t : Z) (k : nat) (st : state) :
  whole_records k [] st ->
  flush t st = Faulted [] (OutOfBounds (2 ^ 32 - 1)).
Proof.
  intros ((Hbuf & Hcur & Hr & Hsum) & _). cbn [app length] in *.
  unfold sizeof_outputBuffer in Hsum. unfold flush. rewrite Hbuf.
  replace (Z.to_nat (remainingSpace st))
    with (S (Z.to_nat (remainingSpace st) - 1)) by lia.
  unfold zeroed. cbn [repeat strlen]. change (Ascii.eqb NUL NUL) with true.
  cbv iota. change (Word32.wrap (Z.of_nat 0 - 1)) with (2 ^ 32 - 1).
  unfold store, store_bytes.
  assert (Hout : (0 <=? 2 ^ 32 - 1)
                 && (2 ^ 32 - 1 + Z.of_nat (length [NUL])
                     <=? Z.of_nat
                           (length (NUL :: repeat NUL
                                      (Z.to_nat (remainingSpace st) - 1))))
                 = false).
  { apply andb_false_iff. right. apply Z.leb_gt.
    cbn [length]. rewrite repeat_length. lia. }
  rewrite Hout. reflexivity.
Qed.

(** The send on a buffer of whole records transmits them without the last
    delimiter and resets buffer and timer. *)
Lemma flush_whole (t : Z) (k : nat) (pre : list ascii) (st : state) :
  whole_records k (pre ++ [";"%char]) st -> (k <= 7)%nat ->
  flush t st
  = Running (writeAll pre)
      (set_lastSendTimeMillis t (resetOutputBuffer st)).
Proof.
  intros (Hh & Hlen & Hnn & _) Hk.
  destruct Hh as (Hbuf & Hcur & Hr & Hsum).
  assert (Hl : Z.of_nat (length (outputBuffer st)) = sizeof_outputBuffer).
  { rewrite Hbuf, length_app. unfold zeroed. rewrite repeat_length. lia. }
  unfold sizeof_outputBuffer in *.
  apply (TelemetryBatcher.flush_strips_last t st pre ";"%char
           (zeroed (Z.to_nat (remainingSpace st) - 1))).
  - rewrite Hbuf, <- app_assoc. cbn [app]. do 2 f_equal.
    replace (Z.to_nat (remainingSpace st))
      with (S (Z.to_nat (remainingSpace st) - 1)) at 1 by lia.
    reflexivity.
  - apply Forall_app in Hnn. exact (proj1 Hnn).
  - discriminate.
  - exact Hl.
Qed.

(** One run of [loop()] on schedule. *)
Lemma loop_in_step (checked sent : Z) (m : moment) (st : state) :
  in_step checked sent st ->
  on_schedule checked sent [m] ->
  match loop (tick_of m) st with
  | Running out st' =>
      in_step (at_check m) (at_sent m) st'
      /\ Forall well_framed (ble_messages out)
  | Exited _ _ _ => False
  | Faulted out f => f = OutOfBounds (2 ^ 32 - 1) /\ ble_messages out = []
  end.
Proof.
  intros (L & k & body & Hlast & HL & Hchk & Hk & Hw)
         (Hdelay & Hsent & Horder & Hlate & Hspan & _).
  unfold recordingFrequencyMs, metricsSendFrequencyMs in *.
  assert (Hk6 : (k <= 6)%nat) by lia.
  unfold loop, tick_of. cbn [rx sensor t_start t_sample t_check t_sent].
  destruct (command_keeps_frame (Word32.wrap (at_start m)) (m_rx m) st)
    as (Kb & Kc & Kr & Kt).
  pose proof (SendFacts.batched_command_is_silent
                (Word32.wrap (at_start m)) (loop_read (m_rx m) st))
    as Hsilent.
  destruct (loop_command _ _) as [out st1]. cbn [fst snd] in *.
  pose proof (whole_records_same_frame k body st st1 Kb Kc Kr Hw) as Hw1.
  destruct (append_whole (Word32.wrap (at_sample m)) (m_sensor m) k body
              st1 Hw1 Hk6)
    as (st2 & k2 & body2 & Hrun & Htimer & Hw2 & Hk2).
  rewrite Hrun. cbn [bind emit app].
  assert (Hlast2 : lastSendTimeMillis st2 = Word32.wrap L)
    by (rewrite Htimer, Kt; exact Hlast).
  unfold loop_flush.
  rewrite (TimerFacts.should_flush_exact L (at_check m) st2 Hlast2)
    by lia.
  unfold metricsSendFrequencyMs.
  destruct (1000 <? at_check m - L) eqn:Edue.
  - apply Z.ltb_lt in Edue.
    destruct Hw2 as (Hh2 & Hlen2 & Hnn2 & Hc2 & [Hempty | (pre & Hpre)]).
    + subst body2.
      rewrite (flush_empty_faults _ k2 st2)
        by (unfold whole_records; tauto).
      cbn [emit]. split; [reflexivity|].
      rewrite SendFacts.ble_messages_app, Hsilent. reflexivity.
    + subst body2.
      assert (Hw2 : whole_records k2 (pre ++ [";"%char]) st2).
      { unfold whole_records. repeat (split; [assumption|]).
        right. exists pre. reflexivity. }
      rewrite (flush_whole _ k2 pre st2 Hw2) by lia.
      cbn [emit]. split.
      * exists (at_sent m), O, (@nil ascii).
        unfold metricsSendFrequencyMs, recordingFrequencyMs.
        split; [reflexivity|]. split; [lia|]. split; [lia|].
        split; [now left|].
        split; [exact (BatchedFacts.reset_frame_holds st2)|].
        split; [cbn [length]; lia|]. split; [constructor|].
        split; [reflexivity | now left].
      * rewrite !SendFacts.ble_messages_app, Hsilent.
        cbn [app writeAll ble_messages].
        constructor; [exact Hc2 | constructor].
  - apply Z.ltb_ge in Edue. cbn [emit]. split.
    + exists L, k2, body2.
      unfold metricsSendFrequencyMs, recordingFrequencyMs.
      split; [exact Hlast2|]. split; [lia|]. split; [lia|].
      split; [|exact Hw2].
      destruct Hk2 as [-> | (-> & _)]; [destruct Hk as [-> | Hk]|].
      * now left.
      * right. lia.
      * right. lia.
    + rewrite !SendFacts.ble_messages_app, Hsilent. constructor.
Qed.

(** Any number of runs on schedule. *)
Lemma run_in_step (ms : list moment) :
  forall (checked sent : Z) (st : state),
    in_step checked sent st ->
    on_schedule checked sent ms ->
    match run (map tick_of ms) st with
    | Running out st' =>
        (exists c s, in_step c s st')
        /\ Forall well_framed (ble_messages out)
    | Exited _ _ _ => False
    | Faulted out f =>
        f = OutOfBounds (2 ^ 32 - 1)
        /\ Forall well_framed (ble_messages out)
    end.
Proof.
  induction ms as [|m ms IH]; intros checked sent st Hin Hsched.
  - cbn [map run]. split; [exists checked, sent; exact Hin | constructor].
  - cbn [map run].
    assert (Hone : on_schedule checked sent [m]).
    { cbn [on_schedule] in *. repeat split; try apply Hsched. }
    pose proof (loop_in_step checked sent m st Hin Hone) as Hstep.
    destruct (loop (tick_of m) st) as [out st1 | out code st1 | out f].
    + destruct Hstep as (Hin1 & Hout). cbn [bind].
      assert (Hrest : on_schedule (at_check m) (at_sent m) ms)
        by (cbn [on_schedule] in Hsched; apply Hsched).
      specialize (IH _ _ st1 Hin1 Hrest).
      destruct (run (map tick_of ms) st1)
        as [out2 st2 | out2 code st2 | out2 f]; cbn [emit].
      * destruct IH as (Hin2 & Hout2). split; [exact Hin2|].
        rewrite SendFacts.ble_messages_app. apply Forall_app. now split.
      * exact IH.
      * destruct IH as (Hf & Hout2). split; [exact Hf|].
        rewrite SendFacts.ble_messages_app. apply Forall_app. now split.
    + exact Hstep.
    + cbn [bind]. destruct Hstep as (Hf & Hout). split; [exact Hf|].
      rewrite Hout. constructor.
Qed.

Lemma power_on_in_step : in_step (-200) 0 power_on.
Proof.
  exists 0, O, (@nil ascii).
  split; [reflexivity|]. split; [lia|].
  split; [unfold metricsSendFrequencyMs; lia|]. split; [now left|].
  split; [exact (BatchedFacts.reset_frame_holds power_on)|].
  split; [cbn [length]; lia|]. split; [constructor|].
  split; [reflexivity | now left].
Qed.

End ScheduleFacts.

Module OnSchedule.

Import CArray Batched Schedule.

(** X12.  In the batched sketch, under the same timing, every message the
    runs of [loop()] hand to the BLE UART from power-on, up to the end of
    the runs or to the stray store of an empty send, is a sequence of
    complete [code:elapsed:value] records joined by [';'] without a
    trailing delimiter: putting the stripped [';'] back gives complete
    records only.  No cut record is ever sent. *)
Theorem on_schedule_every_frame_is_whole (ms : list moment) :
  from_power_on ms ->
  Forall well_framed (ble_messages (events (run (map tick_of ms) power_on))).
Proof.
  intros Hsched.
  pose proof (ScheduleFacts.run_in_step ms _ _ power_on
                ScheduleFacts.power_on_in_step Hsched) as Hrun.
  destruct (run (map tick_of ms) power_on) as [out st' | | out f];
    cbn [events].
  - exact (proj2 Hrun).
  - contradiction.
  - exact (proj2 Hrun).
Qed.

Lemma seven_runs_send_one_frame :
  from_power_on seven_runs
  /\ ble_messages (events (run (map tick_of seven_runs) power_on))
     = [list_ascii_of_string
          "1:0:5;1:200:5;1:400:5;1:600:5;1:800:5;1:1000:5;1:1200:5"]
  /\ well_framed
       (list_ascii_of_string
          "1:0:5;1:200:5;1:400:5;1:600:5;1:800:5;1:1000:5;1:1200:5").
Proof.
  assert (Hsched : from_power_on seven_runs)
    by (unfold from_power_on, seven_runs;
        cbn [map on_schedule at_start at_sample at_check at_sent];
        unfold recordingFrequencyMs; repeat split; lia).
  assert (Hmsg : ble_messages
                   (events (run (map tick_of seven_runs) power_on))
                 = [list_ascii_of_string
                      "1:0:5;1:200:5;1:400:5;1:600:5;1:800:5;1:1000:5;1:1200:5"])
    by (vm_compute; reflexivity).
  split; [exact Hsched|]. split; [exact Hmsg|].
  pose proof (on_schedule_every_frame_is_whole seven_runs Hsched) as H.
  rewrite Hmsg in H. inversion H as [|? ? Hw _]. exact Hw.
Defined.

End OnSchedule.

Module SendTimer.

Import CArray Batched.

(** The append block sends nothing over BLE and leaves the send timer
    alone, however it ends. *)
Lemma append_block_keeps_timer (now sensor : Z) (st : state) :
  ble_messages (events (loop_append now sensor st)) = []
  /\ (forall st', final (loop_append now sensor st) = Some st' ->
      lastSendTimeMillis st' = lastSendTimeMillis st)
  /\ (forall out st', loop_append now sensor st = Running out st' ->
      out = []).
Proof.
  unfold loop_append. destruct (currentRecordingState st).
  - cbn [events final ble_messages]. split; [reflexivity|].
    split; [now intros st' [= <-] | now intros out st' [= <- _]].
  - unfold append.
    destruct (Stdio.snprintf _ _ _ _) as [[mem|] written].
    + destruct (written >? 0); cbn [events final ble_messages].
      * split; [reflexivity|].
        split; [now intros st' [= <-] | now intros out st' [= <- _]].
      * split; [reflexivity|].
        split; [now intros st' [= <-] | discriminate].
    + cbn [events final ble_messages]. split; [reflexivity|].
      split; discriminate.
Qed.

(** X5.  In the batched sketch the send branch of line 212 is taken
    exactly when more than [metricsSendFrequencyMs] = 1000 ms of true
    time have passed since the timer was set; a tie does not send, and
    this stays right when the 32-bit clock wraps in between, as long as
    fewer than [2^32] ms have passed.  When the send is not due, the send
    block of lines 211-219 changes nothing and emits nothing, and the
    whole run of [loop()] consists of its command block and its append
    block: it hands nothing to the BLE UART and leaves the send timer as
    it was (the append block may still add a record to the buffer). *)
Theorem send_is_due_after_more_than_a_second
        (sent_at now t_sent : Z) (st : state) :
  lastSendTimeMillis st = Word32.wrap sent_at ->
  sent_at <= now -> now - sent_at < 2 ^ 32 ->
  should_flush (Word32.wrap now) st = (1000 <? now - sent_at)
  /\ (now - sent_at <= 1000 ->
      loop_flush (Word32.wrap now) t_sent st = Running [] st
      /\ forall tk : tick,
          t_check tk = Word32.wrap now ->
          ble_messages (events (loop tk st)) = []
          /\ (forall st', final (loop tk st) = Some st' ->
              lastSendTimeMillis st' = lastSendTimeMillis st)
          /\ loop tk st
             = emit (fst (loop_command (t_start tk) (loop_read (rx tk) st)))
                 (emit (events
                          (loop_append (t_sample tk) (sensor tk)
                             (snd (loop_command (t_start tk)
                                     (loop_read (rx tk) st)))))
                    (match loop_append (t_sample tk) (sensor tk)
                             (snd (loop_command (t_start tk)
                                     (loop_read (rx tk) st))) with
                     | Running _ st' => Running [] st'
                     | Exited _ code st' => Exited [] code st'
                     | Faulted _ f => Faulted [] f
                     end))).
Proof.
  intros Hlast Hle Hlt.
  pose proof (TimerFacts.should_flush_exact sent_at now st Hlast Hle Hlt)
    as Hdue.
  unfold metricsSendFrequencyMs in Hdue. split; [exact Hdue|].
  intros Hnot.
  assert (Hfalse : (1000 <? now - sent_at) = false)
    by (apply Z.ltb_ge; lia).
  split.
  { unfold loop_flush. rewrite Hdue, Hfalse. reflexivity. }
  intros tk Hcheck. unfold loop. rewrite Hcheck.
  destruct (ScheduleFacts.command_keeps_frame (t_start tk) (rx tk) st)
    as (_ & _ & _ & Kt).
  pose proof (SendFacts.batched_command_is_silent (t_start tk)
                (loop_read (rx tk) st)) as Hsilent.
  destruct (loop_command _ _) as [out st1]. cbn [fst snd] in *.
  destruct (append_block_keeps_timer (t_sample tk) (sensor tk) st1)
    as (Hble & Htimer & Hout).
  destruct (loop_append _ _ _) as [out1 st2 | out1 code st2 | out1 f];
    cbn [bind emit events final] in *.
  - rewrite (Hout out1 st2 eq_refl) in *.
    assert (Hlast2 : lastSendTimeMillis st2 = Word32.wrap sent_at)
      by (rewrite (Htimer st2 eq_refl), Kt; exact Hlast).
    unfold loop_flush.
    rewrite (TimerFacts.should_flush_exact sent_at now st2 Hlast2 Hle Hlt).
    unfold metricsSendFrequencyMs. rewrite Hfalse.
    cbn [emit events final app].
    split; [rewrite app_nil_r; exact Hsilent|].
    split; [|reflexivity].
    intros st' [= <-]. now rewrite (Htimer st2 eq_refl), Kt.
  - split; [rewrite SendFacts.ble_messages_app, Hsilent, Hble;
            reflexivity|].
    split; [|now rewrite app_nil_r].
    intros st' [= <-]. now rewrite (Htimer st2 eq_refl), Kt.
  - split; [rewrite SendFacts.ble_messages_app, Hsilent, Hble;
            reflexivity|].
    split; [discriminate | now rewrite app_nil_r].
Qed.

Lemma tie_across_clock_wrap :
  (lastSendTimeMillis
     (set_lastSendTimeMillis 4294967196 Scenario.recording)
   = Word32.wrap 4294967196
   /\ 4294967196 <= 4294968196 /\ 4294968196 - 4294967196 < 2 ^ 32)
  /\ should_flush 900
       (set_lastSendTimeMillis 4294967196 Scenario.recording) = false
  /\ loop_flush 900 901
       (set_lastSendTimeMillis 4294967196 Scenario.recording)
     = Running [] (set_lastSendTimeMillis 4294967196 Scenario.recording)
  /\ ble_messages
       (events (loop (mkTick [] 5 900 900 900 901)
                  (set_lastSendTimeMillis 4294967196 Scenario.recording)))
     = []
  /\ option_map
       (fun st' => (lastSendTimeMillis st', endOfBuffer st',
                    Frame.contents (outputBuffer st')))
       (final (loop (mkTick [] 5 900 900 900 901)
                 (set_lastSendTimeMillis 4294967196 Scenario.recording)))
     = Some (4294967196, 8, list_ascii_of_string "1:900:5;").
Proof.
  assert (H1 : lastSendTimeMillis
                 (set_lastSendTimeMillis 4294967196 Scenario.recording)
               = Word32.wrap 4294967196) by reflexivity.
  assert (H2 : 4294967196 <= 4294968196) by lia.
  assert (H3 : 4294968196 - 4294967196 < 2 ^ 32) by lia.
  destruct (send_is_due_after_more_than_a_second 4294967196 4294968196 901
              (set_lastSendTimeMillis 4294967196 Scenario.recording)
              H1 H2 H3)
    as (Hdue & Hidle).
  destruct (Hidle ltac:(lia)) as (Hblock & Hrun).
  destruct (Hrun (mkTick [] 5 900 900 900 901) eq_refl) as (Hble & _).
  split; [repeat split; assumption|].
  split; [exact Hdue|]. split; [exact Hblock|]. split; [exact Hble|].
  vm_compute. reflexivity.
Defined.

End SendTimer.

(* ================================================================== *)
(** ** The runs [loop()] performs on its own timing *)

Module ContinuedFacts.

Import CArray Batched Schedule Continued.

Lemma sample_records_snoc (samples : list (Z * Z)) (e v : Z) :
  sample_records (samples ++ [(e, v)])
  = sample_records samples
    ++ list_ascii_of_string (record_text metricTypeCode e v).
Proof.
  unfold sample_records. rewrite !map_app, concat_app.
  cbn [map concat fst snd]. now rewrite app_nil_r.
Qed.

Lemma sample_records_length (samples : list (Z * Z)) :
  (length (sample_records samples) <= 24 * length samples)%nat.
Proof. exact (TimerFacts.concat_records_length samples). Qed.

Lemma sample_records_no_NUL (samples : list (Z * Z)) :
  no_NUL (sample_records samples).
Proof.
  induction samples as [|(e, v) samples IH].
  - constructor.
  - unfold sample_records. cbn [map concat fst snd].
    apply Forall_app. split; [apply BatchedFacts.record_text_no_NUL|].
    exact IH.
Qed.

Lemma sample_records_complete (samples : list (Z * Z)) :
  Frame.complete_records (sample_records samples) = true.
Proof.
  induction samples as [|(e, v) samples IH].
  - reflexivity.
  - unfold sample_records. cbn [map concat fst snd].
    rewrite FrameFacts.complete_records_app
      by apply BatchedFacts.record_text_complete.
    exact IH.
Qed.

(** A buffer with records in it ends in the delimiter. *)
Lemma sample_records_closed (samples : list (Z * Z)) :
  samples <> [] -> exists pre, sample_records samples = pre ++ [";"%char].
Proof.
  intros Hne. destruct (exists_last Hne) as (init & (e, v) & ->).
  rewrite sample_records_snoc. unfold record_text.
  rewrite StringFacts.list_ascii_of_string_app, app_assoc.
  eexists. reflexivity.
Qed.

Lemma sample_records_empty (samples : list (Z * Z)) :
  sample_records samples = [] -> samples = [].
Proof.
  destruct samples as [|(e, v) samples]; [reflexivity|].
  unfold sample_records. cbn [map concat fst snd]. intros E.
  apply (f_equal (@length ascii)) in E.
  rewrite length_app, StringFacts.length_list_ascii_of_string in E.
  pose proof (BatchedFacts.record_text_length e v). cbn [length] in E. lia.
Qed.

Lemma holds_whole (samples : list (Z * Z)) (st : state) :
  frame_holds (sample_records samples) st ->
  whole_records (length samples) (sample_records samples) st.
Proof.
  intros Hh. split; [exact Hh|].
  split; [apply sample_records_length|].
  split; [apply sample_records_no_NUL|].
  split; [apply sample_records_complete|].
  destruct samples as [|s samples]; [now left|].
  right. apply sample_records_closed. discriminate.
Qed.

(** What a buffer of at most 42 records reads as. *)
Lemma holds_contents (samples : list (Z * Z)) (st : state) :
  frame_holds (sample_records samples) st -> (length samples <= 42)%nat ->
  Frame.contents (outputBuffer st) = sample_records samples
  /\ frame_ok st
  /\ endOfBuffer st <= 24 * Z.of_nat (length samples).
Proof.
  intros (Hbuf & Hcur & Hr & Hsum) Hk.
  pose proof (sample_records_length samples) as Hlen.
  unfold sizeof_outputBuffer in *. split; [|split].
  - unfold Frame.contents. rewrite Hbuf.
    replace (Z.to_nat (remainingSpace st))
      with (S (Z.to_nat (remainingSpace st) - 1)) by lia.
    unfold zeroed. cbn [repeat].
    now rewrite (CArrayFacts.cstring_app_NUL _ _
                   (sample_records_no_NUL samples)).
  - unfold frame_ok, sizeof_outputBuffer.
    rewrite Hbuf, Hcur, length_app. unfold zeroed.
    rewrite repeat_length. repeat split; lia.
  - lia.
Qed.

(** [frame_holds] only looks at the three variables of the buffer. *)
Lemma holds_same_frame (body : list ascii) (st st' : state) :
  outputBuffer st' = outputBuffer st ->
  endOfBuffer st' = endOfBuffer st ->
  remainingSpace st' = remainingSpace st ->
  frame_holds body st -> frame_holds body st'.
Proof.
  intros Hb Hc Hr H. unfold frame_holds. rewrite Hb, Hc, Hr. exact H.
Qed.

(** The append block on a buffer of at most 41 records: nothing when
    STOPPED; when RECORDING the record fits and is stored whole. *)
Lemma append_paced (now sensor : Z) (samples : list (Z * Z)) (st : state) :
  frame_holds (sample_records samples) st -> (length samples <= 41)%nat ->
  match currentRecordingState st with
  | STOPPED => loop_append now sensor st = Running [] st
  | RECORDING =>
      let st1 := set_hallValue (Word32.wrap sensor) st in
      Z.of_nat (String.length (sample_text now st1)) < remainingSpace st
      /\ exists st2,
          loop_append now sensor st = Running [] st2
          /\ lastSendTimeMillis st2 = lastSendTimeMillis st
          /\ frame_holds
               (sample_records
                  (samples ++ [(elapsed_ms now st1, hallValue st1)])) st2
  end.
Proof.
  intros Hh Hk. unfold loop_append.
  destruct (currentRecordingState st); [reflexivity|].
  set (st1 := set_hallValue (Word32.wrap sensor) st). cbv zeta.
  fold st1.
  set (text := sample_text now st1).
  assert (Hh1 : frame_holds (sample_records samples) st1) by exact Hh.
  pose proof (BatchedFacts.record_text_length (elapsed_ms now st1)
                (hallValue st1)) as Htl.
  fold (sample_text now st1) in Htl. fold text in Htl.
  pose proof (sample_records_length samples) as Hlen.
  assert (Hfit : 0 < Z.of_nat (String.length text) < remainingSpace st1).
  { destruct Hh1 as (_ & _ & _ & Hsum).
    unfold sizeof_outputBuffer in Hsum. lia. }
  split; [exact (proj2 Hfit)|].
  destruct (BatchedFacts.append_fits_holds text _ st1 Hh1 Hfit)
    as (st2 & Hrun & Hh2).
  destruct (ScheduleFacts.append_keeps_timer _ _ _ _ Hrun) as (Htimer & _).
  exists st2. split; [exact Hrun|]. split; [exact Htimer|].
  rewrite sample_records_snoc. exact Hh2.
Qed.

(** The send of a run that goes on: the records without their last
    delimiter, or the empty string, and a reset. *)
Lemma flush_paced (t : Z) (samples : list (Z * Z)) (st : state) :
  frame_holds (sample_records samples) st -> (length samples <= 7)%nat ->
  exists msg,
    flush t st
    = Running (writeAll msg)
        (set_lastSendTimeMillis t (resetOutputBuffer st))
    /\ (samples = [] -> msg = [])
    /\ (samples <> [] -> sample_records samples = msg ++ [";"%char]).
Proof.
  intros Hh Hk. pose proof (holds_whole samples st Hh) as Hw.
  destruct samples as [|s samples].
  - exists []. unfold flush.
    rewrite (ScheduleFacts.flush_empty_faults t _ st Hw).
    destruct Hh as (Hbuf & _ & _ & Hsum).
    change (sample_records []) with (@nil ascii) in *.
    cbn [app length] in *. unfold sizeof_outputBuffer in Hsum.
    rewrite Hbuf.
    replace (Z.to_nat (remainingSpace st))
      with (S (Z.to_nat (remainingSpace st) - 1)) by lia.
    unfold zeroed. cbn [repeat]. unfold cstring. cbn [strlen].
    change (Ascii.eqb NUL NUL) with true. cbn [option_map firstn app].
    split; [reflexivity|]. split; [reflexivity|].
    intros H. now contradiction H.
  - destruct (sample_records_closed (s :: samples)) as (pre & Hpre);
      [discriminate|].
    exists pre. unfold flush. rewrite Hpre in Hw.
    rewrite (ScheduleFacts.flush_whole t _ pre st Hw Hk).
    split; [reflexivity|]. split; [discriminate|]. intros _. exact Hpre.
Qed.

(** One run of [loop()] on schedule. *)
Lemma loop_paced (checked sent : Z) (m : moment) (st : state) :
  paced checked sent st ->
  on_schedule checked sent [m] ->
  (exists samples,
      (length samples <= 6)%nat
      /\ frame_holds (sample_records samples) (before_append m st)
      /\ exists samples' st2,
          append_of m st = Running [] st2
          /\ (length samples' <= 7)%nat
          /\ frame_holds (sample_records samples') st2
          /\ (currentRecordingState (before_append m st) = STOPPED ->
              samples' = samples /\ st2 = before_append m st)
          /\ (currentRecordingState (before_append m st) = RECORDING ->
              let st1 := set_hallValue (Word32.wrap (m_sensor m))
                           (before_append m st) in
              Z.of_nat (String.length
                          (sample_text (Word32.wrap (at_sample m)) st1))
              < remainingSpace (before_append m st)
              /\ samples'
                 = samples
                   ++ [(elapsed_ms (Word32.wrap (at_sample m)) st1,
                        hallValue st1)]))
  /\ exists out st',
      loop (tick_of m) st = Running out st'
      /\ paced (at_check m) (at_sent m) st'
      /\ Forall (fun msg => msg = [] \/ well_framed msg) (ble_messages out).
Proof.
  intros (L & samples & Hlast & HL & Hchk & Hk & Hh)
         (Hdelay & Hsent & Horder & Hlate & Hspan & _).
  unfold recordingFrequencyMs, metricsSendFrequencyMs in *.
  assert (Hk6 : (length samples <= 6)%nat)
    by (destruct Hk as [E | Hk]; [rewrite E; cbn [length]; lia | lia]).
  assert (Hk41 : (length samples <= 41)%nat) by lia.
  unfold loop, append_of, before_append, tick_of.
  cbn [rx sensor t_start t_sample t_check t_sent].
  destruct (ScheduleFacts.command_keeps_frame
              (Word32.wrap (at_start m)) (m_rx m) st)
    as (Kb & Kc & Kr & Kt).
  pose proof (SendFacts.batched_command_is_silent
                (Word32.wrap (at_start m)) (loop_read (m_rx m) st))
    as Hsilent.
  destruct (loop_command _ _) as [out st1]. cbn [fst snd] in *.
  pose proof (holds_same_frame _ st st1 Kb Kc Kr Hh) as Hh1.
  pose proof (append_paced (Word32.wrap (at_sample m)) (m_sensor m)
                samples st1 Hh1 Hk41) as Happ.
  assert (Hmid : exists samples' st2,
             loop_append (Word32.wrap (at_sample m)) (m_sensor m) st1
             = Running [] st2
             /\ (length samples' <= S (length samples))%nat
             /\ (samples = [] \/ samples' <> [])
             /\ (samples' = samples \/ length samples' = S (length samples))
             /\ lastSendTimeMillis st2 = lastSendTimeMillis st1
             /\ frame_holds (sample_records samples') st2
             /\ (currentRecordingState st1 = STOPPED ->
                 samples' = samples /\ st2 = st1)
             /\ (currentRecordingState st1 = RECORDING ->
                 let st1' := set_hallValue (Word32.wrap (m_sensor m)) st1 in
                 Z.of_nat (String.length
                             (sample_text (Word32.wrap (at_sample m)) st1'))
                 < remainingSpace st1
                 /\ samples'
                    = samples
                      ++ [(elapsed_ms (Word32.wrap (at_sample m)) st1',
                           hallValue st1')])).
  { destruct (currentRecordingState st1).
    - exists samples, st1. split; [exact Happ|]. split; [lia|].
      split; [destruct samples; [now left | right; discriminate]|].
      split; [now left|]. split; [reflexivity|]. split; [exact Hh1|].
      split; [intros _; split; reflexivity | discriminate].
    - destruct Happ as (Hfit & st2 & Hrun & Htimer & Hh2).
      exists (samples
              ++ [(elapsed_ms (Word32.wrap (at_sample m))
                     (set_hallValue (Word32.wrap (m_sensor m)) st1),
                   hallValue
                     (set_hallValue (Word32.wrap (m_sensor m)) st1))]).
      exists st2. split; [exact Hrun|].
      split; [rewrite length_app; cbn [length]; lia|].
      split; [right; intros E; apply app_eq_nil in E;
              destruct E as (_ & E); discriminate|].
      split; [right; rewrite length_app; cbn [length]; lia|].
      split; [exact Htimer|]. split; [exact Hh2|].
      split; [discriminate|]. intros _. split; [exact Hfit | reflexivity]. }
  destruct Hmid as (samples' & st2 & Hrun & Hk' & Hne & Hgrow & Htimer
                    & Hh2 & Hstopped & Hrecording).
  split.
  - exists samples. split; [exact Hk6|]. split; [exact Hh1|].
    exists samples', st2. split; [exact Hrun|]. split; [lia|].
    split; [exact Hh2|]. split; assumption.
  - rewrite Hrun. cbn [bind emit app].
    assert (Hlast2 : lastSendTimeMillis st2 = Word32.wrap L)
      by (rewrite Htimer, Kt; exact Hlast).
    unfold loop_flush.
    rewrite (TimerFacts.should_flush_exact L (at_check m) st2 Hlast2)
      by lia.
    unfold metricsSendFrequencyMs.
    destruct (1000 <? at_check m - L) eqn:Edue.
    + apply Z.ltb_lt in Edue.
      destruct (flush_paced (Word32.wrap (at_sent m)) samples' st2 Hh2)
        as (msg & Hflush & Hnone & Hsome); [lia|].
      rewrite Hflush. cbn [emit]. eexists. eexists.
      split; [reflexivity|]. split.
      * exists (at_sent m), (@nil (Z * Z)).
        unfold metricsSendFrequencyMs, recordingFrequencyMs.
        split; [reflexivity|]. split; [lia|]. split; [lia|].
        split; [now left|].
        exact (BatchedFacts.reset_frame_holds st2).
      * rewrite !SendFacts.ble_messages_app, Hsilent.
        cbn [app writeAll ble_messages].
        constructor; [|constructor].
        destruct samples' as [|s samples'].
        { left. now apply Hnone. }
        { right. unfold well_framed. rewrite <- Hsome by discriminate.
          apply sample_records_complete. }
    + apply Z.ltb_ge in Edue. cbn [emit]. eexists. eexists.
      split; [reflexivity|]. split.
      * exists L, samples'.
        unfold metricsSendFrequencyMs, recordingFrequencyMs.
        split; [exact Hlast2|]. split; [lia|]. split; [lia|].
        split; [|exact Hh2].
        destruct Hgrow as [-> | Hgrow]; [destruct Hk as [-> | Hk]|].
        -- now left.
        -- right. lia.
        -- right. destruct Hk as [E | Hk];
             [rewrite E in Hgrow; cbn [length] in Hgrow|]; lia.
      * rewrite !SendFacts.ble_messages_app, Hsilent. constructor.
Qed.

(** Any number of runs on schedule, and the runs that follow them. *)
Lemma run_paced (ms rest : list moment) :
  forall (checked sent : Z) (st : state),
    paced checked sent st ->
    on_schedule checked sent (ms ++ rest) ->
    exists out st' checked' sent',
      run (map tick_of ms) st = Running out st'
      /\ paced checked' sent' st'
      /\ on_schedule checked' sent' rest
      /\ Forall (fun msg => msg = [] \/ well_framed msg) (ble_messages out).
Proof.
  induction ms as [|m ms IH]; intros checked sent st Hin Hsched.
  - cbn [map run app] in *. exists [], st, checked, sent.
    repeat split; try assumption. constructor.
  - cbn [map run app] in *.
    assert (Hone : on_schedule checked sent [m]).
    { cbn [on_schedule] in *. repeat split; try apply Hsched. }
    destruct (loop_paced checked sent m st Hin Hone)
      as (_ & out1 & st1 & Hloop & Hin1 & Hout1).
    rewrite Hloop. cbn [bind].
    assert (Hrest : on_schedule (at_check m) (at_sent m) (ms ++ rest))
      by (cbn [on_schedule] in Hsched; apply Hsched).
    destruct (IH _ _ st1 Hin1 Hrest)
      as (out2 & st2 & c & s & Hrun & Hin2 & Hsched2 & Hout2).
    rewrite Hrun. cbn [emit]. exists (out1 ++ out2), st2, c, s.
    split; [reflexivity|]. split; [exact Hin2|]. split; [exact Hsched2|].
    rewrite SendFacts.ble_messages_app. apply Forall_app. now split.
Qed.

Lemma power_on_paced : paced (-200) 0 power_on.
Proof.
  exists 0, (@nil (Z * Z)).
  split; [reflexivity|]. split; [lia|].
  split; [unfold metricsSendFrequencyMs; lia|]. split; [now left|].
  exact (BatchedFacts.reset_frame_holds power_on).
Qed.

(** The state before a run on schedule, and what that run's append block
    does. *)
Lemma reach (ms : list moment) (m : moment) :
  from_power_on (ms ++ [m]) ->
  exists out st samples,
    run (map tick_of ms) power_on = Running out st
    /\ (length samples <= 6)%nat
    /\ frame_holds (sample_records samples) st
    /\ frame_holds (sample_records samples) (before_append m st)
    /\ exists samples' st2,
        append_of m st = Running [] st2
        /\ (length samples' <= 7)%nat
        /\ frame_holds (sample_records samples') st2
        /\ (currentRecordingState (before_append m st) = STOPPED ->
            samples' = samples /\ st2 = before_append m st)
        /\ (currentRecordingState (before_append m st) = RECORDING ->
            let st1 := set_hallValue (Word32.wrap (m_sensor m))
                         (before_append m st) in
            Z.of_nat (String.length
                        (sample_text (Word32.wrap (at_sample m)) st1))
            < remainingSpace (before_append m st)
            /\ samples'
               = samples
                 ++ [(elapsed_ms (Word32.wrap (at_sample m)) st1,
                      hallValue st1)]).
Proof.
  intros Hsched.
  destruct (run_paced ms [m] _ _ power_on power_on_paced Hsched)
    as (out & st & c & s & Hrun & Hin & Hone & _).
  destruct (loop_paced c s m st Hin Hone)
    as ((samples & Hk & Hh1 & Hmid) & _).
  exists out, st, samples. split; [exact Hrun|]. split; [exact Hk|].
  split; [|split; [exact Hh1 | exact Hmid]].
  unfold before_append in Hh1.
  destruct (ScheduleFacts.command_keeps_frame
              (Word32.wrap (at_start m)) (m_rx m) st)
    as (Kb & Kc & Kr & _).
  apply (holds_same_frame _ _ st) in Hh1; [exact Hh1 | | |];
    symmetry; assumption.
Qed.

(** A run that does not stop at the store of an empty send is the same
    in both readings. *)
Lemma flush_agrees (t : Z) (st st' : state) (out : list event) :
  Batched.flush t st = Running out st' -> flush t st = Running out st'.
Proof. unfold flush. intros ->. reflexivity. Qed.

Lemma loop_agrees (tk : tick) (st st' : state) (out : list event) :
  Batched.loop tk st = Running out st' -> loop tk st = Running out st'.
Proof.
  unfold Batched.loop, loop, Batched.loop_flush, loop_flush.
  destruct (loop_command _ _) as [out0 st0].
  destruct (loop_append _ _ _) as [out1 st1 | |]; cbn [bind emit];
    [|discriminate..].
  destruct (should_flush _ _); [|exact (fun H => H)].
  destruct (Batched.flush _ _) as [out2 st2 | |] eqn:E; cbn [emit];
    [|discriminate..].
  rewrite (flush_agrees _ _ _ _ E). exact (fun H => H).
Qed.

Lemma run_agrees (tks : list tick) :
  forall (st st' : state) (out : list event),
    Batched.run tks st = Running out st' -> run tks st = Running out st'.
Proof.
  induction tks as [|tk tks IH]; intros st st' out.
  - exact (fun H => H).
  - cbn [Batched.run run].
    destruct (Batched.loop tk st) as [out1 st1 | |] eqn:E; cbn [bind];
      [|discriminate..].
    rewrite (loop_agrees _ _ _ _ E). cbn [bind].
    destruct (Batched.run tks st1) as [out2 st2 | |] eqn:E2; cbn [emit];
      [|discriminate..].
    rewrite (IH _ _ _ E2). exact (fun H => H).
Qed.


End ContinuedFacts.

Module RealRuns.

Import CArray Batched Schedule Continued.

(** The schedule of the seven runs of the examples. *)
Lemma seven_runs_keep_the_schedule :
  from_power_on (six_runs ++ [seventh_run]).
Proof.
  unfold from_power_on, six_runs, seventh_run, seven_runs.
  cbn [firstn map app on_schedule at_start at_sample at_check at_sent].
  unfold recordingFrequencyMs. repeat split; lia.
Qed.

(** The state a run reaches is the same whether the stray store of an
    empty send is read as harmless or as the end of the run, if the
    latter gets that far. *)
Lemma same_state_up_to_the_stray_store
      (tks : list tick) (out : list event) (st : state) :
  run tks power_on = Running out st ->
  forall out' st',
    Batched.run tks power_on = Running out' st' -> out' = out /\ st' = st.
Proof.
  intros Hrun out' st' E. apply ContinuedFacts.run_agrees in E.
  rewrite Hrun in E. injection E as <- <-. split; reflexivity.
Qed.



(** C2.  In the batched sketch, on the runs [loop()] performs, the bytes
    written to the frame buffer never exceed its 1024 bytes, and after
    every append the buffer holds complete records only: it reads as the
    records of at most seven samples (at most 168 bytes), each
    [code:elapsed:value;] whole, the cursor is their length, and the
    append never writes outside the array nor cuts a record. *)
Theorem buffer_holds_whole_records_only (ms : list moment) (m : moment) :
  from_power_on (ms ++ [m]) ->
  exists out st st2 samples,
    run (map tick_of ms) power_on = Running out st
    /\ (forall out' st',
          Batched.run (map tick_of ms) power_on = Running out' st' ->
          out' = out /\ st' = st)
    /\ append_of m st = Running [] st2
    /\ (length samples <= 7)%nat
    /\ Frame.contents (outputBuffer st2) = sample_records samples
    /\ Frame.complete_records (Frame.contents (outputBuffer st2)) = true
    /\ endOfBuffer st2
       = Z.of_nat (length (Frame.contents (outputBuffer st2)))
    /\ 0 <= endOfBuffer st2 <= 168
    /\ Z.of_nat (length (outputBuffer st2)) = 1024.
Proof.
  intros Hsched.
  destruct (ContinuedFacts.reach ms m Hsched)
    as (out & st & samples & Hrun & Hk & _ & _ & samples' & st2
        & Happ & Hk' & Hh2 & _).
  exists out, st, st2, samples'. split; [exact Hrun|].
  split; [exact (same_state_up_to_the_stray_store _ _ _ Hrun)|].
  split; [exact Happ|]. split; [exact Hk'|].
  destruct (ContinuedFacts.holds_contents _ _ Hh2)
    as (Hcontents & (Hlen & Hc & _) & Hcur); [lia|].
  rewrite Hcontents. split; [reflexivity|].
  split; [apply ContinuedFacts.sample_records_complete|].
  split; [exact (proj1 (proj2 Hh2))|]. split; [lia|]. exact Hlen.
Qed.

Lemma seven_whole_records :
  from_power_on (six_runs ++ [seventh_run])
  /\ option_map (fun st2 => Frame.contents (outputBuffer st2))
       (final (run (map tick_of six_runs) power_on
               >>= append_of seventh_run))
     = Some (list_ascii_of_string
               "1:0:5;1:200:5;1:400:5;1:600:5;1:800:5;1:1000:5;1:1200:5;")
  /\ exists out st st2,
      run (map tick_of six_runs) power_on = Running out st
      /\ append_of seventh_run st = Running [] st2
      /\ Frame.complete_records (Frame.contents (outputBuffer st2)) = true
      /\ 0 <= endOfBuffer st2 <= 168.
Proof.
  split; [exact seven_runs_keep_the_schedule|].
  split; [vm_compute; reflexivity|].
  destruct (buffer_holds_whole_records_only six_runs seventh_run
              seven_runs_keep_the_schedule)
    as (out & st & st2 & samples & Hrun & _ & Happ & _ & _ & Hwhole & _
        & Hcur & _).
  exists out, st, st2. repeat split; try assumption; apply Hcur.
Defined.

(** C9.  In the batched sketch, at every point the runs of [loop()]
    reach, the cursor and the room counter of the frame buffer add up to
    its capacity of 1024 bytes, both non-negative: between two runs,
    where the append block begins, after the append, and after a reset of
    the buffer. *)
Theorem cursor_plus_room_is_the_capacity (ms : list moment) (m : moment) :
  from_power_on (ms ++ [m]) ->
  exists out st st2,
    run (map tick_of ms) power_on = Running out st
    /\ (forall out' st',
          Batched.run (map tick_of ms) power_on = Running out' st' ->
          out' = out /\ st' = st)
    /\ (0 <= endOfBuffer st /\ 0 <= remainingSpace st
        /\ endOfBuffer st + remainingSpace st = 1024)
    /\ (endOfBuffer (before_append m st)
        + remainingSpace (before_append m st) = 1024)
    /\ append_of m st = Running [] st2
    /\ (0 <= endOfBuffer st2 /\ 0 <= remainingSpace st2
        /\ endOfBuffer st2 + remainingSpace st2 = 1024)
    /\ (endOfBuffer (resetOutputBuffer st2) = 0
        /\ remainingSpace (resetOutputBuffer st2) = 1024).
Proof.
  intros Hsched.
  destruct (ContinuedFacts.reach ms m Hsched)
    as (out & st & samples & Hrun & Hk & Hh & Hh0 & samples' & st2
        & Happ & Hk' & Hh2 & _).
  exists out, st, st2. split; [exact Hrun|].
  split; [exact (same_state_up_to_the_stray_store _ _ _ Hrun)|].
  destruct (ContinuedFacts.holds_contents _ _ Hh)
    as (_ & (_ & Hc & Hr & Hsum) & _); [lia|].
  destruct (ContinuedFacts.holds_contents _ _ Hh0)
    as (_ & (_ & _ & _ & Hsum0) & _); [lia|].
  destruct (ContinuedFacts.holds_contents _ _ Hh2)
    as (_ & (_ & Hc2 & Hr2 & Hsum2) & _); [lia|].
  unfold sizeof_outputBuffer in *.
  split; [repeat split; assumption|]. split; [exact Hsum0|].
  split; [exact Happ|]. split; [repeat split; assumption|].
  split; reflexivity.
Qed.

Lemma cursor_plus_room_in_seven_runs :
  from_power_on (six_runs ++ [seventh_run])
  /\ option_map (fun st => (endOfBuffer st, remainingSpace st))
       (final (run (map tick_of six_runs) power_on))
     = Some (47, 977)
  /\ option_map (fun st2 => (endOfBuffer st2, remainingSpace st2))
       (final (run (map tick_of six_runs) power_on
               >>= append_of seventh_run))
     = Some (56, 968)
  /\ exists out st st2,
      run (map tick_of six_runs) power_on = Running out st
      /\ endOfBuffer st + remainingSpace st = 1024
      /\ append_of seventh_run st = Running [] st2
      /\ endOfBuffer st2 + remainingSpace st2 = 1024.
Proof.
  split; [exact seven_runs_keep_the_schedule|].
  split; [vm_compute; reflexivity|].
  split; [vm_compute; reflexivity|].
  destruct (cursor_plus_room_is_the_capacity six_runs seventh_run
              seven_runs_keep_the_schedule)
    as (out & st & st2 & Hrun & _ & (_ & _ & Hsum) & _ & Happ
        & (_ & _ & Hsum2) & _).
  exists out, st, st2. repeat split; assumption.
Defined.

(** X11.  In the batched sketch, when every run of [loop()] starts at
    least [recordingFrequencyMs] = 200 ms after the previous check (the
    [delay] of line 221) and no run takes [2^31] ms, then from power-on,
    and also past the sends of an empty buffer, the sketch never takes
    the exit branch of its append block, and every run ends with the
    records of at most six samples in the buffer and nothing else
    (cursor at most 144, cursor + room = 1024): with its own timing the
    sketch does not come near the end of the 1024 bytes.  Read with the
    stray store of an empty send as the end of the run, the runs stop
    there at the latest, and otherwise end in the same state. *)
Theorem on_schedule_at_most_six_records (ms : list moment) :
  from_power_on ms ->
  (exists out st' samples,
      run (map tick_of ms) power_on = Running out st'
      /\ (length samples <= 6)%nat
      /\ Frame.contents (outputBuffer st') = sample_records samples
      /\ Frame.complete_records (Frame.contents (outputBuffer st')) = true
      /\ frame_ok st'
      /\ endOfBuffer st' <= 144)
  /\ match Batched.run (map tick_of ms) power_on with
     | Running out st' => run (map tick_of ms) power_on = Running out st'
     | Exited _ _ _ => False
     | Faulted _ f => f = OutOfBounds (2 ^ 32 - 1)
     end.
Proof.
  intros Hsched. split.
  - assert (Hsched' : on_schedule (- recordingFrequencyMs) 0 (ms ++ []))
      by (rewrite app_nil_r; exact Hsched).
    destruct (ContinuedFacts.run_paced ms [] _ _ power_on
                ContinuedFacts.power_on_paced Hsched')
      as (out & st' & c & s & Hrun & Hin & _).
    destruct Hin as (L & samples & _ & _ & Hchk & Hk & Hh).
    unfold metricsSendFrequencyMs, recordingFrequencyMs in *.
    assert (Hk6 : (length samples <= 6)%nat)
      by (destruct Hk as [E | Hk]; [rewrite E; cbn [length]; lia | lia]).
    exists out, st', samples. split; [exact Hrun|]. split; [exact Hk6|].
    destruct (ContinuedFacts.holds_contents _ _ Hh) as (Hc & Hok & Hcur);
      [lia|].
    split; [exact Hc|].
    split; [rewrite Hc; apply ContinuedFacts.sample_records_complete|].
    split; [exact Hok | lia].
  - pose proof (ScheduleFacts.run_in_step ms _ _ power_on
                  ScheduleFacts.power_on_in_step Hsched) as Hrun.
    destruct (Batched.run (map tick_of ms) power_on)
      as [out st' | | out f] eqn:E.
    + exact (ContinuedFacts.run_agrees _ _ _ _ E).
    + exact Hrun.
    + exact (proj1 Hrun).
Qed.

Lemma six_runs_leave_six_records :
  from_power_on six_runs
  /\ option_map (fun st' => Frame.contents (outputBuffer st'))
       (final (run (map tick_of six_runs) power_on))
     = Some (list_ascii_of_string
               "1:0:5;1:200:5;1:400:5;1:600:5;1:800:5;1:1000:5;")
  /\ exists out st' samples,
      run (map tick_of six_runs) power_on = Running out st'
      /\ (length samples <= 6)%nat
      /\ Frame.contents (outputBuffer st') = sample_records samples
      /\ Frame.complete_records (Frame.contents (outputBuffer st')) = true
      /\ frame_ok st'
      /\ endOfBuffer st' <= 144.
Proof.
  assert (Hsched : from_power_on six_runs).
  { unfold from_power_on, six_runs, seven_runs.
    cbn [firstn map on_schedule at_start at_sample at_check at_sent].
    unfold recordingFrequencyMs. repeat split; lia. }
  split; [exact Hsched|]. split; [vm_compute; reflexivity|].
  destruct (on_schedule_at_most_six_records six_runs Hsched) as (H & _).
  exact H.
Defined.

End RealRuns.
